(** * SubjectPerformanceModel (main.py): a shallow embedding and its properties

    The embedding follows [class SubjectPerformanceModel] method by method.
    Python values are a small tagged union, floats are IEEE binary64
    ([PrimFloat]), the two parameter dictionaries are insertion-ordered
    association lists, and every method is a computation in a state and
    exception monad over the model object and the files it touches. *)

From Stdlib Require Import ZArith List String Ascii Bool Lia Floats DecimalString.
Import ListNotations.

Set Warnings "-inexact-float".
Local Open Scope string_scope.

(** ** Python values *)

Module Py.

(** The values a parameter can hold: what [json.load] yields for a JSON
    scalar, what the sliders pass in, and what a row of a pandas frame
    hands out.  [bool] is a subclass of [int].  A row of an integer or of
    a boolean frame hands out NumPy scalars, [numpy.int64] and
    [numpy.bool_], which are no Python [int]; [numpy.float64] is a
    subclass of [float] and is a [PFloat] here.  Lists and objects as
    parameter values are left out. *)
Inductive pyval :=
| PNone
| PBool (b : bool)
| PInt (z : Z)
| PFloat (f : float)
| PStr (s : string)
| PNpInt (z : Z)
| PNpBool (b : bool).

Inductive exn_class :=
| TypeError | AttributeError | OverflowError | KeyError | OSError | ValueError.

Record exn := Exn { exn_cls : exn_class; exn_msg : string }.

(** [str(e)] *)
Definition str_exn (e : exn) : string := exn_msg e.

(** Outcome of an expression that may raise. *)
Inductive res (A : Type) :=
| Ok (a : A)
| Raise (e : exn).
Arguments Ok {A} a.
Arguments Raise {A} e.

Definition rbind {A B} (r : res A) (k : A -> res B) : res B :=
  match r with
  | Ok a => k a
  | Raise e => Raise e
  end.

Declare Scope res_scope.
Delimit Scope res_scope with res.
Notation "x <- c ;; k" := (rbind c (fun x => k))
  (at level 61, c at next level, right associativity) : res_scope.

Definition type_name (v : pyval) : string :=
  match v with
  | PNone => "NoneType"
  | PBool _ => "bool"
  | PInt _ => "int"
  | PFloat _ => "float"
  | PStr _ => "str"
  | PNpInt _ => "numpy.int64"
  | PNpBool _ => "numpy.bool"
  end.

(** *** Numbers and their ordering *)

Inductive number :=
| NumInt (z : Z)
| NumFloat (f : float).

(** A NumPy scalar compares and multiplies as the number it holds. *)
Definition as_number (v : pyval) : option number :=
  match v with
  | PBool b | PNpBool b => Some (NumInt (if b then 1 else 0))
  | PInt z | PNpInt z => Some (NumInt z)
  | PFloat f => Some (NumFloat f)
  | _ => None
  end.

Definition of_comparison (c : comparison) : float_comparison :=
  match c with
  | Eq => FEq
  | Lt => FLt
  | Gt => FGt
  end.

Definition flip (c : float_comparison) : float_comparison :=
  match c with
  | FLt => FGt
  | FGt => FLt
  | c => c
  end.

(** An [int] against a [float]: Python compares the exact values, it does
    not round the integer first.  A finite float is [m * 2^e]. *)
Definition int_float_compare (z : Z) (f : float) : float_comparison :=
  match Prim2SF f with
  | S754_nan => FNotComparable
  | S754_infinity s => if s then FGt else FLt
  | S754_zero _ => of_comparison (z ?= 0)%Z
  | S754_finite s m e =>
      let v := if s then Z.neg m else Z.pos m in
      of_comparison
        (if (0 <=? e)%Z then (z ?= v * 2 ^ e)%Z else (z * 2 ^ (- e) ?= v)%Z)
  end.

Definition num_compare (a b : number) : float_comparison :=
  match a, b with
  | NumInt x, NumInt y => of_comparison (x ?= y)%Z
  | NumFloat x, NumFloat y => PrimFloat.compare x y
  | NumInt x, NumFloat y => int_float_compare x y
  | NumFloat x, NumInt y => flip (int_float_compare y x)
  end.

Definition is_lt (c : float_comparison) : bool :=
  match c with FLt => true | _ => false end.
Definition is_gt (c : float_comparison) : bool :=
  match c with FGt => true | _ => false end.
Definition is_le (c : float_comparison) : bool :=
  match c with FLt | FEq => true | _ => false end.
Definition is_ge (c : float_comparison) : bool :=
  match c with FGt | FEq => true | _ => false end.
Definition is_eq (c : float_comparison) : bool :=
  match c with FEq => true | _ => false end.

Definition not_supported (op : string) (a b : pyval) : exn :=
  Exn TypeError
    ("'" ++ op ++ "' not supported between instances of '"
         ++ type_name a ++ "' and '" ++ type_name b ++ "'").

(** The four ordering operators.  Numbers compare with numbers, strings
    with strings; anything else raises [TypeError]. *)
Definition py_order (op : string) (test : float_comparison -> bool)
    (a b : pyval) : res bool :=
  match as_number a, as_number b with
  | Some x, Some y => Ok (test (num_compare x y))
  | _, _ =>
      match a, b with
      | PStr s, PStr t => Ok (test (of_comparison (String.compare s t)))
      | _, _ => Raise (not_supported op a b)
      end
  end.

Definition py_lt := py_order "<" is_lt.
Definition py_gt := py_order ">" is_gt.
Definition py_le := py_order "<=" is_le.
Definition py_ge := py_order ">=" is_ge.

(** [a == b] and [a != b] never raise on these values. *)
Definition py_eq (a b : pyval) : bool :=
  match as_number a, as_number b with
  | Some x, Some y => is_eq (num_compare x y)
  | _, _ =>
      match a, b with
      | PStr s, PStr t => String.eqb s t
      | PNone, PNone => true
      | _, _ => false
      end
  end.

Definition py_ne (a b : pyval) : bool := negb (py_eq a b).

(** [max(a, b)] keeps [a] unless [b > a]; [min(a, b)] keeps [a] unless
    [b < a]. *)
Definition py_max (a b : pyval) : res pyval :=
  (c <- py_gt b a ;; Ok (if c then b else a))%res.

Definition py_min (a b : pyval) : res pyval :=
  (c <- py_lt b a ;; Ok (if c then b else a))%res.

(** *** Arithmetic with a float *)

(** [int] to [float]: round to nearest, ties to even; too large raises. *)
Definition float_of_int (z : Z) : res float :=
  match binary_normalize prec emax z 0 false with
  | S754_infinity _ =>
      Raise (Exn OverflowError "int too large to convert to float")
  | sf => Ok (SF2Prim sf)
  end.

(** A 64-bit integer as a double, the cast NumPy makes: round to nearest,
    ties to even. *)
Definition float_of_int64 (z : Z) : float :=
  SF2Prim (binary_normalize prec emax z 0 false).

(** [v * w] for a float [w].  The product of a NumPy scalar is a
    [numpy.float64]; no 64-bit integer is too large for a float. *)
Definition py_mul_float (v : pyval) (w : float) : res float :=
  match v with
  | PFloat f => Ok (f * w)%float
  | PInt z | PNpInt z => (f <- float_of_int z ;; Ok (f * w)%float)%res
  | PBool b | PNpBool b => Ok ((if b then 1 else 0) * w)%float
  | PStr _ =>
      Raise (Exn TypeError "can't multiply sequence by non-int of type 'float'")
  | PNone =>
      Raise (Exn TypeError
               "unsupported operand type(s) for *: 'NoneType' and 'float'")
  end.

(** *** What [json.dump] writes *)

(** [json.dump] writes [None], [bool], [int], [float] and [str]; a NumPy
    integer or boolean is none of them. *)
Definition json_ok (v : pyval) : bool :=
  match v with
  | PNpInt _ | PNpBool _ => false
  | _ => true
  end.

(** [o.__class__.__name__] of a value [json.dump] gives up on (the class
    of NumPy booleans was named [bool_] before NumPy 2). *)
Definition class_name (v : pyval) : string :=
  match v with
  | PNpInt _ => "int64"
  | PNpBool _ => "bool"
  | _ => type_name v
  end.

Definition not_serializable (v : pyval) : exn :=
  Exn TypeError
    ("Object of type " ++ class_name v ++ " is not JSON serializable").

(** *** Text *)

Definition str_of_int (z : Z) : string := NilZero.string_of_int (Z.to_int z).

(** [s.replace(a, b)] for one-character [a] and [b]. *)
Fixpoint replace_char (a b : ascii) (s : string) : string :=
  match s with
  | EmptyString => EmptyString
  | String c s' => String (if Ascii.eqb c a then b else c) (replace_char a b s')
  end.

Definition newline : string := String (ascii_of_nat 10) EmptyString.

(** ** Dictionaries: insertion-ordered, one binding per key *)

Definition dict := list (string * pyval).

Fixpoint dict_get (d : dict) (k : string) : option pyval :=
  match d with
  | [] => None
  | (k', v) :: d' => if String.eqb k k' then Some v else dict_get d' k
  end.

(** [d[k] = v]: an existing key keeps its place, a new one goes last. *)
Fixpoint dict_set (d : dict) (k : string) (v : pyval) : dict :=
  match d with
  | [] => [(k, v)]
  | (k', v') :: d' =>
      if String.eqb k k' then (k', v) :: d' else (k', v') :: dict_set d' k v
  end.

Definition dict_keys (d : dict) : list string := map fst d.

(** [k in d] *)
Definition dict_mem (k : string) (d : dict) : bool :=
  match dict_get d k with Some _ => true | None => false end.

(** [d[k]] *)
Definition dict_item (d : dict) (k : string) : res pyval :=
  match dict_get d k with
  | Some v => Ok v
  | None => Raise (Exn KeyError ("'" ++ k ++ "'"))
  end.

(** [d.get(k, default)] *)
Definition dict_get_default (d : dict) (k : string) (default : pyval) : pyval :=
  match dict_get d k with
  | Some v => v
  | None => default
  end.

End Py.
Export Py.

(** ** The model object and the files around it *)

Record model := Model {
  confirmed_parameters : dict;
  pending_parameters : dict;
  performance_history : list pyval;
  time_steps : list Z;
  current_time : Z
}.

(** A parsed JSON document.  An array element is an object or something
    without a [get] method; object fields hold scalars. *)
Inductive jentry :=
| EObject (d : dict)
| EOther (v : pyval).

Inductive jdoc :=
| DArray (entries : list jentry)
| DObject (d : dict)
| DScalar (v : pyval).

(** What [open] followed by [json.load] finds at a path. *)
Inductive file_state :=
| FileAbsent
| FileBad (e : exn)
| FileJson (j : jdoc).

(** *** Frames

    What [pd.read_csv] returns: columns under their labels, each with the
    dtype pandas gave it, and one cell per row position in each.  The
    dtypes a CSV file gives are [bool], [int64], [float64] (NaN for an
    empty cell) and [object] (text, or cells of mixed kinds); unsigned
    columns are left out, and labels are distinct, as [read_csv] makes
    them. *)
Inductive dtype := DtBool | DtInt64 | DtFloat64 | DtObject.

Inductive numcol :=
| NBool (cells : nat -> bool)
| NInt (cells : nat -> Z)
| NFloat (cells : nat -> float).

(** An [object] column holds Python objects; [numeric] is the column that
    [pd.to_numeric(..., errors='coerce')] makes of it, with NaN wherever
    it reads no number. *)
Inductive column :=
| Numeric (c : numcol)
| Object (cells : nat -> pyval) (numeric : numcol).

Record dataframe := DataFrame {
  df_length : nat;
  df_columns : list (string * column)
}.

Record world := World {
  mdl : model;
  json_files : string -> file_state;
  csv_files : string -> res dataframe;
  (** [Some e]: opening the parameter file for writing raises [e]. *)
  store_fault : option exn;
  (** completed [json.dump] calls *)
  store_writes : nat;
  (** what [json.load] raises on the text [json.dump d] had written when
      it met a value it does not write: a [JSONDecodeError] that names
      the place where the text stops *)
  torn_error : dict -> exn
}.

Definition store_path : string := "subject_parameters.json".

Definition param_names : list string :=
  ["preparedness"; "teaching"; "materials"; "participation"; "difficulty"].

(** The dictionary literal with the five keys in source order. *)
Definition params (p t m a d : pyval) : dict :=
  [("preparedness", p); ("teaching", t); ("materials", m);
   ("participation", a); ("difficulty", d)].

(** ** State and exception monad *)

Definition M (A : Type) : Type := world -> world * res A.

Definition ret {A} (a : A) : M A := fun w => (w, Ok a).

Definition bind {A B} (c : M A) (k : A -> M B) : M B :=
  fun w =>
    match c w with
    | (w', Ok a) => k a w'
    | (w', Raise e) => (w', Raise e)
    end.

Definition lift {A} (r : res A) : M A := fun w => (w, r).

(** [try: c except Exception as e: h e]; the state reached when [c] raised
    stays. *)
Definition try_except {A} (c : M A) (h : exn -> M A) : M A :=
  fun w =>
    match c w with
    | (w', Raise e) => h e w'
    | r => r
    end.

Declare Scope m_scope.
Delimit Scope m_scope with M.
Bind Scope m_scope with M.
Notation "x <- c ;; k" := (bind c (fun x => k))
  (at level 61, c at next level, right associativity) : m_scope.
Notation "c ;; k" := (bind c (fun _ => k))
  (at level 61, right associativity) : m_scope.
Notation "' pat <- c ;; k" := (bind c (fun x => match x with pat => k end))
  (at level 61, pat pattern, c at next level, right associativity) : m_scope.

Definition get_self : M model := fun w => (w, Ok (mdl w)).

Definition modify_self (f : model -> model) : M unit :=
  fun w => (World (f (mdl w)) (json_files w) (csv_files w)
                  (store_fault w) (store_writes w) (torn_error w), Ok tt).

(** [for x in xs: body x] *)
Fixpoint for_each {X} (xs : list X) (body : X -> M unit) : M unit :=
  match xs with
  | [] => ret tt
  | x :: xs' => (body x ;; for_each xs' body)%M
  end.

(** A loop that carries local variables [acc]. *)
Fixpoint for_fold {X S} (xs : list X) (acc : S) (body : S -> X -> M S) : M S :=
  match xs with
  | [] => ret acc
  | x :: xs' => (acc' <- body acc x ;; for_fold xs' acc' body)%M
  end.

(** A generator of values that may raise, consumed in order. *)
Fixpoint map_res {X Y} (f : X -> res Y) (xs : list X) : res (list Y) :=
  match xs with
  | [] => Ok []
  | x :: xs' => (y <- f x ;; ys <- map_res f xs' ;; Ok (y :: ys))%res
  end.

Definition set_confirmed (c : dict) (m : model) : model :=
  Model c (pending_parameters m) (performance_history m) (time_steps m)
        (current_time m).

Definition set_pending (p : dict) (m : model) : model :=
  Model (confirmed_parameters m) p (performance_history m) (time_steps m)
        (current_time m).

(** *** File access *)

Definition path_exists (path : string) : M bool :=
  fun w => (w, Ok (match json_files w path with
                   | FileAbsent => false
                   | _ => true
                   end)).

(** [with open(path) as f: json.load(f)] *)
Definition json_load (path : string) : M jdoc :=
  fun w => (w, match json_files w path with
               | FileAbsent =>
                   Raise (Exn OSError
                            ("[Errno 2] No such file or directory: '"
                               ++ path ++ "'"))
               | FileBad e => Raise e
               | FileJson j => Ok j
               end).

(** The first value of [d] that [json.dump] does not write. *)
Definition unwritable (d : dict) : option pyval :=
  option_map snd (find (fun kv => negb (json_ok (snd kv))) d).

(** [with open(store_path, 'w') as f: json.dump(d, f, indent=4)].  When
    every value can be written the file then holds the object
    [json.load] reads back as [d].  [json.dump] writes piece by piece:
    when it meets a value it does not write it raises [TypeError], and
    the file, emptied by [open], is left with the text up to that value,
    which [json.load] rejects. *)
Definition json_dump_store (d : dict) : M unit :=
  fun w =>
    match store_fault w with
    | Some e => (w, Raise e)
    | None =>
        match unwritable d with
        | None =>
            (World (mdl w)
                   (fun p => if String.eqb p store_path
                             then FileJson (DObject d) else json_files w p)
                   (csv_files w) (store_fault w) (S (store_writes w))
                   (torn_error w), Ok tt)
        | Some v =>
            (World (mdl w)
                   (fun p => if String.eqb p store_path
                             then FileBad (torn_error w d)
                             else json_files w p)
                   (csv_files w) (store_fault w) (store_writes w)
                   (torn_error w), Raise (not_serializable v))
        end
    end.

Definition read_csv (path : string) : M dataframe :=
  fun w => (w, csv_files w path).

(** [param in data] *)
Definition doc_contains (data : jdoc) (param : string) : res bool :=
  match data with
  | DObject d => Ok (dict_mem param d)
  | DArray es =>
      Ok (existsb (fun e => match e with
                            | EOther (PStr s) => String.eqb s param
                            | _ => false
                            end) es)
  | DScalar (PStr s) =>
      Ok (match index 0 param s with Some _ => true | None => false end)
  | DScalar v =>
      Raise (Exn TypeError
               ("argument of type '" ++ type_name v ++ "' is not iterable"))
  end.

(** [data[param]] for a string [param] *)
Definition doc_item (data : jdoc) (param : string) : res pyval :=
  match data with
  | DObject d => dict_item d param
  | DArray _ =>
      Raise (Exn TypeError "list indices must be integers or slices, not str")
  | DScalar (PStr _) =>
      Raise (Exn TypeError "string indices must be integers, not 'str'")
  | DScalar v =>
      Raise (Exn TypeError
               ("'" ++ type_name v ++ "' object is not subscriptable"))
  end.

(** [for entry in data] *)
Definition doc_iter (data : jdoc) : res (list jentry) :=
  match data with
  | DArray es => Ok es
  | DObject d => Ok (map (fun k => EOther (PStr k)) (dict_keys d))
  | DScalar (PStr s) =>
      Ok (map (fun c => EOther (PStr (String c EmptyString)))
              (list_ascii_of_string s))
  | DScalar v =>
      Raise (Exn TypeError
               ("'" ++ type_name v ++ "' object is not iterable"))
  end.

(** [entry.get(k, default)] *)
Definition entry_get (entry : jentry) (k : string) (default : pyval)
    : res pyval :=
  match entry with
  | EObject d => Ok (dict_get_default d k default)
  | EOther v =>
      Raise (Exn AttributeError
               ("'" ++ type_name v ++ "' object has no attribute 'get'"))
  end.

(** [s.endswith(suffix)] *)
Definition endswith (s suffix : string) : bool :=
  let n := String.length s in
  let k := String.length suffix in
  (k <=? n)%nat && String.eqb (substring (n - k) k s) suffix.

(** [xs[-n:]] *)
Definition last_n {X} (n : nat) (xs : list X) : list X :=
  skipn (List.length xs - n) xs.

(** ** The methods of [SubjectPerformanceModel] *)

Section Methods.

(** Three functions of the Python runtime and of NumPy stay abstract:
    - [float_repr]: [str] of a float (shortest digits that read back);
    - [float_sum]: the builtin [sum] over the five products, floats, from
      the integer start 0 (plain left-to-right addition; since CPython
      3.12 a compensated summation where the products are Python floats);
    - [polyfit_slope]: [np.polyfit(x, y, 1)[0]], the least-squares slope. *)
Variable float_repr : float -> string.
Variable float_sum : list float -> float.
Variable polyfit_slope : list Z -> list pyval -> float.

(** [str(v)], as an f-string field formats it *)
Definition py_str (v : pyval) : string :=
  match v with
  | PNone => "None"
  | PBool b => if b then "True" else "False"
  | PInt z => str_of_int z
  | PFloat f => float_repr f
  | PStr s => s
  | PNpInt z => str_of_int z
  | PNpBool b => if b then "True" else "False"
  end.

(** [sum(items)]: the start value 0 is an [int], every item a [float] *)
Definition py_sum (items : list float) : pyval :=
  match items with
  | [] => PInt 0
  | _ => PFloat (float_sum items)
  end.

Definition fresh_parameters : dict :=
  params (PInt 50) (PInt 50) (PInt 50) (PInt 50) (PInt 50).

Definition load_parameters : M unit :=
  (there <- path_exists store_path ;;
   if there then
     try_except
       (data <- json_load store_path ;;
        self <- get_self ;;
        for_each (dict_keys (confirmed_parameters self)) (fun param =>
          present <- lift (doc_contains data param) ;;
          if present then
            v <- lift (doc_item data param) ;;
            modify_self (fun m =>
              set_confirmed (dict_set (confirmed_parameters m) param v) m) ;;
            modify_self (fun m =>
              set_pending (dict_set (pending_parameters m) param v) m)
          else ret tt))
       (fun _ => ret tt)
   else ret tt)%M.

(** [__init__] *)
Definition init : M unit :=
  (modify_self (fun _ =>
     Model fresh_parameters fresh_parameters [] [] 0) ;;
   load_parameters)%M.

Definition save_parameters : M unit :=
  try_except
    (self <- get_self ;; json_dump_store (confirmed_parameters self))%M
    (fun _ => ret tt).

Definition update_pending_parameters (new_params : dict) : M unit :=
  for_each new_params (fun '(param, value) =>
    self <- get_self ;;
    if dict_mem param (pending_parameters self) then
      modify_self (fun m =>
        set_pending (dict_set (pending_parameters m) param value) m)
    else ret tt)%M.

Definition weights : list (string * float) :=
  [("preparedness", 0.3); ("teaching", 0.3); ("materials", 0.2);
   ("participation", 0.15); ("difficulty", -0.05)]%float.

Fixpoint weights_get (ws : list (string * float)) (k : string) : res float :=
  match ws with
  | [] => Raise (Exn KeyError ("'" ++ k ++ "'"))
  | (k', w) :: ws' => if String.eqb k k' then Ok w else weights_get ws' k
  end.

(** [max(0, min(100, score))] *)
Definition clamp_score (score : pyval) : res pyval :=
  (m <- py_min (PInt 100) score ;; py_max (PInt 0) m)%res.

Definition weighted_terms (confirmed : dict) : res (list float) :=
  map_res (fun param =>
             v <- dict_item confirmed param ;;
             w <- weights_get weights param ;;
             py_mul_float v w)%res
          (dict_keys confirmed).

Definition calculate_performance : M pyval :=
  (self <- get_self ;;
   terms <- lift (weighted_terms (confirmed_parameters self)) ;;
   score <- lift (clamp_score (py_sum terms)) ;;
   modify_self (fun m =>
     Model (confirmed_parameters m) (pending_parameters m)
           (performance_history m ++ [score])
           (time_steps m ++ [current_time m])
           (current_time m + 1)) ;;
   ret score)%M.

(** One line of the change log:
    [f"{param.replace('_', ' ')}: {old_val} → {new_val}"] *)
Definition change_line (param : string) (old_val new_val : pyval) : string :=
  replace_char "_" " " param ++ ": " ++ py_str old_val ++ " → "
    ++ py_str new_val.

Definition confirm_parameters : M (option string) :=
  (self <- get_self ;;
   '(changes_made, change_log) <-
     for_fold (dict_keys (confirmed_parameters self)) (false, @nil string)
       (fun '(changes_made, change_log) param =>
          self <- get_self ;;
          c <- lift (dict_item (confirmed_parameters self) param) ;;
          p <- lift (dict_item (pending_parameters self) param) ;;
          if py_ne c p then
            modify_self (fun m =>
              set_confirmed (dict_set (confirmed_parameters m) param p) m) ;;
            ret (true, (change_log ++ [change_line param c p])%list)
          else ret (changes_made, change_log)) ;;
   if (changes_made : bool) then
     save_parameters ;;
     _ <- calculate_performance ;;
     ret (Some (String.concat newline change_log))
   else ret None)%M.

Definition predict_pass_fail (self : model)
    : res (string * string * string) :=
  match rev (performance_history self) with
  | [] => Ok ("No data", "black", "gray")
  | current_score :: _ =>
      (c70 <- py_ge current_score (PInt 70) ;;
       if c70 then Ok ("High pass chance", "green", "#ddffdd") else
       c60 <- py_ge current_score (PInt 60) ;;
       if c60 then Ok ("Likely to pass", "darkgreen", "#eeffee") else
       c50 <- py_ge current_score (PInt 50) ;;
       if c50 then Ok ("Borderline", "blue", "#ffffdd") else
       c40 <- py_ge current_score (PInt 40) ;;
       if c40 then Ok ("Risk of failing", "orange", "#ffeeee")
       else Ok ("High fail chance", "red", "#ffdddd"))%res
  end.

(** [slope > c] on floats *)
Definition float_gt (x c : float) : bool := is_gt (PrimFloat.compare x c).

Definition trend_label (slope : float) : string * string :=
  if float_gt slope 1.5 then ("Rapid improvement 📈", "green")
  else if float_gt slope 0.5 then ("Improving ↗", "darkgreen")
  else if float_gt slope (-0.5) then ("Stable ↔", "blue")
  else if float_gt slope (-1.5) then ("Declining ↘", "orange")
  else ("Rapid decline 📉", "red").

Definition predict_trend (self : model) : string * string :=
  if (List.length (performance_history self) <? 2)%nat then
    ("Not enough data", "black")
  else
    let x := last_n 5 (time_steps self) in
    let y := last_n 5 (performance_history self) in
    if (List.length x <? 2)%nat then ("Not enough data", "black")
    else trend_label (polyfit_slope x y).

(** *** Bulk import *)

(** [df[col]] and [col in df.columns] *)
Fixpoint columns_get (cols : list (string * column)) (col : string)
    : option column :=
  match cols with
  | [] => None
  | (label, c) :: cols' =>
      if String.eqb col label then Some c else columns_get cols' col
  end.

(** [df[col] = c]: a column that is there is replaced in its place, a new
    one goes last. *)
Fixpoint columns_set (cols : list (string * column)) (col : string)
    (c : column) : list (string * column) :=
  match cols with
  | [] => [(col, c)]
  | (label, c') :: cols' =>
      if String.eqb col label then (label, c) :: cols'
      else (label, c') :: columns_set cols' col c
  end.

Definition frame_get (df : dataframe) (col : string) : option column :=
  columns_get (df_columns df) col.

Definition frame_set (df : dataframe) (col : string) (c : column)
    : dataframe :=
  DataFrame (df_length df) (columns_set (df_columns df) col c).

(** [pd.to_numeric(column, errors='coerce')]: a numeric column is
    returned as it is. *)
Definition to_numeric_coerce (c : column) : numcol :=
  match c with
  | Numeric n => n
  | Object _ n => n
  end.

(** [.fillna(fill)]: only a float column has NaN cells. *)
Definition fillna (fill : float) (n : numcol) : numcol :=
  match n with
  | NFloat cells => NFloat (fun i => if is_nan (cells i) then fill else cells i)
  | _ => n
  end.

(** One round of the loop over the recognized columns:
    [df[col] = pd.to_numeric(df[col], errors='coerce').fillna(50)] for a
    column the frame has, [df[col] = 50] for one it lacks. *)
Definition numeric_step (df : dataframe) (col : string) : dataframe :=
  match frame_get df col with
  | Some c => frame_set df col (Numeric (fillna 50 (to_numeric_coerce c)))
  | None => frame_set df col (Numeric (NInt (fun _ => 50%Z)))
  end.

Definition numeric_columns (cols : list string) (df : dataframe)
    : dataframe :=
  fold_left numeric_step cols df.

Definition column_dtype (c : column) : dtype :=
  match c with
  | Numeric (NBool _) => DtBool
  | Numeric (NInt _) => DtInt64
  | Numeric (NFloat _) => DtFloat64
  | Object _ _ => DtObject
  end.

(** The dtype that holds two: integers widen to floats, and booleans mix
    with numbers, like anything with objects, only as objects. *)
Definition common_dtype (a b : dtype) : dtype :=
  match a, b with
  | DtBool, DtBool => DtBool
  | DtInt64, DtInt64 => DtInt64
  | DtFloat64, DtFloat64 | DtInt64, DtFloat64 | DtFloat64, DtInt64 => DtFloat64
  | _, _ => DtObject
  end.

(** The dtype of the rows [df.iterrows()] yields: one for all columns. *)
Definition row_dtype (df : dataframe) : dtype :=
  match map (fun lc => column_dtype (snd lc)) (df_columns df) with
  | [] => DtObject
  | d :: ds => fold_left common_dtype ds d
  end.

(** The value a row of dtype [d] hands out for the cell at position [i]:
    a NumPy scalar in a row of integers or of booleans, a
    [numpy.float64] in a row of floats, the Python object in a row of
    objects. *)
Definition row_value (d : dtype) (c : column) (i : nat) : pyval :=
  match c with
  | Numeric (NBool cells) =>
      match d with
      | DtBool => PNpBool (cells i)
      | _ => PBool (cells i)
      end
  | Numeric (NInt cells) =>
      match d with
      | DtInt64 => PNpInt (cells i)
      | DtFloat64 => PFloat (float_of_int64 (cells i))
      | _ => PInt (cells i)
      end
  | Numeric (NFloat cells) => PFloat (cells i)
  | Object cells _ => cells i
  end.

(** The row at position [i], a Series read with [row.get]. *)
Definition frame_row (df : dataframe) (i : nat) : dict :=
  map (fun lc => (fst lc, row_value (row_dtype df) (snd lc) i))
      (df_columns df).

(** [df.iterrows()] *)
Definition iterrows (df : dataframe) : list dict :=
  map (frame_row df) (seq 0 (df_length df)).

(** [min(max(v, 0), 100)] *)
Definition clamp_param (v : pyval) : res pyval :=
  (x <- py_max v (PInt 0) ;; py_min x (PInt 100))%res.

(** The dictionary literal built for one row; [get] is [row.get] or
    [entry.get]. *)
Definition row_parameters (get : string -> pyval -> res pyval) : res dict :=
  (p <- (v <- get "preparedness" (PInt 50) ;; clamp_param v) ;;
   t <- (v <- get "teaching" (PInt 50) ;; clamp_param v) ;;
   m <- (v <- get "materials" (PInt 50) ;; clamp_param v) ;;
   a <- (v <- get "participation" (PInt 50) ;; clamp_param v) ;;
   d <- (v <- get "difficulty" (PInt 50) ;; clamp_param v) ;;
   Ok (params p t m a d))%res.

(** The body of the loop over rows or entries. *)
Definition import_row (get : string -> pyval -> res pyval) : M unit :=
  (row_params <- lift (row_parameters get) ;;
   modify_self (set_confirmed row_params) ;;
   _ <- calculate_performance ;;
   ret tt)%M.

(** The [try] block of [import_bulk_data]. *)
Definition import_bulk_data_body (data_file : string) : M (bool * string) :=
    (modify_self (fun m =>
       Model (confirmed_parameters m) (pending_parameters m) [] [] 0) ;;
     (if endswith data_file ".csv" then
        df <- read_csv data_file ;;
        self <- get_self ;;
        let df := numeric_columns (dict_keys (confirmed_parameters self)) df in
        for_each (iterrows df) (fun row =>
          import_row (fun k default => Ok (dict_get_default row k default)))
      else if endswith data_file ".json" then
        data <- json_load data_file ;;
        entries <- lift (doc_iter data) ;;
        for_each entries (fun entry => import_row (entry_get entry))
      else ret tt) ;;
     save_parameters ;;
     self <- get_self ;;
     ret (true,
          "Successfully imported "
            ++ str_of_int (Z.of_nat (List.length (performance_history self)))
            ++ " records"))%M.

Definition import_bulk_data (data_file : string) : M (bool * string) :=
  try_except (import_bulk_data_body data_file)
             (fun e => ret (false, "Import failed: " ++ str_exn e)).

End Methods.

(** Plain left-to-right summation, the builtin [sum] before CPython 3.12. *)
Definition sum_left (items : list float) : float :=
  fold_left PrimFloat.add items 0%float.

(** ** Reading the model: ranges, real values, and the pure score *)

(** [0 <= v <= 100] *)
Definition in_range (v : pyval) : bool :=
  match py_le (PInt 0) v, py_le v (PInt 100) with
  | Ok true, Ok true => true
  | _, _ => false
  end.

(** The float a Python number enters arithmetic as; [None] for a value
    that is no Python number and for an [int] beyond the floats. *)
Definition real_value (v : pyval) : option float :=
  match v with
  | PFloat f => Some f
  | PInt z => match float_of_int z with Ok f => Some f | Raise _ => None end
  | PBool b => Some (if b then 1 else 0)%float
  | _ => None
  end.


(** The same for a Python or a NumPy number. *)
Definition float_value (v : pyval) : option float :=
  match v with
  | PNpInt z => real_value (PInt z)
  | PNpBool b => real_value (PBool b)
  | _ => real_value v
  end.

(** Every value of [d] is one [json.dump] writes. *)
Definition dumpable (d : dict) : bool := forallb json_ok (map snd d).

Definition is_number (v : pyval) : bool :=
  match as_number v with Some _ => true | None => false end.

Definition not_nan (v : pyval) : bool :=
  match v with
  | PFloat f => negb (is_nan f)
  | _ => true
  end.

(** The score of a confirmed set, as [calculate_performance] computes it. *)
Definition performance (float_sum : list float -> float) (confirmed : dict)
    : res pyval :=
  (terms <- weighted_terms confirmed ;; clamp_score (py_sum float_sum terms))%res.

(** The state after one more score point. *)
Definition push_score (score : pyval) (m : model) : model :=
  Model (confirmed_parameters m) (pending_parameters m)
        (performance_history m ++ [score])
        (time_steps m ++ [current_time m])
        (current_time m + 1).

Definition with_model (w : world) (m : model) : world :=
  World m (json_files w) (csv_files w) (store_fault w) (store_writes w)
        (torn_error w).

(** The files after the parameter file was overwritten with [d]. *)
Definition stored (w : world) (d : dict) : world :=
  World (mdl w)
        (fun p => if String.eqb p store_path
                  then FileJson (DObject d) else json_files w p)
        (csv_files w) (store_fault w) (S (store_writes w)) (torn_error w).

(** The files after [json.dump] gave up on [d] midway: the parameter file
    holds a text that [json.load] rejects. *)
Definition torn (w : world) (d : dict) : world :=
  World (mdl w)
        (fun p => if String.eqb p store_path
                  then FileBad (torn_error w d) else json_files w p)
        (csv_files w) (store_fault w) (store_writes w) (torn_error w).

Arguments int_float_compare : simpl never.

(** What [json.load] says of a parameter file whose text stops after its
    first key, [preparedness]: the opening brace, a line break, four
    spaces, the quoted key, a colon and a space, 22 characters in all. *)
Definition stops_at_first_value : exn :=
  Exn ValueError "Expecting value: line 2 column 21 (char 22)".

(** A freshly started model beside an empty disk; in the runs below a dump
    that stops does so at its first value. *)
Definition blank_world : world :=
  World (Model fresh_parameters fresh_parameters [] [] 0)
        (fun _ => FileAbsent)
        (fun path =>
           Raise (Exn OSError
                    ("[Errno 2] No such file or directory: '" ++ path ++ "'")))
        None 0 (fun _ => stops_at_first_value).

(** [slope <= c] on floats *)
Definition float_le (x c : float) : bool := is_le (PrimFloat.compare x c).

(** The textbook closed form of the least-squares slope, for concrete runs:
    [(n Sxy - Sx Sy) / (n Sxx - Sx Sx)]. *)
Definition slope_closed_form (x : list Z) (y : list pyval) : float :=
  let xs := map (fun z => match float_of_int z with
                          | Ok f => f
                          | Raise _ => nan
                          end) x in
  let ys := map (fun v => match real_value v with
                          | Some f => f
                          | None => nan
                          end) y in
  let n := match float_of_int (Z.of_nat (List.length xs)) with
           | Ok f => f
           | Raise _ => nan
           end in
  let sx := sum_left xs in
  let sy := sum_left ys in
  let sxy := sum_left (map (fun '(a, b) => a * b)%float (combine xs ys)) in
  let sxx := sum_left (map (fun a => a * a)%float xs) in
  ((n * sxy - sx * sy) / (n * sxx - sx * sx))%float.

(** Six points rising by two per step. *)
Definition rising_model : model :=
  Model fresh_parameters fresh_parameters
        [PFloat 40; PFloat 42; PFloat 44; PFloat 46; PFloat 48; PFloat 50]
        [0; 1; 2; 3; 4; 5]%Z 6.

(** ** What a confirmation is to do, read off the two dictionaries *)

(** Does the pending value under [k] differ from the confirmed [cv]? *)
Definition differs_at (pending : dict) (k : string) (cv : pyval) : bool :=
  match dict_get pending k with
  | Some pv => py_ne cv pv
  | None => false
  end.

Definition differs (confirmed pending : dict) : bool :=
  existsb (fun '(k, cv) => differs_at pending k cv) confirmed.

(** The confirmed set with every differing key overwritten. *)
Definition merged (confirmed pending : dict) : dict :=
  map (fun '(k, cv) =>
         if differs_at pending k cv
         then (k, dict_get_default pending k cv) else (k, cv))
      confirmed.

(** One change line per differing key, in the key order of [confirmed]. *)
Definition change_log_of (float_repr : float -> string)
    (confirmed pending : dict) : list string :=
  flat_map (fun '(k, cv) =>
              if differs_at pending k cv
              then [change_line float_repr k cv (dict_get_default pending k cv)]
              else [])
           confirmed.

(** A model whose sliders were moved to teaching 80 and difficulty 10. *)
Definition edited_world : world :=
  with_model blank_world
    (Model fresh_parameters
           (params (PInt 50) (PInt 80) (PInt 50) (PInt 50) (PInt 10))
           [] [] 0).

(** What [__init__] reads out of a stored object [d]: each recognized key
    that is there, 50 for the others. *)
Definition loaded (d : dict) : dict :=
  params (dict_get_default d "preparedness" (PInt 50))
         (dict_get_default d "teaching" (PInt 50))
         (dict_get_default d "materials" (PInt 50))
         (dict_get_default d "participation" (PInt 50))
         (dict_get_default d "difficulty" (PInt 50)).

Definition is_object (j : jdoc) : bool :=
  match j with
  | DObject _ => true
  | _ => false
  end.

(** ** What an import is to do, read off the rows *)

(** Clamping to [0, 100] in the spec's words: below 0 gives 0, above 100
    gives 100, anything else is kept. *)
Definition clamp_0_100 (v : pyval) : pyval :=
  match py_lt v (PInt 0) with
  | Ok true => PInt 0
  | _ =>
      match py_gt v (PInt 100) with
      | Ok true => PInt 100
      | _ => v
      end
  end.

(** The confirmed set a row stands for: each recognized field, 50 where
    the row has none, clamped. *)
Definition row_values (row : dict) : dict :=
  params (clamp_0_100 (dict_get_default row "preparedness" (PInt 50)))
         (clamp_0_100 (dict_get_default row "teaching" (PInt 50)))
         (clamp_0_100 (dict_get_default row "materials" (PInt 50)))
         (clamp_0_100 (dict_get_default row "participation" (PInt 50)))
         (clamp_0_100 (dict_get_default row "difficulty" (PInt 50))).

(** A row whose recognized fields are numbers where present. *)
Definition numeric_row (row : dict) : bool :=
  forallb (fun k => is_number (dict_get_default row k (PInt 50))) param_names.

(** A row none of whose recognized fields is NaN. *)
Definition nan_free_row (row : dict) : bool :=
  forallb (fun k => not_nan (dict_get_default row k (PInt 50))) param_names.

(** A row whose recognized fields are Python values where present, as in
    everything [json.load] returns. *)
Definition python_row (row : dict) : bool :=
  forallb (fun k => json_ok (dict_get_default row k (PInt 50))) param_names.

Definition entry_dict (e : jentry) : dict :=
  match e with
  | EObject d => d
  | EOther _ => []
  end.

Definition numeric_entry (e : jentry) : bool :=
  match e with
  | EObject d => numeric_row d
  | EOther _ => false
  end.

(** Scoring the rows one after the other: each row becomes the confirmed
    set and adds one point. *)
Definition replay_row (float_sum : list float -> float) (m : model)
    (values : dict) : model :=
  match performance float_sum values with
  | Ok score => push_score score (set_confirmed values m)
  | Raise _ => m
  end.

Definition replay (float_sum : list float -> float) (rows : list dict)
    (m : model) : model :=
  fold_left (replay_row float_sum) rows m.

(** The series emptied, as an import starts. *)
Definition reset_series (m : model) : model :=
  Model (confirmed_parameters m) (pending_parameters m) [] [] 0.

(** The column under a recognized label once the loop over the recognized
    columns ran: 50 in every cell of a column the frame lacked, 50.0 in
    the cells where pandas read no number. *)
Definition csv_column (df : dataframe) (k : string) : numcol :=
  match frame_get df k with
  | Some c => fillna 50 (to_numeric_coerce c)
  | None => NInt (fun _ => 50%Z)
  end.

(** The rows an import of the frame [df] reads. *)
Definition csv_rows (df : dataframe) : list dict :=
  iterrows (numeric_columns param_names df).

Definition imported_message (n : nat) : string :=
  "Successfully imported " ++ str_of_int (Z.of_nat n) ++ " records".

(** A successful import that replayed the confirmed sets [vals]: one score
    per set in order, time steps 0, 1, ..., the last set confirmed, the
    pending set as it was, and the last set written to the parameter file
    when its values are ones [json.dump] writes. *)
Definition import_outcome (float_sum : list float -> float) (w : world)
    (path : string) (vals : list dict) : Prop :=
  exists w' scores,
    import_bulk_data float_sum path w
    = (w', Ok (true, imported_message (List.length vals)))
    /\ Forall2 (fun v s => performance float_sum v = Ok s
                           /\ in_range s = true) vals scores
    /\ mdl w' = Model (last vals (confirmed_parameters (mdl w)))
                      (pending_parameters (mdl w))
                      scores
                      (map Z.of_nat (seq 0 (List.length vals)))
                      (Z.of_nat (List.length vals))
    /\ (dumpable (last vals (confirmed_parameters (mdl w))) = true ->
        json_files w' store_path
        = FileJson (DObject (last vals (confirmed_parameters (mdl w))))
        /\ store_writes w' = S (store_writes w)).

(** ** Concrete disks for runs *)

Definition with_json (w : world) (path : string) (j : jdoc) : world :=
  World (mdl w)
        (fun p => if String.eqb p path then FileJson j else json_files w p)
        (csv_files w) (store_fault w) (store_writes w) (torn_error w).

Definition with_csv (w : world) (path : string) (df : dataframe) : world :=
  World (mdl w) (json_files w)
        (fun p => if String.eqb p path then Ok df else csv_files w p)
        (store_fault w) (store_writes w) (torn_error w).

(** A three-row JSON array: one field set, two out of range, none set. *)
Definition three_rows : list jentry :=
  [EObject [("teaching", PInt 100)];
   EObject [("preparedness", PFloat 1000.5); ("difficulty", PInt (-4))];
   EObject []].

(** A row whose preparedness is text, between two rows that are fine. *)
Definition text_row : jentry := EObject [("preparedness", PStr "high")].

(** A frame of two rows with an integer column, a column of names and a
    column in which pandas reads no number: text and an empty cell. *)
Definition small_frame : dataframe :=
  DataFrame 2
    [("teaching", Numeric (NInt (fun i => nth i [70; 700]%Z 0%Z)));
     ("name", Object (fun i => PStr (nth i ["a"; "b"] ""))
                     (NFloat (fun _ => nan)));
     ("difficulty", Object (fun i => nth i [PStr "hard"] (PFloat nan))
                           (NFloat (fun _ => nan)))].

(** A frame of two rows whose columns are all integers, the five recognized
    ones. *)
Definition integer_frame : dataframe :=
  DataFrame 2
    [("preparedness", Numeric (NInt (fun i => nth i [60; 70]%Z 0%Z)));
     ("teaching", Numeric (NInt (fun i => nth i [55; 65]%Z 0%Z)));
     ("materials", Numeric (NInt (fun i => nth i [50; 60]%Z 0%Z)));
     ("participation", Numeric (NInt (fun i => nth i [40; 45]%Z 0%Z)));
     ("difficulty", Numeric (NInt (fun i => nth i [30; 35]%Z 0%Z)))].

(** A frame of one row with an integer and a float column. *)
Definition float_frame : dataframe :=
  DataFrame 1
    [("preparedness", Numeric (NInt (fun _ => 60%Z)));
     ("teaching", Numeric (NFloat (fun _ => 72.5%float)))].

(** A model that already holds six points, beside an empty disk. *)
Definition rising_world : world := with_model blank_world rising_model.

(** ** Sequences of operations *)

Inductive op :=
| OpUpdate (new_params : dict)
| OpConfirm
| OpCalculate
| OpImport (data_file : string).

(** One call as the user interface makes it: the state the call leaves is
    kept whether it returned or raised. *)
Definition run_op (float_repr : float -> string)
    (float_sum : list float -> float) (o : op) (w : world) : world :=
  match o with
  | OpUpdate new_params => fst (update_pending_parameters new_params w)
  | OpConfirm => fst (confirm_parameters float_repr float_sum w)
  | OpCalculate => fst (calculate_performance float_sum w)
  | OpImport data_file => fst (import_bulk_data float_sum data_file w)
  end.

Definition run_ops (float_repr : float -> string)
    (float_sum : list float -> float) (ops : list op) (w : world) : world :=
  fold_left (fun w o => run_op float_repr float_sum o w) ops w.

(** Both sets hold exactly the five recognized keys. *)
Definition keys_ok (w : world) : Prop :=
  dict_keys (confirmed_parameters (mdl w)) = param_names
  /\ dict_keys (pending_parameters (mdl w)) = param_names.

(** Every value of both sets lies in [0, 100]. *)
Definition values_ok (w : world) : bool :=
  forallb in_range (map snd (confirmed_parameters (mdl w)))
  && forallb in_range (map snd (pending_parameters (mdl w))).

(** An update that only passes values in [0, 100]. *)
Definition op_in_range (o : op) : bool :=
  match o with
  | OpUpdate new_params => forallb (fun kv => in_range (snd kv)) new_params
  | _ => true
  end.

(** No JSON array on the disk holds NaN under a recognized name. *)
Definition nan_free_files (w : world) : Prop :=
  forall path entries,
    json_files w path = FileJson (DArray entries) ->
    forallb (fun e => nan_free_row (entry_dict e)) entries = true.

(** ** The series as the methods keep it *)

(** The time steps are 0, 1, ... in step with the history, the counter is
    the number of points, and every score lies in [0, 100]. *)
Definition series_ok (m : model) : Prop :=
  time_steps m = map Z.of_nat (seq 0 (List.length (performance_history m)))
  /\ current_time m = Z.of_nat (List.length (performance_history m))
  /\ forallb in_range (performance_history m) = true.

(** No value of either set is NaN. *)
Definition no_nan (w : world) : bool :=
  forallb not_nan (map snd (confirmed_parameters (mdl w)))
  && forallb not_nan (map snd (pending_parameters (mdl w))).

(** ** The callbacks of [SubjectEvaluationApp] that drive the model

    Widget calls (labels, dialogs, the canvas) are left out; a callback
    returns the text and colour it puts on its status label. *)

Module App.

(** [int(x)] for a float [x]: the integer part, toward zero. *)
Definition int_of_float (f : float) : res Z :=
  match Prim2SF f with
  | S754_nan =>
      Raise (Exn ValueError "cannot convert float NaN to integer")
  | S754_infinity _ =>
      Raise (Exn OverflowError "cannot convert float infinity to integer")
  | S754_zero _ => Ok 0%Z
  | S754_finite s m e =>
      let n := if (0 <=? e)%Z then (Z.pos m * 2 ^ e)%Z
               else (Z.pos m / 2 ^ (- e))%Z in
      Ok (if s then (- n)%Z else n)
  end.

(** The end of [slider_changed]: the names whose pending value differs
    from the confirmed one, shown on the pending-changes label. *)
Definition pending_changes_label : M (string * string) :=
  (self <- get_self ;;
   pending_changes <-
     for_fold (dict_keys (confirmed_parameters self)) (@nil string)
       (fun pending_changes p =>
          self <- get_self ;;
          c <- lift (dict_item (confirmed_parameters self) p) ;;
          q <- lift (dict_item (pending_parameters self) p) ;;
          if py_ne c q
          then ret (pending_changes ++ [replace_char "_" " " p])%list
          else ret pending_changes) ;;
   match pending_changes with
   | [] => ret ("No pending changes", "gray")
   | _ => ret ("Pending changes: " ++ String.concat ", " pending_changes,
               "blue")
   end)%M.

(** [slider_changed(param, value)]; [value] is the float that
    [float(value)] reads from the scale's text.  [slider_vars] and
    [value_labels] have one entry per recognized name. *)
Definition slider_changed (param : string) (value : float)
    : M (string * string) :=
  (int_value <- lift (int_of_float value) ;;
   lift (if existsb (String.eqb param) param_names then Ok tt
         else Raise (Exn KeyError ("'" ++ param ++ "'"))) ;;
   update_pending_parameters [(param, PInt int_value)] ;;
   pending_changes_label)%M.

(** [process_import(filename)]; [present] is the answer of
    [os.path.exists(filename)].  The handler reads only [str(e)], so the
    class given to [Exception(message)] here is of no account. *)
Definition process_import (float_sum : list float -> float) (present : bool)
    (filename : string) : M (string * string) :=
  try_except
    (if negb present then
       lift (Raise (Exn OSError ("File not found: " ++ filename)))
     else if negb (endswith filename ".csv" || endswith filename ".json") then
       lift (Raise (Exn ValueError
                        "Invalid file type. Please use .csv or .json"))
     else
       ' (success, message) <- import_bulk_data float_sum filename ;;
       if (success : bool) then ret (message, "green")
       else lift (Raise (Exn ValueError message)))%M
    (fun e => ret (str_exn e, "red")).

End App.

(** ** Files an operation leaves alone *)

(** From [w] to [w'] nothing changed on the disk but, possibly, the
    parameter file. *)
Definition files_kept (w w' : world) : Prop :=
  csv_files w' = csv_files w
  /\ store_fault w' = store_fault w
  /\ forall p, p <> store_path -> json_files w' p = json_files w p.

Definition keeps_files {A} (c : M A) : Prop :=
  forall w, files_kept w (fst (c w)).

(** ** What the pending-changes label is to show *)

(** The names under which the pending value differs, in key order. *)
Definition changed_names (confirmed pending : dict) : list string :=
  flat_map (fun '(k, cv) =>
              if differs_at pending k cv then [replace_char "_" " " k]
              else [])
           confirmed.

Definition changes_label (names : list string) : string * string :=
  match names with
  | [] => ("No pending changes", "gray")
  | _ => ("Pending changes: " ++ String.concat ", " names, "blue")
  end.

(** ** Basic facts *)

Lemma clamp_score_float (f : float) :
  exists r, clamp_score (PFloat f) = Ok r /\ in_range r = true
            /\ (r = PInt 0 \/ r = PInt 100 \/ r = PFloat f).
Proof.
  unfold clamp_score, py_min, py_max, py_lt, py_gt, py_order, in_range,
    py_le, py_order; simpl.
  destruct (int_float_compare 100 f) eqn:E100; simpl;
    try (eexists; split; [reflexivity|]; split; [reflexivity|]; tauto).
  destruct (int_float_compare 0 f) eqn:E0; simpl; rewrite ?E0, ?E100; simpl;
    eexists; (split; [reflexivity|]); simpl; rewrite ?E0, ?E100; simpl; tauto.
Qed.

Lemma clamp_score_sum float_sum (terms : list float) :
  exists r, clamp_score (py_sum float_sum terms) = Ok r /\ in_range r = true.
Proof.
  destruct terms as [|x xs].
  - exists (PInt 0). split; reflexivity.
  - destruct (clamp_score_float (float_sum (x :: xs))) as (r & H1 & H2 & _).
    exists r. split; assumption.
Qed.

Lemma float_value_mul (v : pyval) (f w : float) :
  float_value v = Some f -> py_mul_float v w = Ok (f * w)%float.
Proof.
  destruct v as [|b|z|g|s|z|b]; simpl; try discriminate.
  - intros H; injection H as <-. reflexivity.
  - destruct (float_of_int z); [|discriminate].
    intros H; injection H as <-. reflexivity.
  - intros H; injection H as <-. reflexivity.
  - destruct (float_of_int z); [|discriminate].
    intros H; injection H as <-. reflexivity.
  - intros H; injection H as <-. reflexivity.
Qed.


Lemma weighted_terms_params (p t m a d : pyval) (fp ft fm fa fd : float) :
  float_value p = Some fp -> float_value t = Some ft ->
  float_value m = Some fm -> float_value a = Some fa ->
  float_value d = Some fd ->
  weighted_terms (params p t m a d)
  = Ok [fp * 0.3; ft * 0.3; fm * 0.2; fa * 0.15; fd * -0.05]%float.
Proof.
  intros Hp Ht Hm Ha Hd. unfold weighted_terms. simpl.
  rewrite (float_value_mul _ _ _ Hp), (float_value_mul _ _ _ Ht),
    (float_value_mul _ _ _ Hm), (float_value_mul _ _ _ Ha),
    (float_value_mul _ _ _ Hd).
  reflexivity.
Qed.

(** [calculate_performance] is [performance] on the confirmed set, pushed
    onto the series. *)
Lemma calculate_performance_run float_sum (w : world) (score : pyval) :
  performance float_sum (confirmed_parameters (mdl w)) = Ok score ->
  calculate_performance float_sum w
  = (with_model w (push_score score (mdl w)), Ok score).
Proof.
  unfold performance, calculate_performance, bind, get_self, lift.
  destruct (weighted_terms _) as [terms|e]; simpl; [|discriminate].
  intros ->. reflexivity.
Qed.

Lemma calculate_performance_raise float_sum (w : world) (e : exn) :
  performance float_sum (confirmed_parameters (mdl w)) = Raise e ->
  calculate_performance float_sum w = (w, Raise e).
Proof.
  unfold performance, calculate_performance, bind, get_self, lift.
  destruct (weighted_terms _) as [terms|e']; simpl.
  - intros ->. reflexivity.
  - intros [= ->]. reflexivity.
Qed.


Lemma float_of_int_small (z : Z) :
  (0 <= z <= 100)%Z -> exists f, float_of_int z = Ok f.
Proof.
  intros Hz.
  assert (Hall : forallb (fun n => match float_of_int (Z.of_nat n) with
                                   | Ok _ => true
                                   | Raise _ => false
                                   end) (seq 0 101) = true)
    by (vm_compute; reflexivity).
  rewrite forallb_forall in Hall.
  specialize (Hall (Z.to_nat z)).
  rewrite Z2Nat.id in Hall by lia.
  destruct (float_of_int z) as [f|e].
  - now exists f.
  - discriminate Hall. apply in_seq. lia.
Qed.

Lemma in_range_int (z : Z) :
  in_range (PInt z) = true <-> (0 <= z <= 100)%Z.
Proof.
  unfold in_range, py_le, py_order; cbn -[Z.compare].
  destruct (Z.compare_spec 0 z), (Z.compare_spec z 100); cbn;
    split; intros; try discriminate; try reflexivity; try lia; exfalso; lia.
Qed.

Lemma in_range_value (v : pyval) :
  in_range v = true -> exists f, float_value v = Some f.
Proof.
  destruct v as [|b|z|f|s|z|b]; try discriminate; cbn [float_value real_value];
    try (intros _; eexists; reflexivity).
  - intros H. apply in_range_int in H.
    destruct (float_of_int_small z H) as [f ->]. now exists f.
  - intros H. change (in_range (PNpInt z)) with (in_range (PInt z)) in H.
    apply in_range_int in H.
    destruct (float_of_int_small z H) as [f ->]. now exists f.
Qed.


(** Every set of five numbers has a score, and it lies in [0, 100]. *)
Lemma performance_params float_sum (p t m a d : pyval) (fp ft fm fa fd : float) :
  float_value p = Some fp -> float_value t = Some ft ->
  float_value m = Some fm -> float_value a = Some fa ->
  float_value d = Some fd ->
  exists score,
    performance float_sum (params p t m a d) = Ok score
    /\ clamp_score
         (PFloat (float_sum [fp * 0.3; ft * 0.3; fm * 0.2; fa * 0.15;
                             fd * -0.05]%float)) = Ok score
    /\ in_range score = true.
Proof.
  intros Hp Ht Hm Ha Hd. unfold performance.
  rewrite (weighted_terms_params _ _ _ _ _ _ _ _ _ _ Hp Ht Hm Ha Hd).
  destruct (clamp_score_float
              (float_sum [fp * 0.3; ft * 0.3; fm * 0.2; fa * 0.15;
                          fd * -0.05]%float)) as (r & H1 & H2 & _).
  exists r. simpl. auto.
Qed.

(** *** Ordering against an integer constant *)

Lemma not_nan_Prim2SF (f : float) :
  is_nan f = false -> Prim2SF f <> S754_nan.
Proof.
  unfold is_nan. rewrite eqb_spec. intros H E. rewrite E in H. discriminate.
Qed.

Lemma int_float_comparable (c : Z) (f : float) :
  is_nan f = false -> int_float_compare c f <> FNotComparable.
Proof.
  intros H. apply not_nan_Prim2SF in H. unfold int_float_compare.
  destruct (Prim2SF f) as [s|s| |s m e]; try congruence.
  - destruct (c ?= 0)%Z; discriminate.
  - destruct s; discriminate.
  - destruct (0 <=? e)%Z; match goal with |- of_comparison ?x <> _ =>
      destruct x; discriminate end.
Qed.

Lemma num_compare_comparable (v : pyval) (x : number) (c : Z) :
  as_number v = Some x -> not_nan v = true ->
  num_compare x (NumInt c) <> FNotComparable.
Proof.
  destruct v as [|b|z|f|s|z|b]; simpl; try discriminate; intros [= <-] Hn;
    simpl.
  - destruct (_ ?= c)%Z; discriminate.
  - destruct (z ?= c)%Z; discriminate.
  - apply negb_true_iff in Hn.
    pose proof (int_float_comparable c f Hn).
    destruct (int_float_compare c f); simpl; congruence.
  - destruct (z ?= c)%Z; discriminate.
  - destruct (_ ?= c)%Z; discriminate.
Qed.

Lemma of_comparison_le (x y : Z) :
  is_le (of_comparison (x ?= y)%Z) = true <-> (x <= y)%Z.
Proof.
  destruct (Z.compare_spec x y); simpl; split; intros; try discriminate;
    try reflexivity; try lia.
Qed.

Lemma of_comparison_ge (x y : Z) :
  is_ge (of_comparison (x ?= y)%Z) = true <-> (y <= x)%Z.
Proof.
  destruct (Z.compare_spec x y); simpl; split; intros; try discriminate;
    try reflexivity; try lia.
Qed.

Lemma is_ge_flip (c : float_comparison) : is_ge (flip c) = is_le c.
Proof. destruct c; reflexivity. Qed.

Lemma is_le_flip (c : float_comparison) : is_le (flip c) = is_ge c.
Proof. destruct c; reflexivity. Qed.

Lemma is_lt_flip (c : float_comparison) : is_lt (flip c) = is_gt c.
Proof. destruct c; reflexivity. Qed.

Lemma is_gt_flip (c : float_comparison) : is_gt (flip c) = is_lt c.
Proof. destruct c; reflexivity. Qed.

(** [c2 <= f] gives [c1 <= f] for every smaller integer [c1]. *)
Lemma int_float_le_mono (c1 c2 : Z) (f : float) :
  (c1 <= c2)%Z ->
  is_le (int_float_compare c2 f) = true ->
  is_le (int_float_compare c1 f) = true.
Proof.
  intros Hc. unfold int_float_compare.
  destruct (Prim2SF f) as [s|s| |s m e]; try (intros; assumption).
  - rewrite !of_comparison_le. lia.
  - destruct (0 <=? e)%Z eqn:He; rewrite !of_comparison_le.
    + lia.
    + assert (0 <= 2 ^ (- e))%Z by (apply Z.pow_nonneg; lia). nia.
Qed.

Lemma num_ge_mono (x : number) (c1 c2 : Z) :
  (c1 <= c2)%Z ->
  is_ge (num_compare x (NumInt c2)) = true ->
  is_ge (num_compare x (NumInt c1)) = true.
Proof.
  intros Hc. destruct x as [z|f]; simpl.
  - rewrite !of_comparison_ge. lia.
  - rewrite !is_ge_flip. now apply int_float_le_mono.
Qed.

Lemma comparable_lt_ge (c : float_comparison) :
  c <> FNotComparable -> is_lt c = negb (is_ge c).
Proof. destruct c; simpl; congruence. Qed.

(** ** Scoring *)



(** ** Classification *)

Lemma py_ge_number (v : pyval) (x : number) (c : Z) :
  as_number v = Some x ->
  py_ge v (PInt c) = Ok (is_ge (num_compare x (NumInt c))).
Proof. unfold py_ge, py_order. intros ->. reflexivity. Qed.

Lemma py_lt_number (v : pyval) (x : number) (c : Z) :
  as_number v = Some x ->
  py_lt v (PInt c) = Ok (is_lt (num_compare x (NumInt c))).
Proof. unfold py_lt, py_order. intros ->. reflexivity. Qed.

Lemma predict_pass_fail_last (self : model) (hist : list pyval)
    (score : pyval) :
  performance_history self = (hist ++ [score])%list ->
  predict_pass_fail self
  = predict_pass_fail (Model [] [] [score] [] 0).
Proof.
  intros H. unfold predict_pass_fail. rewrite H, rev_app_distr. reflexivity.
Qed.

(** C6: [predict_pass_fail] looks at the last score only.  With no history
    it answers "No data"; otherwise the label is "High pass chance" exactly
    when the score is at least 70, "Likely to pass" exactly in [60, 70),
    "Borderline" exactly in [50, 60), "Risk of failing" exactly in [40, 50)
    and "High fail chance" exactly below 40. *)
Theorem predict_pass_fail_bands (self : model) :
  (performance_history self = [] ->
   predict_pass_fail self = Ok ("No data", "black", "gray"))
  /\ (forall hist score,
        performance_history self = (hist ++ [score])%list ->
        is_number score = true -> not_nan score = true ->
        predict_pass_fail self
        = predict_pass_fail (Model [] [] [score] [] 0)
        /\ exists label fg bg,
             predict_pass_fail self = Ok (label, fg, bg)
             /\ (label = "High pass chance"
                 <-> py_ge score (PInt 70) = Ok true)
             /\ (label = "Likely to pass"
                 <-> py_ge score (PInt 60) = Ok true
                     /\ py_lt score (PInt 70) = Ok true)
             /\ (label = "Borderline"
                 <-> py_ge score (PInt 50) = Ok true
                     /\ py_lt score (PInt 60) = Ok true)
             /\ (label = "Risk of failing"
                 <-> py_ge score (PInt 40) = Ok true
                     /\ py_lt score (PInt 50) = Ok true)
             /\ (label = "High fail chance"
                 <-> py_lt score (PInt 40) = Ok true)).
Proof.
  split.
  { intros H. unfold predict_pass_fail. now rewrite H. }
  intros hist score Hh Hnum Hnan.
  split; [now apply predict_pass_fail_last with hist|].
  rewrite (predict_pass_fail_last _ _ _ Hh).
  unfold is_number in Hnum.
  destruct (as_number score) as [x|] eqn:Hx; [clear Hnum|discriminate].
  unfold predict_pass_fail; cbn [performance_history rev app].
  rewrite !(py_ge_number _ _ _ Hx), !(py_lt_number _ _ _ Hx).
  pose proof (num_compare_comparable _ _ 70 Hx Hnan) as C70.
  pose proof (num_compare_comparable _ _ 60 Hx Hnan) as C60.
  pose proof (num_compare_comparable _ _ 50 Hx Hnan) as C50.
  pose proof (num_compare_comparable _ _ 40 Hx Hnan) as C40.
  rewrite (comparable_lt_ge _ C70), (comparable_lt_ge _ C60),
    (comparable_lt_ge _ C50), (comparable_lt_ge _ C40).
  pose proof (num_ge_mono x 60 70 ltac:(lia)) as M70.
  pose proof (num_ge_mono x 50 60 ltac:(lia)) as M60.
  pose proof (num_ge_mono x 40 50 ltac:(lia)) as M50.
  destruct (is_ge (num_compare x (NumInt 70)));
    destruct (is_ge (num_compare x (NumInt 60)));
    destruct (is_ge (num_compare x (NumInt 50)));
    destruct (is_ge (num_compare x (NumInt 40)));
    try (discriminate (M70 eq_refl)); try (discriminate (M60 eq_refl));
    try (discriminate (M50 eq_refl));
    cbn [rbind negb];
    do 3 eexists; (split; [reflexivity|]);
    repeat split; intros; try discriminate; try tauto;
    repeat match goal with H : _ /\ _ |- _ => destruct H end;
    try discriminate; try reflexivity.
Qed.

(** The boundary scores of the four bands. *)
Example predict_pass_fail_boundaries :
  predict_pass_fail (Model [] [] [PFloat 70] [0%Z] 1)
  = Ok ("High pass chance", "green", "#ddffdd")
  /\ predict_pass_fail (Model [] [] [PFloat 69.999] [0%Z] 1)
     = Ok ("Likely to pass", "darkgreen", "#eeffee")
  /\ predict_pass_fail (Model [] [] [PFloat 50] [0%Z] 1)
     = Ok ("Borderline", "blue", "#ffffdd")
  /\ predict_pass_fail (Model [] [] [PFloat 39.999] [0%Z] 1)
     = Ok ("High fail chance", "red", "#ffdddd")
  /\ predict_pass_fail (Model [] [] [PInt 100] [0%Z] 1)
     = Ok ("High pass chance", "green", "#ddffdd").
Proof. repeat split. Qed.

Lemma predict_pass_fail_bands_witness :
  predict_pass_fail (Model [] [] [PFloat 10; PFloat 69.999] [0%Z; 1%Z] 2)
  = predict_pass_fail (Model [] [] [PFloat 69.999] [] 0)
  /\ exists label fg bg,
       predict_pass_fail (Model [] [] [PFloat 10; PFloat 69.999] [0%Z; 1%Z] 2)
       = Ok (label, fg, bg)
       /\ (label = "High pass chance"
           <-> py_ge (PFloat 69.999) (PInt 70) = Ok true)
       /\ (label = "Likely to pass"
           <-> py_ge (PFloat 69.999) (PInt 60) = Ok true
               /\ py_lt (PFloat 69.999) (PInt 70) = Ok true)
       /\ (label = "Borderline"
           <-> py_ge (PFloat 69.999) (PInt 50) = Ok true
               /\ py_lt (PFloat 69.999) (PInt 60) = Ok true)
       /\ (label = "Risk of failing"
           <-> py_ge (PFloat 69.999) (PInt 40) = Ok true
               /\ py_lt (PFloat 69.999) (PInt 50) = Ok true)
       /\ (label = "High fail chance"
           <-> py_lt (PFloat 69.999) (PInt 40) = Ok true).
Proof.
  apply (proj2 (predict_pass_fail_bands
                  (Model [] [] [PFloat 10; PFloat 69.999] [0%Z; 1%Z] 2))
               [PFloat 10] (PFloat 69.999)); reflexivity.
Defined.

(** ** Trend *)

Lemma float_comparable (x c : float) :
  is_nan x = false -> is_nan c = false ->
  PrimFloat.compare x c <> FNotComparable.
Proof.
  intros Hx Hc. apply not_nan_Prim2SF in Hx, Hc. rewrite compare_spec.
  destruct (Prim2SF x) as [sx|sx| |sx mx ex],
           (Prim2SF c) as [sc|sc| |sc mc ec];
    try congruence; simpl;
    repeat match goal with
           | s : bool |- _ => destruct s
           end; simpl;
    repeat match goal with
           | |- context [match ?c with Eq => _ | Lt => _ | Gt => _ end] =>
               destruct c
           end; simpl; discriminate.
Qed.

Lemma float_le_not_gt (x c : float) :
  is_nan x = false -> is_nan c = false ->
  float_le x c = negb (float_gt x c).
Proof.
  intros Hx Hc. pose proof (float_comparable x c Hx Hc).
  unfold float_le, float_gt. destruct (PrimFloat.compare x c); simpl; congruence.
Qed.

(** Above a finite bound means above every smaller finite bound; the two
    bounds are given by sign, mantissa and exponent. *)
Lemma SFcompare_gt_trans (x c1 c2 : spec_float) :
  SFcompare c1 c2 = Some Gt ->
  SFcompare x c1 = Some Gt ->
  SFcompare x c2 = Some Gt.
Proof.
  destruct x as [sx|sx| |sx mx ex],
           c1 as [s1|s1| |s1 m1 e1],
           c2 as [s2|s2| |s2 m2 e2]; simpl; try discriminate;
    repeat match goal with
           | s : bool |- _ => destruct s
           end; simpl; try discriminate; try (intros; reflexivity);
    rewrite ?Pos.compare_cont_spec; simpl;
    destruct (Z.compare_spec e1 e2); destruct (Z.compare_spec ex e1);
    destruct (Z.compare_spec ex e2); simpl; try discriminate;
    try (intros; reflexivity); try lia;
    destruct (Pos.compare_spec m1 m2); destruct (Pos.compare_spec mx m1);
    destruct (Pos.compare_spec mx m2); simpl; try discriminate;
    try (intros; reflexivity); try lia.
Qed.

Lemma float_gt_trans (x c1 c2 : float) :
  float_gt c1 c2 = true -> float_gt x c1 = true -> float_gt x c2 = true.
Proof.
  unfold float_gt. rewrite !compare_spec.
  pose proof (SFcompare_gt_trans (Prim2SF x) (Prim2SF c1) (Prim2SF c2)) as T.
  destruct (SFcompare (Prim2SF c1) (Prim2SF c2)) as [[]|]; try discriminate.
  destruct (SFcompare (Prim2SF x) (Prim2SF c1)) as [[]|]; try discriminate.
  intros _ _. now rewrite (T eq_refl eq_refl).
Qed.

Lemma last_n_length {X} (n : nat) (xs : list X) :
  List.length (last_n n xs) = Nat.min n (List.length xs).
Proof. unfold last_n. rewrite length_skipn. lia. Qed.

Lemma last_n_suffix {X} (n : nat) (xs : list X) :
  exists pre, xs = (pre ++ last_n n xs)%list.
Proof.
  exists (firstn (List.length xs - n) xs). unfold last_n.
  now rewrite firstn_skipn.
Qed.

Lemma trend_label_bands (slope : float) :
  is_nan slope = false ->
  exists label color,
    trend_label slope = (label, color)
    /\ (label = "Rapid improvement 📈" <-> float_gt slope 1.5 = true)
    /\ (label = "Improving ↗"
        <-> float_gt slope 0.5 = true /\ float_le slope 1.5 = true)
    /\ (label = "Stable ↔"
        <-> float_gt slope (-0.5) = true /\ float_le slope 0.5 = true)
    /\ (label = "Declining ↘"
        <-> float_gt slope (-1.5) = true /\ float_le slope (-0.5) = true)
    /\ (label = "Rapid decline 📉" <-> float_le slope (-1.5) = true).
Proof.
  intros Hn.
  rewrite (float_le_not_gt slope 1.5 Hn eq_refl),
    (float_le_not_gt slope 0.5 Hn eq_refl),
    (float_le_not_gt slope (-0.5) Hn eq_refl),
    (float_le_not_gt slope (-1.5) Hn eq_refl).
  pose proof (float_gt_trans slope 1.5 0.5 eq_refl) as T1.
  pose proof (float_gt_trans slope 0.5 (-0.5) eq_refl) as T2.
  pose proof (float_gt_trans slope (-0.5) (-1.5) eq_refl) as T3.
  unfold trend_label.
  destruct (float_gt slope 1.5); destruct (float_gt slope 0.5);
    destruct (float_gt slope (-0.5)); destruct (float_gt slope (-1.5));
    try (discriminate (T1 eq_refl)); try (discriminate (T2 eq_refl));
    try (discriminate (T3 eq_refl));
    cbn [negb];
    do 2 eexists; (split; [reflexivity|]);
    repeat split; intros; try discriminate; try tauto;
    repeat match goal with H : _ /\ _ |- _ => destruct H end;
    try discriminate; try reflexivity.
Qed.

(** C7: [predict_trend] answers "Not enough data" below two history
    points.  From two points on it takes the last min(5, N) time steps and
    scores, reads the least-squares slope off [np.polyfit], and labels it
    with strict comparisons at 1.5, 0.5, -0.5 and -1.5: "Rapid improvement"
    exactly above 1.5, "Improving" exactly in (0.5, 1.5], "Stable" exactly
    in (-0.5, 0.5], "Declining" exactly in (-1.5, -0.5], "Rapid decline"
    exactly up to -1.5; a slope on a boundary gets the label below it. *)
Theorem predict_trend_bands polyfit_slope (self : model) :
  ((List.length (performance_history self) < 2)%nat ->
   predict_trend polyfit_slope self = ("Not enough data", "black"))
  /\ ((2 <= List.length (performance_history self))%nat ->
      List.length (time_steps self) = List.length (performance_history self) ->
      let n := Nat.min 5 (List.length (performance_history self)) in
      let x := last_n 5 (time_steps self) in
      let y := last_n 5 (performance_history self) in
      let slope := polyfit_slope x y in
      List.length x = n /\ List.length y = n
      /\ (exists px, time_steps self = (px ++ x)%list)
      /\ (exists py, performance_history self = (py ++ y)%list)
      /\ predict_trend polyfit_slope self = trend_label slope
      /\ (is_nan slope = false ->
          exists label color,
            predict_trend polyfit_slope self = (label, color)
            /\ (label = "Rapid improvement 📈" <-> float_gt slope 1.5 = true)
            /\ (label = "Improving ↗"
                <-> float_gt slope 0.5 = true /\ float_le slope 1.5 = true)
            /\ (label = "Stable ↔"
                <-> float_gt slope (-0.5) = true
                    /\ float_le slope 0.5 = true)
            /\ (label = "Declining ↘"
                <-> float_gt slope (-1.5) = true
                    /\ float_le slope (-0.5) = true)
            /\ (label = "Rapid decline 📉"
                <-> float_le slope (-1.5) = true)))
  /\ trend_label 1.5 = ("Improving ↗", "darkgreen")
  /\ trend_label 0.5 = ("Stable ↔", "blue")
  /\ trend_label (-0.5) = ("Declining ↘", "orange")
  /\ trend_label (-1.5) = ("Rapid decline 📉", "red").
Proof.
  split; [|split; [|repeat split; reflexivity]].
  - intros H. unfold predict_trend.
    apply Nat.ltb_lt in H. now rewrite H.
  - intros H2 Hlen n x y slope.
    assert (Hx : List.length x = n)
      by (unfold x, n; rewrite last_n_length, Hlen; reflexivity).
    assert (Hy : List.length y = n) by (unfold y, n; apply last_n_length).
    assert (Hrun : predict_trend polyfit_slope self = trend_label slope).
    { unfold predict_trend. fold x y.
      assert (E1 : (List.length (performance_history self) <? 2)%nat = false)
        by (apply Nat.ltb_ge; lia).
      assert (E2 : (List.length x <? 2)%nat = false)
        by (apply Nat.ltb_ge; rewrite Hx; unfold n; lia).
      now rewrite E1, E2. }
    repeat split; trivial; try apply last_n_suffix.
    intros Hn. rewrite Hrun. now apply trend_label_bands.
Qed.

Lemma predict_trend_bands_witness :
  predict_trend slope_closed_form (mdl blank_world)
  = ("Not enough data", "black")
  /\ List.length (last_n 5 (time_steps rising_model)) = 5%nat
  /\ exists label color,
       predict_trend slope_closed_form rising_model = (label, color)
       /\ (label = "Rapid improvement 📈"
           <-> float_gt (slope_closed_form
                           (last_n 5 (time_steps rising_model))
                           (last_n 5 (performance_history rising_model)))
                        1.5 = true).
Proof.
  split.
  - apply (proj1 (predict_trend_bands slope_closed_form (mdl blank_world))).
    simpl. lia.
  - destruct (proj1 (proj2 (predict_trend_bands slope_closed_form
                              rising_model)))
      as (Hx & _ & _ & _ & _ & Hb); [simpl; lia|reflexivity|].
    split; [exact Hx|].
    destruct (Hb eq_refl) as (label & color & Hl & H1 & _).
    exists label, color. split; assumption.
Defined.

(** ** Dictionaries of the five parameters *)

Lemma keys_params (d : dict) :
  dict_keys d = param_names ->
  exists p t m a x, d = params p t m a x.
Proof.
  unfold dict_keys, param_names, params.
  destruct d as [|[k1 p] [|[k2 t] [|[k3 m] [|[k4 a] [|[k5 x] [|? ?]]]]]];
    simpl; try discriminate.
  intros [= -> -> -> -> ->]. now exists p, t, m, a, x.
Qed.

(** ** Writing the parameter file *)

Lemma unwritable_dumpable (d : dict) :
  dumpable d = true -> unwritable d = None.
Proof.
  unfold dumpable, unwritable.
  induction d as [|[k v] d IH]; cbn [map snd forallb find]; [reflexivity|].
  intros H. apply andb_prop in H as [Hv Hd]. rewrite Hv. cbn [negb].
  now apply IH.
Qed.

Lemma unwritable_not_dumpable (d : dict) :
  dumpable d = false -> exists v, unwritable d = Some v.
Proof.
  unfold dumpable, unwritable.
  induction d as [|[k v] d IH]; cbn [map snd forallb find]; [discriminate|].
  destruct (json_ok v); cbn [negb andb option_map snd]; [exact IH|].
  intros _. now exists v.
Qed.



Lemma save_parameters_run (w : world) :
  store_fault w = None ->
  dumpable (confirmed_parameters (mdl w)) = true ->
  save_parameters w = (stored w (confirmed_parameters (mdl w)), Ok tt).
Proof.
  intros H Hd. unfold save_parameters, try_except, bind, get_self,
    json_dump_store, stored.
  now rewrite H, (unwritable_dumpable _ Hd).
Qed.

(** A confirmed set that holds a NumPy scalar is not written: the
    [TypeError] of [json.dump] is swallowed, and the parameter file is
    left with a text that cannot be read back. *)
Lemma save_parameters_torn (w : world) :
  store_fault w = None ->
  dumpable (confirmed_parameters (mdl w)) = false ->
  save_parameters w = (torn w (confirmed_parameters (mdl w)), Ok tt).
Proof.
  intros H Hd. unfold save_parameters, try_except, bind, get_self,
    json_dump_store, torn.
  destruct (unwritable_not_dumpable _ Hd) as [v Hv].
  now rewrite H, Hv.
Qed.


Lemma save_parameters_total (w : world) :
  exists w', save_parameters w = (w', Ok tt) /\ mdl w' = mdl w
             /\ csv_files w' = csv_files w /\ store_fault w' = store_fault w
             /\ (forall p, json_files w' p = json_files w p
                           \/ (exists d, json_files w' p = FileJson (DObject d))
                           \/ exists e, json_files w' p = FileBad e).
Proof.
  unfold save_parameters, try_except, bind, get_self, json_dump_store, ret.
  destruct (store_fault w) eqn:E;
    [|destruct (unwritable (confirmed_parameters (mdl w)))];
    eexists; (split; [reflexivity|]); simpl; repeat split; auto;
    intros q; destruct (String.eqb q store_path); eauto.
Qed.

(** ** Confirmation *)

(** The loop of [confirm_parameters]: it rewrites the confirmed set into
    [merged] and collects [change_log_of]. *)
Lemma confirm_loop float_repr (w : world) (c1 c2 c3 c4 c5 p1 p2 p3 p4 p5 : pyval) :
  confirmed_parameters (mdl w) = params c1 c2 c3 c4 c5 ->
  pending_parameters (mdl w) = params p1 p2 p3 p4 p5 ->
  for_fold param_names (false, @nil string)
    (fun '(changes_made, change_log) param =>
       self <- get_self ;;
       c <- lift (dict_item (confirmed_parameters self) param) ;;
       p <- lift (dict_item (pending_parameters self) param) ;;
       if py_ne c p then
         modify_self (fun m =>
           set_confirmed (dict_set (confirmed_parameters m) param p) m) ;;
         ret (true, (change_log ++ [change_line float_repr param c p])%list)
       else ret (changes_made, change_log))%M w
  = (with_model w
       (set_confirmed (merged (params c1 c2 c3 c4 c5) (params p1 p2 p3 p4 p5))
                      (mdl w)),
     Ok (differs (params c1 c2 c3 c4 c5) (params p1 p2 p3 p4 p5),
         change_log_of float_repr (params c1 c2 c3 c4 c5)
                       (params p1 p2 p3 p4 p5))).
Proof.
  destruct w as [[conf pend hist ts ct] jf cf sf sw te]; simpl.
  intros -> ->.
  unfold differs, merged, change_log_of, differs_at, with_model, param_names.
  cbn [for_fold].
  unfold bind, get_self, lift, modify_self, ret, set_confirmed.
  cbn -[py_ne change_line].
  destruct (py_ne c1 p1); cbn -[py_ne change_line];
    destruct (py_ne c2 p2); cbn -[py_ne change_line];
    destruct (py_ne c3 p3); cbn -[py_ne change_line];
    destruct (py_ne c4 p4); cbn -[py_ne change_line];
    destruct (py_ne c5 p5); reflexivity.
Qed.





Lemma merged_same (c p : dict) : differs c p = false -> merged c p = c.
Proof.
  unfold differs, merged.
  induction c as [|[k cv] c IH]; simpl; [reflexivity|].
  destruct (differs_at p k cv); simpl; [discriminate|].
  intros H. now rewrite IH.
Qed.

Lemma change_log_same float_repr (c p : dict) :
  differs c p = false -> change_log_of float_repr c p = [].
Proof.
  unfold differs, change_log_of.
  induction c as [|[k cv] c IH]; simpl; [reflexivity|].
  destruct (differs_at p k cv); simpl; [discriminate|].
  exact IH.
Qed.

Lemma confirm_parameters_run float_repr float_sum (w : world) :
  dict_keys (confirmed_parameters (mdl w)) = param_names ->
  dict_keys (pending_parameters (mdl w)) = param_names ->
  let c' := merged (confirmed_parameters (mdl w))
                   (pending_parameters (mdl w)) in
  let w1 := with_model w (set_confirmed c' (mdl w)) in
  confirm_parameters float_repr float_sum w
  = if differs (confirmed_parameters (mdl w)) (pending_parameters (mdl w))
    then
      (save_parameters ;;
       _ <- calculate_performance float_sum ;;
       ret (Some (String.concat newline
                    (change_log_of float_repr (confirmed_parameters (mdl w))
                                   (pending_parameters (mdl w))))))%M w1
    else (w, Ok None).
Proof.
  intros Hc Hp c' w1.
  destruct (keys_params _ Hc) as (c1 & c2 & c3 & c4 & c5 & Ec).
  destruct (keys_params _ Hp) as (p1 & p2 & p3 & p4 & p5 & Ep).
  unfold confirm_parameters.
  unfold bind at 1. unfold get_self at 1. cbv beta iota.
  rewrite Hc. unfold bind at 1.
  rewrite (confirm_loop float_repr w _ _ _ _ _ _ _ _ _ _ Ec Ep).
  subst c' w1. rewrite Ec, Ep.
  destruct (differs _ _) eqn:D; [reflexivity|].
  rewrite (merged_same _ _ D). unfold ret.
  destruct w as [[conf pend hist ts ct] jf cf sf sw te]; simpl in *. now subst.
Qed.





(** C4: when the pending value equals the confirmed one under every key,
    [confirm_parameters] returns [None] and leaves the whole state as it
    was: no score point, the same time counter, no write to the parameter
    file, both parameter sets untouched. *)
Theorem confirm_parameters_no_changes float_repr float_sum (w : world) :
  dict_keys (confirmed_parameters (mdl w)) = param_names ->
  dict_keys (pending_parameters (mdl w)) = param_names ->
  differs (confirmed_parameters (mdl w)) (pending_parameters (mdl w)) = false ->
  confirm_parameters float_repr float_sum w = (w, Ok None).
Proof.
  intros Hc Hp D.
  rewrite (confirm_parameters_run float_repr float_sum w Hc Hp).
  now rewrite D.
Qed.

Lemma confirm_parameters_no_changes_witness :
  confirm_parameters (fun _ => "50.0") sum_left blank_world
  = (blank_world, Ok None).
Proof.
  apply confirm_parameters_no_changes; reflexivity.
Defined.



(** ** The parameter file *)

Lemma load_object (w : world) (d : dict) (c1 c2 c3 c4 c5 p1 p2 p3 p4 p5 : pyval) :
  json_files w store_path = FileJson (DObject d) ->
  confirmed_parameters (mdl w) = params c1 c2 c3 c4 c5 ->
  pending_parameters (mdl w) = params p1 p2 p3 p4 p5 ->
  load_parameters w
  = (with_model w
       (Model (params (dict_get_default d "preparedness" c1)
                      (dict_get_default d "teaching" c2)
                      (dict_get_default d "materials" c3)
                      (dict_get_default d "participation" c4)
                      (dict_get_default d "difficulty" c5))
              (params (dict_get_default d "preparedness" p1)
                      (dict_get_default d "teaching" p2)
                      (dict_get_default d "materials" p3)
                      (dict_get_default d "participation" p4)
                      (dict_get_default d "difficulty" p5))
              (performance_history (mdl w)) (time_steps (mdl w))
              (current_time (mdl w))),
     Ok tt).
Proof.
  destruct w as [[conf pend hist ts ct] jf cf sf sw te]; simpl.
  intros Hj -> ->.
  unfold load_parameters, bind, path_exists, try_except, json_load, get_self,
    lift, modify_self, ret, with_model.
  cbn [json_files mdl]. rewrite Hj. cbn iota beta. cbn [json_files mdl].
  rewrite Hj.
  cbn [confirmed_parameters dict_keys params map fst for_each].
  unfold bind, lift, modify_self, ret, doc_contains, doc_item, dict_mem,
    dict_item, dict_get_default, set_confirmed, set_pending.
  destruct (dict_get d "preparedness"); cbn;
    destruct (dict_get d "teaching"); cbn;
    destruct (dict_get d "materials"); cbn;
    destruct (dict_get d "participation"); cbn;
    destruct (dict_get d "difficulty"); reflexivity.
Qed.

Lemma load_absent (w : world) :
  json_files w store_path = FileAbsent -> load_parameters w = (w, Ok tt).
Proof.
  intros Hj. unfold load_parameters, bind, path_exists. now rewrite Hj.
Qed.

Lemma load_bad (w : world) (e : exn) :
  json_files w store_path = FileBad e -> load_parameters w = (w, Ok tt).
Proof.
  intros Hj.
  unfold load_parameters, bind, path_exists, try_except, json_load.
  rewrite Hj. cbn iota beta. now rewrite Hj.
Qed.

Lemma load_not_object (w : world) (j : jdoc) :
  json_files w store_path = FileJson j -> is_object j = false ->
  dict_keys (confirmed_parameters (mdl w)) = param_names ->
  load_parameters w = (w, Ok tt).
Proof.
  intros Hj Hobj Hk.
  unfold load_parameters, bind, path_exists, try_except, json_load, get_self.
  rewrite Hj. cbn iota beta. rewrite Hj. cbn iota beta. rewrite Hk.
  unfold param_names, for_each, bind, lift, ret, doc_contains, doc_item.
  destruct j as [es|d|v]; [|discriminate|].
  - repeat match goal with
           | |- context [existsb ?f es] => destruct (existsb f es)
           end; reflexivity.
  - destruct v as [|b|z|f|s|z|b]; try reflexivity.
    repeat match goal with
           | |- context [index 0 ?k s] => destruct (index 0 k s)
           end; reflexivity.
Qed.

Lemma init_run (w : world) :
  init w
  = load_parameters
      (with_model w (Model fresh_parameters fresh_parameters [] [] 0)).
Proof. reflexivity. Qed.



(** ** Bulk import *)

Lemma clamp_param_number (v : pyval) :
  is_number v = true -> clamp_param v = Ok (clamp_0_100 v).
Proof.
  unfold is_number, clamp_param, clamp_0_100, py_max, py_min, py_gt, py_lt,
    py_order.
  destruct (as_number v) as [x|] eqn:Hx; [intros _|discriminate].
  cbn [as_number rbind].
  destruct x as [z|f]; cbn [num_compare].
  - rewrite (Z.compare_antisym z 0).
    destruct (z ?= 0)%Z eqn:E0; cbn -[Z.compare]; rewrite ?Hx; cbn -[Z.compare];
      try reflexivity.
    all: rewrite (Z.compare_antisym z 100);
      destruct (z ?= 100)%Z; reflexivity.
  - rewrite is_lt_flip.
    destruct (is_gt (int_float_compare 0 f)) eqn:E0; cbn; [reflexivity|].
    rewrite Hx. cbn. rewrite is_gt_flip.
    destruct (is_lt (int_float_compare 100 f)); reflexivity.
Qed.

Lemma clamp_0_100_range (v : pyval) :
  is_number v = true -> not_nan v = true -> in_range (clamp_0_100 v) = true.
Proof.
  destruct v as [|b|z|f|s|z|b]; try discriminate; intros _ Hn.
  - destruct b; reflexivity.
  - unfold clamp_0_100, py_lt, py_gt, py_order; cbn -[Z.compare in_range].
    destruct (Z.compare_spec z 0); cbn -[Z.compare in_range];
      try reflexivity;
      destruct (Z.compare_spec z 100); cbn -[Z.compare in_range];
      try reflexivity; apply in_range_int; lia.
  - apply negb_true_iff in Hn.
    pose proof (int_float_comparable 0 f Hn) as C0.
    pose proof (int_float_comparable 100 f Hn) as C100.
    unfold clamp_0_100, in_range, py_lt, py_gt, py_le, py_order; cbn.
    destruct (int_float_compare 0 f) eqn:E0; cbn; try congruence;
      destruct (int_float_compare 100 f) eqn:E100; cbn; try congruence;
      rewrite ?E0, ?E100; reflexivity.
  - unfold clamp_0_100, py_lt, py_gt, py_order; cbn -[Z.compare in_range].
    destruct (Z.compare_spec z 0); cbn -[Z.compare in_range];
      try reflexivity;
      destruct (Z.compare_spec z 100); cbn -[Z.compare in_range];
      try reflexivity;
      change (in_range (PNpInt z)) with (in_range (PInt z));
      apply in_range_int; lia.
  - destruct b; reflexivity.
Qed.

Lemma clamp_0_100_value (v : pyval) :
  is_number v = true -> exists f, float_value (clamp_0_100 v) = Some f.
Proof.
  destruct v as [|b|z|f|s|z|b]; try discriminate; intros Hv.
  - destruct b; eexists; reflexivity.
  - apply in_range_value. now apply clamp_0_100_range.
  - unfold clamp_0_100, py_lt, py_gt, py_order; cbn.
    destruct (is_lt (flip (int_float_compare 0 f))); [eexists; reflexivity|].
    destruct (is_gt (flip (int_float_compare 100 f))); eexists; reflexivity.
  - apply in_range_value. now apply clamp_0_100_range.
  - destruct b; eexists; reflexivity.
Qed.

(** The clamp hands back its argument or a Python [int]. *)
Lemma clamp_0_100_json_ok (v : pyval) :
  json_ok v = true -> json_ok (clamp_0_100 v) = true.
Proof.
  intros H. unfold clamp_0_100.
  destruct (py_lt v (PInt 0)) as [[]|]; try reflexivity;
    destruct (py_gt v (PInt 100)) as [[]|]; trivial.
Qed.

Lemma forallb_param_names (f : string -> bool) :
  forallb f param_names = true ->
  f "preparedness" = true /\ f "teaching" = true /\ f "materials" = true
  /\ f "participation" = true /\ f "difficulty" = true.
Proof.
  unfold param_names; cbn [forallb]. rewrite !andb_true_iff. tauto.
Qed.

Lemma row_parameters_numeric (row : dict) :
  numeric_row row = true ->
  row_parameters (fun k default => Ok (dict_get_default row k default))
  = Ok (row_values row).
Proof.
  intros H. apply forallb_param_names in H as (H1 & H2 & H3 & H4 & H5).
  unfold row_parameters, row_values. cbn [rbind].
  rewrite !clamp_param_number by assumption. reflexivity.
Qed.

Lemma row_values_performance float_sum (row : dict) :
  numeric_row row = true ->
  exists score, performance float_sum (row_values row) = Ok score
                /\ in_range score = true.
Proof.
  intros H. apply forallb_param_names in H as (H1 & H2 & H3 & H4 & H5).
  destruct (clamp_0_100_value _ H1) as [f1 E1].
  destruct (clamp_0_100_value _ H2) as [f2 E2].
  destruct (clamp_0_100_value _ H3) as [f3 E3].
  destruct (clamp_0_100_value _ H4) as [f4 E4].
  destruct (clamp_0_100_value _ H5) as [f5 E5].
  destruct (performance_params float_sum _ _ _ _ _ _ _ _ _ _
              E1 E2 E3 E4 E5) as (score & Hs & _ & Hr).
  now exists score.
Qed.

(** One numeric row: its values become the confirmed set and one point is
    added. *)
Lemma import_row_numeric float_sum (w : world) (row : dict) :
  numeric_row row = true ->
  import_row float_sum (fun k default => Ok (dict_get_default row k default)) w
  = (with_model w (replay_row float_sum (mdl w) (row_values row)), Ok tt).
Proof.
  intros H. unfold import_row, bind, lift.
  rewrite (row_parameters_numeric row H).
  destruct (row_values_performance float_sum row H) as (score & Hs & _).
  unfold modify_self at 1. cbv beta iota.
  rewrite (calculate_performance_run float_sum _ score) by exact Hs.
  unfold replay_row. rewrite Hs. reflexivity.
Qed.

Lemma import_rows_numeric float_sum (rows : list dict) (w : world) :
  forallb numeric_row rows = true ->
  for_each rows (fun row =>
    import_row float_sum
      (fun k default => Ok (dict_get_default row k default))) w
  = (with_model w (replay float_sum (map row_values rows) (mdl w)), Ok tt).
Proof.
  revert w. induction rows as [|row rows IH]; intros w H.
  - destruct w as [m jf cf sf sw te]. reflexivity.
  - cbn [forallb] in H. apply andb_prop in H as [Hr Hrs].
    cbn [for_each]. unfold bind.
    rewrite (import_row_numeric float_sum w row Hr).
    rewrite IH by exact Hrs. reflexivity.
Qed.

Lemma import_entries_numeric float_sum (entries : list jentry) (w : world) :
  forallb numeric_entry entries = true ->
  for_each entries (fun entry => import_row float_sum (entry_get entry)) w
  = (with_model w
       (replay float_sum (map row_values (map entry_dict entries)) (mdl w)),
     Ok tt).
Proof.
  revert w. induction entries as [|e entries IH]; intros w H.
  - destruct w as [m jf cf sf sw te]. reflexivity.
  - cbn [forallb] in H. apply andb_prop in H as [He Hes].
    destruct e as [row|v]; [|discriminate].
    cbn [for_each]. unfold bind.
    change (entry_get (EObject row))
      with (fun k default => Ok (dict_get_default row k default)).
    rewrite (import_row_numeric float_sum w row He).
    rewrite IH by exact Hes. reflexivity.
Qed.

Lemma last_cons_default {X} (x d : X) (xs : list X) :
  last (x :: xs) d = last xs x.
Proof.
  revert x d. induction xs as [|y ys IH]; intros x d; [reflexivity|].
  change (last (x :: y :: ys) d) with (last (y :: ys) d).
  now rewrite (IH y d), (IH y x).
Qed.

(** The series [replay] builds: one score per row in order, consecutive
    time steps, and the last row left as the confirmed set. *)
Lemma replay_spec float_sum (rows : list dict) (m : model) :
  Forall (fun v => exists s, performance float_sum v = Ok s
                             /\ in_range s = true) rows ->
  exists scores,
    Forall2 (fun v s => performance float_sum v = Ok s /\ in_range s = true)
            rows scores
    /\ replay float_sum rows m
       = Model (last rows (confirmed_parameters m)) (pending_parameters m)
               (performance_history m ++ scores)
               (time_steps m
                  ++ map (fun i => current_time m + Z.of_nat i)%Z
                         (seq 0 (List.length rows)))
               (current_time m + Z.of_nat (List.length rows)).
Proof.
  revert m. induction rows as [|v rows IH]; intros m H.
  - exists []. split; [constructor|].
    destruct m as [c p h ts ct]. cbn.
    now rewrite !app_nil_r, Z.add_0_r.
  - inversion H as [|? ? (s & Hs & Hr) Hrest]; subst.
    destruct (IH (push_score s (set_confirmed v m)) Hrest)
      as (scores & HF & Hrep).
    exists (s :: scores). split; [constructor; auto|].
    unfold replay in *. cbn [fold_left]. unfold replay_row at 2.
    rewrite Hs, Hrep. cbn [push_score set_confirmed confirmed_parameters
      pending_parameters performance_history time_steps current_time].
    rewrite last_cons_default, <- !app_assoc. cbn [app].
    f_equal.
    + f_equal. cbn [List.length seq map]. change (Z.of_nat 0) with 0%Z.
      rewrite Z.add_0_r. f_equal.
      rewrite <- seq_shift, map_map. apply map_ext. intros i. lia.
    + cbn [List.length]. lia.
Qed.

Lemma numeric_rows_perform float_sum (rows : list dict) :
  forallb numeric_row rows = true ->
  Forall (fun v => exists s, performance float_sum v = Ok s
                             /\ in_range s = true)
         (map row_values rows).
Proof.
  induction rows as [|row rows IH]; cbn [forallb map]; intros H.
  - constructor.
  - apply andb_prop in H as [Hr Hrs]. constructor; [|auto].
    now apply row_values_performance.
Qed.

(** *** The frame after its columns were made numeric *)

Lemma dict_get_set_same (d : dict) (k : string) (v : pyval) :
  dict_get (dict_set d k v) k = Some v.
Proof.
  induction d as [|[k' v'] d IH]; cbn [dict_set dict_get].
  - now rewrite String.eqb_refl.
  - destruct (String.eqb_spec k k') as [->|Hne]; cbn [dict_get].
    + now rewrite String.eqb_refl.
    + destruct (String.eqb_spec k k'); [contradiction|exact IH].
Qed.

Lemma dict_get_set_other (d : dict) (k k' : string) (v : pyval) :
  k <> k' -> dict_get (dict_set d k' v) k = dict_get d k.
Proof.
  intros Hne. induction d as [|[k0 v0] d IH]; cbn [dict_set dict_get].
  - destruct (String.eqb_spec k k'); [contradiction|reflexivity].
  - destruct (String.eqb_spec k' k0) as [->|H0]; cbn [dict_get].
    + destruct (String.eqb_spec k k0); [contradiction|reflexivity].
    + destruct (String.eqb_spec k k0); [reflexivity|exact IH].
Qed.

Lemma dict_keys_set_mem (d : dict) (k : string) (v : pyval) :
  dict_mem k d = true -> dict_keys (dict_set d k v) = dict_keys d.
Proof.
  unfold dict_mem, dict_keys.
  induction d as [|[k' v'] d IH]; cbn [dict_set dict_get map fst].
  - discriminate.
  - destruct (String.eqb_spec k k') as [->|Hne]; cbn [map fst]; intros H.
    + reflexivity.
    + now rewrite IH.
Qed.

Lemma columns_get_set_same (cols : list (string * column)) (col : string)
    (c : column) :
  columns_get (columns_set cols col c) col = Some c.
Proof.
  induction cols as [|[label c'] cols IH]; cbn [columns_set columns_get].
  - now rewrite String.eqb_refl.
  - destruct (String.eqb_spec col label) as [->|Hne]; cbn [columns_get].
    + now rewrite String.eqb_refl.
    + destruct (String.eqb_spec col label); [contradiction|exact IH].
Qed.

Lemma columns_get_set_other (cols : list (string * column)) (col k : string)
    (c : column) :
  k <> col -> columns_get (columns_set cols col c) k = columns_get cols k.
Proof.
  intros Hne.
  induction cols as [|[label c'] cols IH]; cbn [columns_set columns_get].
  - destruct (String.eqb_spec k col); [contradiction|reflexivity].
  - destruct (String.eqb_spec col label) as [->|H0]; cbn [columns_get].
    + destruct (String.eqb_spec k label); [contradiction|reflexivity].
    + destruct (String.eqb_spec k label); [reflexivity|exact IH].
Qed.

Lemma numeric_step_same (df : dataframe) (col : string) :
  frame_get (numeric_step df col) col = Some (Numeric (csv_column df col)).
Proof.
  unfold numeric_step, csv_column.
  destruct (frame_get df col); unfold frame_get, frame_set;
    cbn [df_columns]; apply columns_get_set_same.
Qed.

Lemma numeric_step_other (df : dataframe) (col k : string) :
  k <> col -> frame_get (numeric_step df col) k = frame_get df k.
Proof.
  intros Hne. unfold numeric_step.
  destruct (frame_get df col); unfold frame_get, frame_set;
    cbn [df_columns]; now apply columns_get_set_other.
Qed.

Lemma numeric_step_length (df : dataframe) (col : string) :
  df_length (numeric_step df col) = df_length df.
Proof. unfold numeric_step. now destruct (frame_get df col). Qed.

(** After the loop every recognized label has its numeric column. *)
Lemma numeric_columns_get (df : dataframe) (k : string) :
  In k param_names ->
  frame_get (numeric_columns param_names df) k
  = Some (Numeric (csv_column df k)).
Proof.
  unfold numeric_columns, param_names; cbn [fold_left In].
  intros [<-|[<-|[<-|[<-|[<-|[]]]]]];
    repeat (rewrite numeric_step_other by discriminate);
    rewrite numeric_step_same; unfold csv_column;
    repeat (rewrite numeric_step_other by discriminate); reflexivity.
Qed.

Lemma numeric_columns_length (df : dataframe) :
  df_length (numeric_columns param_names df) = df_length df.
Proof.
  unfold numeric_columns, param_names; cbn [fold_left].
  now rewrite !numeric_step_length.
Qed.

Lemma frame_row_get (df : dataframe) (i : nat) (k : string) :
  dict_get (frame_row df i) k
  = option_map (fun c => row_value (row_dtype df) c i) (frame_get df k).
Proof.
  unfold frame_row, frame_get. generalize (row_dtype df) as d. intros d.
  induction (df_columns df) as [|[label c] cols IH];
    cbn [map dict_get columns_get fst snd]; [reflexivity|].
  destruct (String.eqb k label); [reflexivity|exact IH].
Qed.

(** What [row.get] hands out under a recognized label. *)
Lemma csv_row_get (df : dataframe) (i : nat) (k : string) :
  In k param_names ->
  dict_get_default (frame_row (numeric_columns param_names df) i) k (PInt 50)
  = row_value (row_dtype (numeric_columns param_names df))
              (Numeric (csv_column df k)) i.
Proof.
  intros Hk. unfold dict_get_default.
  now rewrite frame_row_get, (numeric_columns_get df k Hk).
Qed.

(** *** The cast of a 64-bit integer is a number *)

Lemma shr_1_nonneg (mrs : shr_record) :
  (0 <= shr_m mrs)%Z -> (0 <= shr_m (shr_1 mrs))%Z.
Proof.
  destruct mrs as [m r s]. cbn [shr_m]. unfold shr_1.
  destruct m as [|[p|p|]|p]; cbn [shr_m]; lia.
Qed.

Lemma iter_pos_shr_1_nonneg (n : positive) (mrs : shr_record) :
  (0 <= shr_m mrs)%Z -> (0 <= shr_m (iter_pos shr_1 n mrs))%Z.
Proof.
  revert mrs. induction n as [n IH|n IH|]; intros mrs H; cbn [iter_pos].
  - apply IH, IH. now apply shr_1_nonneg.
  - now apply IH, IH.
  - now apply shr_1_nonneg.
Qed.

Lemma shr_fexp_nonneg (m e : Z) (l : location) :
  (0 <= m)%Z -> (0 <= shr_m (fst (shr_fexp prec emax m e l)))%Z.
Proof.
  intros H. unfold shr_fexp, shr.
  assert (H0 : (0 <= shr_m (shr_record_of_loc m l))%Z)
    by (destruct l as [|[]]; exact H).
  destruct (fexp prec emax (Zdigits2 m + e) - e)%Z; cbn [fst]; trivial.
  now apply iter_pos_shr_1_nonneg.
Qed.

Lemma round_nearest_even_nonneg (m : Z) (l : location) :
  (0 <= m)%Z -> (0 <= round_nearest_even m l)%Z.
Proof.
  intros H. unfold round_nearest_even.
  destruct l as [|[]]; try destruct (Z.even m); lia.
Qed.

(** Rounding a positive mantissa gives zero, a finite float or infinity. *)
Lemma binary_round_not_nan (sx : bool) (mx : positive) (ex : Z) :
  binary_round prec emax sx mx ex <> S754_nan.
Proof.
  unfold binary_round, binary_round_aux.
  destruct (shl_align mx ex _) as [mz ez].
  pose proof (shr_fexp_nonneg (Z.pos mz) ez loc_Exact ltac:(lia)) as H1.
  destruct (shr_fexp prec emax (Z.pos mz) ez loc_Exact) as [mrs' e'].
  cbn [fst] in H1.
  pose proof (shr_fexp_nonneg
                (round_nearest_even (shr_m mrs') (loc_of_shr_record mrs'))
                e' loc_Exact (round_nearest_even_nonneg _ _ H1)) as H2.
  destruct (shr_fexp prec emax _ e' loc_Exact) as [mrs'' e''].
  cbn [fst] in H2.
  destruct (shr_m mrs'') as [|p|p]; [discriminate| |lia].
  destruct (e'' <=? emax - prec)%Z; discriminate.
Qed.

Lemma binary_normalize_not_nan (z : Z) :
  binary_normalize prec emax z 0 false <> S754_nan.
Proof.
  destruct z; cbn [binary_normalize];
    [discriminate|apply binary_round_not_nan|apply binary_round_not_nan].
Qed.

Lemma SFcompare_refl (x : spec_float) :
  x <> S754_nan -> SFcompare x x = Some Eq.
Proof.
  destruct x as [s|s| |s m e]; cbn; try congruence; intros _.
  - now destruct s.
  - rewrite Z.compare_refl, Pos.compare_cont_refl. now destruct s.
Qed.

Lemma Prim2SF_not_nan (f : float) : Prim2SF f <> S754_nan -> is_nan f = false.
Proof.
  intros H. unfold is_nan. rewrite eqb_spec. unfold SFeqb.
  now rewrite (SFcompare_refl _ H).
Qed.

Lemma float_of_int64_not_nan (z : Z) : is_nan (float_of_int64 z) = false.
Proof.
  unfold float_of_int64.
  pose proof (binary_normalize_not_nan z) as H.
  destruct (binary_normalize prec emax z 0 false) as [s|s| |s m e];
    [destruct s; reflexivity|destruct s; reflexivity|congruence|].
  clear H. apply Prim2SF_not_nan. unfold SF2Prim.
  assert (Hf : Prim2SF (Z.ldexp (of_uint63 (Uint63.of_Z (Z.pos m))) e)
               <> S754_nan).
  { rewrite Z_ldexp_spec, of_uint63_spec.
    pose proof (binary_normalize_not_nan
                  (Uint63.to_Z (Uint63.of_Z (Z.pos m)))) as H.
    destruct (binary_normalize prec emax _ 0 false) as [s'|s'| |s' m' e'];
      cbn [SFldexp]; try congruence.
    apply binary_round_not_nan. }
  destruct s; [|exact Hf].
  rewrite opp_spec.
  destruct (Prim2SF (Z.ldexp _ e)); cbn [SFopp]; congruence.
Qed.

(** *** The rows of a frame *)

(** A cell of a numeric column is handed out as a number. *)
Lemma row_value_number (d : dtype) (n : numcol) (i : nat) :
  is_number (row_value d (Numeric n) i) = true.
Proof. destruct n, d; reflexivity. Qed.

(** Once the missing values are filled in, it is not NaN. *)
Lemma csv_column_not_nan (df : dataframe) (k : string) (d : dtype) (i : nat) :
  not_nan (row_value d (Numeric (csv_column df k)) i) = true.
Proof.
  unfold csv_column.
  destruct (frame_get df k) as [c|]; [|destruct d; reflexivity].
  destruct (to_numeric_coerce c) as [cells|cells|cells];
    cbn [fillna row_value].
  - destruct d; reflexivity.
  - destruct d; try reflexivity. cbn [not_nan].
    now rewrite float_of_int64_not_nan.
  - cbn [not_nan]. destruct (is_nan (cells i)) eqn:E;
      [reflexivity|now rewrite E].
Qed.

Lemma csv_rows_in (df : dataframe) (row : dict) :
  In row (csv_rows df) ->
  exists i, (i < df_length df)%nat
            /\ row = frame_row (numeric_columns param_names df) i.
Proof.
  unfold csv_rows, iterrows. rewrite numeric_columns_length.
  intros H. apply in_map_iff in H as (i & <- & Hi).
  apply in_seq in Hi. exists i. split; [lia|reflexivity].
Qed.

Lemma frame_row_numeric (df : dataframe) (i : nat) :
  numeric_row (frame_row (numeric_columns param_names df) i) = true
  /\ nan_free_row (frame_row (numeric_columns param_names df) i) = true.
Proof.
  unfold numeric_row, nan_free_row. split; apply forallb_forall; intros k Hk;
    rewrite (csv_row_get df i k Hk).
  - apply row_value_number.
  - apply csv_column_not_nan.
Qed.

Lemma csv_rows_numeric (df : dataframe) :
  forallb numeric_row (csv_rows df) = true.
Proof.
  apply forallb_forall. intros row Hrow.
  destruct (csv_rows_in df row Hrow) as (i & _ & ->).
  apply frame_row_numeric.
Qed.

(** *** A whole import *)

Lemma replay_reset float_sum (vals : list dict) (m : model) :
  Forall (fun v => exists s, performance float_sum v = Ok s
                             /\ in_range s = true) vals ->
  exists scores,
    Forall2 (fun v s => performance float_sum v = Ok s /\ in_range s = true)
            vals scores
    /\ replay float_sum vals (reset_series m)
       = Model (last vals (confirmed_parameters m)) (pending_parameters m)
               scores (map Z.of_nat (seq 0 (List.length vals)))
               (Z.of_nat (List.length vals)).
Proof.
  intros H. destruct (replay_spec float_sum vals (reset_series m) H)
    as (scores & HF & Hrep).
  exists scores. split; [exact HF|]. rewrite Hrep. reflexivity.
Qed.

(** Once the rows were replayed, the import saves and reports: the last
    set is written when [json.dump] writes its values, and the parameter
    file is left torn when it does not. *)
Lemma import_finish_run float_sum (w : world) (path : string)
    (vals : list dict) (rows_loop : M unit) :
  (modify_self reset_series ;;
   rows_loop ;;
   save_parameters ;;
   self <- get_self ;;
   ret (true, imported_message (List.length (performance_history self))))%M w
  = import_bulk_data_body float_sum path w ->
  rows_loop (with_model w (reset_series (mdl w)))
  = (with_model w (replay float_sum vals (reset_series (mdl w))), Ok tt) ->
  Forall (fun v => exists s, performance float_sum v = Ok s
                             /\ in_range s = true) vals ->
  store_fault w = None ->
  exists scores,
    Forall2 (fun v s => performance float_sum v = Ok s /\ in_range s = true)
            vals scores
    /\ import_bulk_data float_sum path w
       = ((if dumpable (last vals (confirmed_parameters (mdl w)))
           then stored else torn)
            (with_model w
               (Model (last vals (confirmed_parameters (mdl w)))
                      (pending_parameters (mdl w)) scores
                      (map Z.of_nat (seq 0 (List.length vals)))
                      (Z.of_nat (List.length vals))))
            (last vals (confirmed_parameters (mdl w))),
          Ok (true, imported_message (List.length vals))).
Proof.
  intros Hbody Hloop Hvals Hf.
  destruct (replay_reset float_sum vals (mdl w) Hvals) as (scores & HF & Hrep).
  exists scores. split; [exact HF|].
  unfold import_bulk_data, try_except. rewrite <- Hbody.
  unfold bind at 1. unfold modify_self at 1. cbv beta iota.
  change (World (reset_series (mdl w)) (json_files w) (csv_files w)
                (store_fault w) (store_writes w) (torn_error w))
    with (with_model w (reset_series (mdl w))).
  unfold bind at 1. rewrite Hloop, Hrep.
  unfold bind at 1.
  destruct (dumpable (last vals (confirmed_parameters (mdl w)))) eqn:Hd.
  - rewrite save_parameters_run by first [exact Hf|exact Hd].
    unfold bind, get_self, ret. cbn [mdl stored with_model
      confirmed_parameters performance_history].
    now rewrite (Forall2_length HF).
  - rewrite save_parameters_torn by first [exact Hf|exact Hd].
    unfold bind, get_self, ret. cbn [mdl torn with_model
      confirmed_parameters performance_history].
    now rewrite (Forall2_length HF).
Qed.

Lemma import_finish float_sum (w : world) (path : string) (vals : list dict)
    (rows_loop : M unit) :
  (modify_self reset_series ;;
   rows_loop ;;
   save_parameters ;;
   self <- get_self ;;
   ret (true, imported_message (List.length (performance_history self))))%M w
  = import_bulk_data_body float_sum path w ->
  rows_loop (with_model w (reset_series (mdl w)))
  = (with_model w (replay float_sum vals (reset_series (mdl w))), Ok tt) ->
  Forall (fun v => exists s, performance float_sum v = Ok s
                             /\ in_range s = true) vals ->
  store_fault w = None ->
  import_outcome float_sum w path vals.
Proof.
  intros Hbody Hloop Hvals Hf.
  destruct (import_finish_run float_sum w path vals rows_loop
              Hbody Hloop Hvals Hf) as (scores & HF & Hrun).
  unfold import_outcome. eexists. exists scores.
  split; [exact Hrun|]. split; [exact HF|].
  destruct (dumpable (last vals (confirmed_parameters (mdl w)))).
  - split; [reflexivity|]. intros _. split; [|reflexivity].
    cbn [json_files stored]. now rewrite String.eqb_refl.
  - split; [reflexivity|]. discriminate.
Qed.

Lemma row_values_in_range (row : dict) :
  numeric_row row = true -> nan_free_row row = true ->
  forallb in_range (map snd (row_values row)) = true.
Proof.
  intros Hn Hf.
  apply forallb_param_names in Hn as (N1 & N2 & N3 & N4 & N5).
  apply forallb_param_names in Hf as (F1 & F2 & F3 & F4 & F5).
  unfold row_values, params; cbn [map snd forallb].
  now rewrite !clamp_0_100_range by assumption.
Qed.

Lemma csv_rows_in_range (df : dataframe) (row : dict) :
  In row (csv_rows df) ->
  forallb in_range (map snd (row_values row)) = true.
Proof.
  intros Hrow. destruct (csv_rows_in df row Hrow) as (i & _ & ->).
  apply row_values_in_range; apply frame_row_numeric.
Qed.

Lemma import_json_numeric float_sum (w : world) (path : string)
    (entries : list jentry) :
  endswith path ".csv" = false -> endswith path ".json" = true ->
  json_files w path = FileJson (DArray entries) ->
  forallb numeric_entry entries = true ->
  store_fault w = None ->
  import_outcome float_sum w path (map row_values (map entry_dict entries)).
Proof.
  intros Hcsv Hjson Hj Hnum Hf.
  apply import_finish
    with (rows_loop :=
            (data <- json_load path ;;
             entries <- lift (doc_iter data) ;;
             for_each entries (fun entry =>
               import_row float_sum (entry_get entry)))%M).
  - unfold import_bulk_data_body. rewrite Hcsv, Hjson. reflexivity.
  - unfold bind at 1. unfold json_load. cbn [json_files with_model].
    rewrite Hj. unfold bind, lift. cbn [doc_iter].
    rewrite (import_entries_numeric float_sum entries _ Hnum). reflexivity.
  - clear -Hnum. induction entries as [|e entries IH]; cbn [map]; [constructor|].
    cbn [forallb] in Hnum. apply andb_prop in Hnum as [He Hes].
    constructor; [|auto].
    destruct e as [row|v]; [|discriminate].
    now apply row_values_performance.
  - exact Hf.
Qed.

Lemma import_csv_loop float_sum (w : world) (path : string)
    (df : dataframe) :
  csv_files w path = Ok df ->
  dict_keys (confirmed_parameters (mdl w)) = param_names ->
  (df <- read_csv path ;;
   self <- get_self ;;
   let df := numeric_columns (dict_keys (confirmed_parameters self)) df in
   for_each (iterrows df) (fun row =>
     import_row float_sum
       (fun k default => Ok (dict_get_default row k default))))%M
    (with_model w (reset_series (mdl w)))
  = (with_model w
       (replay float_sum (map row_values (csv_rows df))
               (reset_series (mdl w))), Ok tt).
Proof.
  intros Hdf Hk.
  unfold bind at 1. unfold read_csv. cbn [csv_files with_model].
  rewrite Hdf. unfold bind, get_self.
  cbn [mdl with_model reset_series confirmed_parameters].
  rewrite Hk. fold (csv_rows df).
  now rewrite (import_rows_numeric float_sum _ _ (csv_rows_numeric df)).
Qed.

Lemma import_csv_frame float_sum (w : world) (path : string) (df : dataframe) :
  endswith path ".csv" = true ->
  csv_files w path = Ok df ->
  dict_keys (confirmed_parameters (mdl w)) = param_names ->
  store_fault w = None ->
  import_outcome float_sum w path (map row_values (csv_rows df)).
Proof.
  intros Hcsv Hdf Hk Hf.
  apply import_finish
    with (rows_loop :=
            (df <- read_csv path ;;
             self <- get_self ;;
             let df := numeric_columns
                         (dict_keys (confirmed_parameters self)) df in
             for_each (iterrows df) (fun row =>
               import_row float_sum
                 (fun k default => Ok (dict_get_default row k default))))%M).
  - unfold import_bulk_data_body. rewrite Hcsv. reflexivity.
  - now apply import_csv_loop.
  - apply numeric_rows_perform, csv_rows_numeric.
  - exact Hf.
Qed.

(** *** Rows that cannot be taken in *)

Lemma clamp_param_not_number (v : pyval) :
  is_number v = false -> exists e, clamp_param v = Raise e.
Proof.
  destruct v as [|b|z|f|s|z|b]; try discriminate; intros _; eexists;
    reflexivity.
Qed.

Lemma row_parameters_not_numeric (row : dict) :
  numeric_row row = false ->
  exists e,
    row_parameters (fun k default => Ok (dict_get_default row k default))
    = Raise e.
Proof.
  unfold numeric_row, param_names, row_parameters; cbn [forallb rbind].
  intros H.
  repeat match goal with
         | |- context [clamp_param (dict_get_default row ?k ?d)] =>
             let E := fresh "E" in
             destruct (is_number (dict_get_default row k d)) eqn:E;
             [rewrite (clamp_param_number _ E); cbn [rbind]
             |destruct (clamp_param_not_number _ E) as [e ->];
              eexists; reflexivity]
         end.
  discriminate H.
Qed.

Lemma import_row_not_numeric float_sum (w : world) (entry : jentry) :
  numeric_entry entry = false ->
  exists e, import_row float_sum (entry_get entry) w = (w, Raise e).
Proof.
  intros H. unfold import_row, bind, lift.
  destruct entry as [row|v].
  - destruct (row_parameters_not_numeric row H) as [e He].
    change (entry_get (EObject row))
      with (fun k default => Ok (dict_get_default row k default)).
    rewrite He. now exists e.
  - eexists. reflexivity.
Qed.

(** The loop over entries, whatever they are: it replays the numeric
    entries up to the first one that is not, and raises there. *)
Lemma import_entries_any float_sum (entries : list jentry) (w : world) :
  (forallb numeric_entry entries = true
   /\ for_each entries (fun entry => import_row float_sum (entry_get entry)) w
      = (with_model w
           (replay float_sum (map row_values (map entry_dict entries))
                   (mdl w)),
         Ok tt))
  \/ (exists good bad rest e,
        entries = (good ++ bad :: rest)%list
        /\ forallb numeric_entry good = true
        /\ numeric_entry bad = false
        /\ for_each entries
             (fun entry => import_row float_sum (entry_get entry)) w
           = (with_model w
                (replay float_sum (map row_values (map entry_dict good))
                        (mdl w)),
              Raise e)).
Proof.
  revert w. induction entries as [|entry entries IH]; intros w.
  - left. split; [reflexivity|]. destruct w as [m jf cf sf sw te]. reflexivity.
  - destruct (numeric_entry entry) eqn:He.
    + destruct entry as [row|v]; [|discriminate].
      pose proof (import_row_numeric float_sum w row He) as Hrow.
      destruct (IH (with_model w (replay_row float_sum (mdl w)
                                             (row_values row))))
        as [[Hall Hrun]|(good & bad & rest & e & -> & Hg & Hb & Hrun)].
      * left. split; [cbn [forallb]; now rewrite He, Hall|].
        cbn [for_each]. unfold bind.
        change (entry_get (EObject row))
          with (fun k default => Ok (dict_get_default row k default)).
        rewrite Hrow, Hrun. reflexivity.
      * right. exists (EObject row :: good), bad, rest, e.
        split; [reflexivity|].
        split; [cbn [forallb]; now rewrite He, Hg|].
        split; [exact Hb|].
        cbn [for_each]. unfold bind.
        change (entry_get (EObject row))
          with (fun k default => Ok (dict_get_default row k default)).
        rewrite Hrow, Hrun. reflexivity.
    + right. destruct (import_row_not_numeric float_sum w entry He) as [e Hrun].
      exists [], entry, entries, e.
      split; [reflexivity|]. split; [reflexivity|]. split; [exact He|].
      cbn [for_each]. unfold bind. rewrite Hrun.
      destruct w as [m jf cf sf sw te]. reflexivity.
Qed.

Lemma for_each_rows_entries float_sum (rows : list dict) (w : world) :
  for_each rows (fun row =>
    import_row float_sum
      (fun k default => Ok (dict_get_default row k default))) w
  = for_each (map EObject rows)
      (fun entry => import_row float_sum (entry_get entry)) w.
Proof.
  revert w. induction rows as [|row rows IH]; intros w; [reflexivity|].
  cbn [map for_each]. unfold bind.
  change (entry_get (EObject row))
    with (fun k default => Ok (dict_get_default row k default)).
  destruct (import_row float_sum _ w) as [w1 [[]|e]]; [apply IH|reflexivity].
Qed.

Lemma replay_performs float_sum (good : list jentry) :
  forallb numeric_entry good = true ->
  Forall (fun v => exists s, performance float_sum v = Ok s
                             /\ in_range s = true)
         (map row_values (map entry_dict good)).
Proof.
  induction good as [|e good IH]; cbn [map forallb]; intros H.
  - constructor.
  - apply andb_prop in H as [He Hes]. constructor; [|auto].
    destruct e as [row|v]; [|discriminate].
    now apply row_values_performance.
Qed.

(** The import around any loop over rows: a loop that comes back is
    followed by the save and the success message, a loop that raises is
    turned into the failure pair with the state it left. *)
Lemma import_via_loop float_sum (w : world) (path : string)
    (rows_loop : M unit) (done : list dict) (r : res unit) :
  (modify_self reset_series ;;
   rows_loop ;;
   save_parameters ;;
   self <- get_self ;;
   ret (true, imported_message (List.length (performance_history self))))%M w
  = import_bulk_data_body float_sum path w ->
  rows_loop (with_model w (reset_series (mdl w)))
  = (with_model w (replay float_sum done (reset_series (mdl w))), r) ->
  exists w' ok msg,
    import_bulk_data float_sum path w = (w', Ok (ok, msg))
    /\ mdl w' = replay float_sum done (reset_series (mdl w))
    /\ (forall p, json_files w' p = json_files w p
                  \/ (exists d, json_files w' p = FileJson (DObject d))
                  \/ exists e, json_files w' p = FileBad e)
    /\ match r with
       | Ok _ =>
           ok = true
           /\ msg = imported_message
                      (List.length (performance_history (mdl w')))
       | Raise e =>
           ok = false
           /\ import_bulk_data_body float_sum path w = (w', Raise e)
           /\ msg = "Import failed: " ++ str_exn e
           /\ json_files w' = json_files w
           /\ store_writes w' = store_writes w
       end.
Proof.
  intros Hbody Hloop.
  assert (Hrun : import_bulk_data_body float_sum path w
                 = match r with
                   | Ok _ =>
                       (save_parameters ;;
                        self <- get_self ;;
                        ret (true, imported_message
                                     (List.length (performance_history self))))%M
                         (with_model w
                            (replay float_sum done (reset_series (mdl w))))
                   | Raise e =>
                       (with_model w
                          (replay float_sum done (reset_series (mdl w))),
                        Raise e)
                   end).
  { rewrite <- Hbody. unfold bind at 1. unfold modify_self at 1.
    cbv beta iota.
    change (World (reset_series (mdl w)) (json_files w) (csv_files w)
                  (store_fault w) (store_writes w) (torn_error w))
      with (with_model w (reset_series (mdl w))).
    unfold bind at 1. rewrite Hloop. destruct r as [[]|e]; reflexivity. }
  unfold import_bulk_data, try_except. rewrite Hrun.
  destruct r as [[]|e].
  - destruct (save_parameters_total
                (with_model w (replay float_sum done (reset_series (mdl w)))))
      as (w2 & Hsave & Hm & _ & _ & Hfiles).
    unfold bind at 1. rewrite Hsave. unfold bind, get_self, ret.
    exists w2, true. eexists. split; [reflexivity|].
    split; [exact Hm|]. split; [exact Hfiles|]. split; reflexivity.
  - unfold ret. do 3 eexists. split; [reflexivity|].
    split; [reflexivity|]. split; [now left|]. repeat split; reflexivity.
Qed.


Lemma import_body_json float_sum (path : string) (w : world) :
  endswith path ".csv" = false -> endswith path ".json" = true ->
  (modify_self reset_series ;;
   (data <- json_load path ;;
    entries <- lift (doc_iter data) ;;
    for_each entries (fun entry => import_row float_sum (entry_get entry))) ;;
   save_parameters ;;
   self <- get_self ;;
   ret (true, imported_message (List.length (performance_history self))))%M w
  = import_bulk_data_body float_sum path w.
Proof.
  intros Hcsv Hjson. unfold import_bulk_data_body. now rewrite Hcsv, Hjson.
Qed.

Lemma import_body_csv float_sum (path : string) (w : world) :
  endswith path ".csv" = true ->
  (modify_self reset_series ;;
   (df <- read_csv path ;;
    self <- get_self ;;
    let df := numeric_columns (dict_keys (confirmed_parameters self)) df in
    for_each (iterrows df) (fun row =>
      import_row float_sum
        (fun k default => Ok (dict_get_default row k default)))) ;;
   save_parameters ;;
   self <- get_self ;;
   ret (true, imported_message (List.length (performance_history self))))%M w
  = import_bulk_data_body float_sum path w.
Proof.
  intros Hcsv. unfold import_bulk_data_body. now rewrite Hcsv.
Qed.

Lemma import_body_other float_sum (path : string) (w : world) :
  endswith path ".csv" = false -> endswith path ".json" = false ->
  (modify_self reset_series ;;
   ret tt ;;
   save_parameters ;;
   self <- get_self ;;
   ret (true, imported_message (List.length (performance_history self))))%M w
  = import_bulk_data_body float_sum path w.
Proof.
  intros Hcsv Hjson. unfold import_bulk_data_body. now rewrite Hcsv, Hjson.
Qed.

(** Every import ends in a result pair, and the model it leaves is the
    emptied series with some rows replayed onto it.  [P] is any property
    of the rows that the files guarantee. *)
Lemma import_total_rows float_sum (P : dict -> Prop) (path : string)
    (w : world) :
  (forall data entries e,
     json_files w path = FileJson data -> doc_iter data = Ok entries ->
     In e entries -> numeric_entry e = true -> P (entry_dict e)) ->
  (forall df row,
     csv_files w path = Ok df ->
     In row (iterrows (numeric_columns
                        (dict_keys (confirmed_parameters (mdl w))) df)) ->
     P row) ->
  exists w' ok msg done,
    import_bulk_data float_sum path w = (w', Ok (ok, msg))
    /\ mdl w' = replay float_sum done (reset_series (mdl w))
    /\ Forall (fun v => exists s, performance float_sum v = Ok s
                                  /\ in_range s = true) done
    /\ (forall v, In v done ->
        exists row, v = row_values row /\ numeric_row row = true /\ P row)
    /\ (forall p, json_files w' p = json_files w p
                  \/ (exists d, json_files w' p = FileJson (DObject d))
                  \/ exists e, json_files w' p = FileBad e)
    /\ (ok = false ->
        exists e,
          import_bulk_data_body float_sum path w = (w', Raise e)
          /\ msg = "Import failed: " ++ str_exn e
          /\ json_files w' = json_files w
          /\ store_writes w' = store_writes w).
Proof.
  intros HPjson HPcsv.
  assert (Hvia : forall (rows_loop : M unit) done r,
    (modify_self reset_series ;;
     rows_loop ;;
     save_parameters ;;
     self <- get_self ;;
     ret (true, imported_message (List.length (performance_history self))))%M w
    = import_bulk_data_body float_sum path w ->
    rows_loop (with_model w (reset_series (mdl w)))
    = (with_model w (replay float_sum done (reset_series (mdl w))), r) ->
    Forall (fun v => exists s, performance float_sum v = Ok s
                               /\ in_range s = true) done ->
    (forall v, In v done ->
     exists row, v = row_values row /\ numeric_row row = true /\ P row) ->
    exists w' ok msg done,
      import_bulk_data float_sum path w = (w', Ok (ok, msg))
      /\ mdl w' = replay float_sum done (reset_series (mdl w))
      /\ Forall (fun v => exists s, performance float_sum v = Ok s
                                    /\ in_range s = true) done
      /\ (forall v, In v done ->
          exists row, v = row_values row /\ numeric_row row = true /\ P row)
      /\ (forall p, json_files w' p = json_files w p
                    \/ (exists d, json_files w' p = FileJson (DObject d))
                  \/ exists e, json_files w' p = FileBad e)
      /\ (ok = false ->
          exists e,
            import_bulk_data_body float_sum path w = (w', Raise e)
            /\ msg = "Import failed: " ++ str_exn e
            /\ json_files w' = json_files w
            /\ store_writes w' = store_writes w)).
  { intros rows_loop done r Hbody Hloop Hdone Hrows.
    destruct (import_via_loop float_sum w path rows_loop done r Hbody Hloop)
      as (w' & ok & msg & Hrun & Hm & Hfiles & Hr).
    exists w', ok, msg, done. repeat (split; [assumption|]).
    destruct r as [[]|e].
    - destruct Hr as [-> _]. discriminate.
    - destruct Hr as (_ & Hb & Hmsg & Hj & Hs). intros _. now exists e. }
  assert (Hentries : forall (entries : list jentry) (u : world),
    (forall e, In e entries -> numeric_entry e = true -> P (entry_dict e)) ->
    exists done r,
      for_each entries (fun entry => import_row float_sum (entry_get entry)) u
      = (with_model u (replay float_sum done (mdl u)), r)
      /\ Forall (fun v => exists s, performance float_sum v = Ok s
                                    /\ in_range s = true) done
      /\ (forall v, In v done ->
          exists row, v = row_values row /\ numeric_row row = true /\ P row)).
  { intros entries u HP.
    assert (Hin : forall l,
              forallb numeric_entry l = true ->
              (forall e, In e l -> In e entries) ->
              forall v, In v (map row_values (map entry_dict l)) ->
              exists row, v = row_values row /\ numeric_row row = true
                          /\ P row).
    { intros l Hl Hsub v Hv. rewrite map_map in Hv. apply in_map_iff in Hv.
      destruct Hv as (x & <- & Hx).
      rewrite forallb_forall in Hl. pose proof (Hl x Hx) as Hnx.
      exists (entry_dict x). split; [reflexivity|]. split.
      - destruct x; [exact Hnx|discriminate].
      - apply HP; [now apply Hsub|exact Hnx]. }
    destruct (import_entries_any float_sum entries u)
      as [[Hall Hrun]|(good & bad & rest & e & Heq & Hg & _ & Hrun)].
    - do 2 eexists. split; [exact Hrun|].
      split; [now apply replay_performs|now apply Hin].
    - do 2 eexists. split; [exact Hrun|].
      split; [now apply replay_performs|apply Hin; [exact Hg|]].
      intros x Hx. rewrite Heq. apply in_or_app. now left. }
  destruct (endswith path ".csv") eqn:Hcsv.
  - destruct (csv_files w path) as [df|e] eqn:Hdf.
    + destruct (Hentries
                  (map EObject
                     (iterrows (numeric_columns
                                 (dict_keys (confirmed_parameters (mdl w)))
                                 df)))
                  (with_model w (reset_series (mdl w))))
        as (done & r & Hrun & Hdone & Hrows).
      { intros e He _. apply in_map_iff in He. destruct He as (row & <- & Hrow).
        now apply (HPcsv df). }
      eapply Hvia; [apply (import_body_csv float_sum path w Hcsv)| |exact Hdone
                   |exact Hrows].
      unfold bind at 1. unfold read_csv. cbn [csv_files with_model].
      rewrite Hdf. unfold bind at 1. unfold get_self. cbv beta iota zeta.
      rewrite for_each_rows_entries. exact Hrun.
    + eapply (Hvia _ [] (Raise e));
        [apply (import_body_csv float_sum path w Hcsv)| |constructor
        |intros v []].
      unfold bind at 1. unfold read_csv. cbn [csv_files with_model].
      rewrite Hdf. reflexivity.
  - destruct (endswith path ".json") eqn:Hjson.
    + destruct (json_files w path) as [|e|data] eqn:Hj.
      * eapply (Hvia _ [] (Raise _));
          [apply (import_body_json float_sum path w Hcsv Hjson)|
          |constructor|intros v []].
        unfold bind at 1. unfold json_load. cbn [json_files with_model].
        rewrite Hj. reflexivity.
      * eapply (Hvia _ [] (Raise e));
          [apply (import_body_json float_sum path w Hcsv Hjson)|
          |constructor|intros v []].
        unfold bind at 1. unfold json_load. cbn [json_files with_model].
        rewrite Hj. reflexivity.
      * destruct (doc_iter data) as [entries|e] eqn:Hit.
        -- destruct (Hentries entries (with_model w (reset_series (mdl w))))
             as (done & r & Hrun & Hdone & Hrows).
           { intros e He Hn. now apply (HPjson data entries). }
           eapply Hvia;
             [apply (import_body_json float_sum path w Hcsv Hjson)|
             |exact Hdone|exact Hrows].
           unfold bind at 1. unfold json_load. cbn [json_files with_model].
           rewrite Hj. unfold bind at 1. unfold lift. rewrite Hit.
           exact Hrun.
        -- eapply (Hvia _ [] (Raise e));
             [apply (import_body_json float_sum path w Hcsv Hjson)|
             |constructor|intros v []].
           unfold bind at 1. unfold json_load. cbn [json_files with_model].
           rewrite Hj. unfold bind at 1. unfold lift. rewrite Hit.
           reflexivity.
    + eapply (Hvia _ [] (Ok tt));
        [apply (import_body_other float_sum path w Hcsv Hjson)|
        |constructor|intros v []].
      reflexivity.
Qed.

Lemma import_total float_sum (path : string) (w : world) :
  exists w' ok msg done,
    import_bulk_data float_sum path w = (w', Ok (ok, msg))
    /\ mdl w' = replay float_sum done (reset_series (mdl w))
    /\ Forall (fun v => exists s, performance float_sum v = Ok s
                                  /\ in_range s = true) done
    /\ (forall v, In v done -> exists row, v = row_values row)
    /\ (ok = false ->
        exists e,
          import_bulk_data_body float_sum path w = (w', Raise e)
          /\ msg = "Import failed: " ++ str_exn e
          /\ json_files w' = json_files w
          /\ store_writes w' = store_writes w).
Proof.
  destruct (import_total_rows float_sum (fun _ => True) path w)
    as (w' & ok & msg & done & H1 & H2 & H3 & H4 & _ & H6); [auto|auto|].
  exists w', ok, msg, done. repeat (split; [assumption|]).
  split; [|exact H6].
  intros v Hv. destruct (H4 v Hv) as (row & -> & _). now exists row.
Qed.

Lemma python_row_dumpable (row : dict) :
  python_row row = true -> dumpable (row_values row) = true.
Proof.
  intros H. apply forallb_param_names in H as (H1 & H2 & H3 & H4 & H5).
  unfold dumpable, row_values, params; cbn [map snd forallb].
  now rewrite !clamp_0_100_json_ok by assumption.
Qed.

(** In a row of objects or of floats every number is a Python number. *)
Lemma row_value_json_ok (d : dtype) (n : numcol) (i : nat) :
  d = DtObject \/ d = DtFloat64 ->
  json_ok (row_value d (Numeric n) i) = true.
Proof. intros [->| ->]; destruct n; reflexivity. Qed.

Lemma csv_rows_python (df : dataframe) (row : dict) :
  row_dtype (numeric_columns param_names df) = DtObject
  \/ row_dtype (numeric_columns param_names df) = DtFloat64 ->
  In row (csv_rows df) -> python_row row = true.
Proof.
  intros Hd Hrow. destruct (csv_rows_in df row Hrow) as (i & _ & ->).
  unfold python_row. apply forallb_forall. intros k Hk.
  rewrite (csv_row_get df i k Hk). now apply row_value_json_ok.
Qed.

(** C2, as the code has it by design: for a [.json] path holding an array
    of objects whose recognized fields are numbers where present, and for
    a [.csv] path that pandas parses, [import_bulk_data] empties the
    series, then for each row in order makes the row's values the whole
    confirmed set and scores once, leaving the pending set alone, and
    returns [True] with the number of rows in the message.  A row's value
    is 50 for a JSON field that is absent and for a CSV column that is
    absent, 50.0 for a CSV cell in which pandas reads no number; a value
    below 0 becomes 0, one above 100 becomes 100.  The last row's values
    are written to the parameter file when they are values [json.dump]
    writes: they are for the rows of a JSON file, and for the rows of a
    frame that pandas hands out as objects or as floats. *)
Theorem import_bulk_data_replays float_sum (w : world) (path : string) :
  store_fault w = None ->
  (forall entries,
     endswith path ".csv" = false -> endswith path ".json" = true ->
     json_files w path = FileJson (DArray entries) ->
     forallb numeric_entry entries = true ->
     import_outcome float_sum w path
       (map row_values (map entry_dict entries))
     /\ (forall e, In e entries -> nan_free_row (entry_dict e) = true ->
         forallb in_range (map snd (row_values (entry_dict e))) = true)
     /\ (forall e, In e entries -> python_row (entry_dict e) = true ->
         dumpable (row_values (entry_dict e)) = true))
  /\ (forall df,
        endswith path ".csv" = true ->
        csv_files w path = Ok df ->
        dict_keys (confirmed_parameters (mdl w)) = param_names ->
        import_outcome float_sum w path (map row_values (csv_rows df))
        /\ csv_rows df
           = map (frame_row (numeric_columns param_names df))
                 (seq 0 (df_length df))
        /\ (forall i k, In k param_names ->
            dict_get_default
              (frame_row (numeric_columns param_names df) i) k (PInt 50)
            = row_value (row_dtype (numeric_columns param_names df))
                        (Numeric (csv_column df k)) i)
        /\ (forall row, In row (csv_rows df) ->
            forallb in_range (map snd (row_values row)) = true)
        /\ (row_dtype (numeric_columns param_names df) = DtObject
            \/ row_dtype (numeric_columns param_names df) = DtFloat64 ->
            forall row, In row (csv_rows df) ->
            dumpable (row_values row) = true)).
Proof.
  intros Hf. split.
  - intros entries Hcsv Hjson Hj Hnum. split; [|split].
    + now apply import_json_numeric.
    + intros e He Hnan. apply row_values_in_range; [|exact Hnan].
      rewrite forallb_forall in Hnum. specialize (Hnum e He).
      destruct e as [row|v]; [exact Hnum|discriminate].
    + intros e _. apply python_row_dumpable.
  - intros df Hcsv Hdf Hk. split; [|split; [|split; [|split]]].
    + now apply import_csv_frame.
    + unfold csv_rows, iterrows. now rewrite numeric_columns_length.
    + intros i k. apply csv_row_get.
    + apply csv_rows_in_range.
    + intros Hd row Hrow. apply python_row_dumpable.
      now apply (csv_rows_python df).
Qed.

Lemma import_bulk_data_replays_witness :
  import_outcome sum_left (with_json blank_world "history.json"
                                     (DArray three_rows))
    "history.json"
    [params (PInt 50) (PInt 100) (PInt 50) (PInt 50) (PInt 50);
     params (PInt 100) (PInt 50) (PInt 50) (PInt 50) (PInt 0);
     params (PInt 50) (PInt 50) (PInt 50) (PInt 50) (PInt 50)]
  /\ import_outcome sum_left (with_csv blank_world "history.csv" small_frame)
       "history.csv"
       [params (PInt 50) (PInt 70) (PInt 50) (PInt 50) (PFloat 50);
        params (PInt 50) (PInt 100) (PInt 50) (PInt 50) (PFloat 50)]
  /\ dumpable (params (PInt 50) (PInt 100) (PInt 50) (PInt 50) (PFloat 50))
     = true.
Proof.
  split; [|split].
  - apply (proj1 (import_bulk_data_replays sum_left
                    (with_json blank_world "history.json" (DArray three_rows))
                    "history.json" eq_refl) three_rows); reflexivity.
  - apply (proj2 (import_bulk_data_replays sum_left
                    (with_csv blank_world "history.csv" small_frame)
                    "history.csv" eq_refl) small_frame); reflexivity.
  - apply (proj2 (proj2 (proj2 (proj2
             (proj2 (import_bulk_data_replays sum_left
                       (with_csv blank_world "history.csv" small_frame)
                       "history.csv" eq_refl) small_frame
                    eq_refl eq_refl eq_refl)))) (or_introl eq_refl)
            (frame_row (numeric_columns param_names small_frame) 1)).
    right. now left.
Defined.

(** Not every input file is imported with success: a JSON row whose field
    is text is not given 50 but makes the import fail, and so does a file
    that [json.load] rejects; the series stays empty. *)
Lemma import_text_field_fails :
  (exists w',
     import_bulk_data sum_left "history.json"
       (with_json blank_world "history.json" (DArray [text_row]))
     = (w', Ok (false,
                "Import failed: '>' not supported between instances of 'int' and 'str'"))
     /\ performance_history (mdl w') = []
     /\ confirmed_parameters (mdl w') = fresh_parameters
     /\ json_files w' store_path = FileAbsent)
  /\ (exists w',
        import_bulk_data sum_left "history.json"
          (World (mdl blank_world)
                 (fun _ => FileBad (Exn ValueError
                                        "Expecting value: line 1 column 1 (char 0)"))
                 (csv_files blank_world) None 0 (torn_error blank_world))
        = (w', Ok (false,
                   "Import failed: Expecting value: line 1 column 1 (char 0)"))
        /\ performance_history (mdl w') = []).
Proof.
  split; eexists; (split; [vm_compute; reflexivity|]); repeat split.
Qed.





(** ** The two parameter sets across operations *)

Lemma in_range_set (d : dict) (k : string) (v : pyval) :
  forallb in_range (map snd d) = true -> in_range v = true ->
  forallb in_range (map snd (dict_set d k v)) = true.
Proof.
  intros Hd Hv. induction d as [|[k' v'] d IH]; cbn [dict_set map snd forallb].
  - now rewrite Hv.
  - cbn [map snd forallb] in Hd. apply andb_prop in Hd as [H1 H2].
    destruct (String.eqb k k'); cbn [map snd forallb].
    + now rewrite Hv, H2.
    + now rewrite H1, IH.
Qed.

Lemma in_range_get (d : dict) (k : string) (v : pyval) :
  forallb in_range (map snd d) = true -> dict_get d k = Some v ->
  in_range v = true.
Proof.
  induction d as [|[k' v'] d IH]; cbn [dict_get map snd forallb];
    [discriminate|].
  intros Hd. apply andb_prop in Hd as [H1 H2].
  destruct (String.eqb k k'); [now intros [= <-]|now apply IH].
Qed.

Lemma merged_keys (c p : dict) : dict_keys (merged c p) = dict_keys c.
Proof.
  unfold merged, dict_keys. rewrite map_map. apply map_ext.
  intros [k cv]. now destruct (differs_at p k cv).
Qed.

Lemma merged_in_range (c p : dict) :
  forallb in_range (map snd c) = true ->
  forallb in_range (map snd p) = true ->
  forallb in_range (map snd (merged c p)) = true.
Proof.
  intros Hc Hp. unfold merged.
  induction c as [|[k cv] c IH]; cbn [map snd forallb]; [reflexivity|].
  cbn [map snd forallb] in Hc. apply andb_prop in Hc as [H1 H2].
  rewrite (IH H2), andb_true_r.
  destruct (differs_at p k cv); cbn [snd]; [|exact H1].
  unfold dict_get_default.
  destruct (dict_get p k) as [pv|] eqn:E; [|exact H1].
  exact (in_range_get p k pv Hp E).
Qed.

(** [update_pending_parameters] only rewrites values of the pending set. *)
Lemma update_pending_run (new_params : dict) (w : world) :
  exists pend,
    update_pending_parameters new_params w
    = (with_model w (set_pending pend (mdl w)), Ok tt)
    /\ dict_keys pend = dict_keys (pending_parameters (mdl w))
    /\ (forallb in_range (map snd (pending_parameters (mdl w))) = true ->
        forallb (fun kv => in_range (snd kv)) new_params = true ->
        forallb in_range (map snd pend) = true).
Proof.
  revert w. induction new_params as [|[param value] rest IH]; intros w.
  - exists (pending_parameters (mdl w)).
    split; [|split; auto].
    destruct w as [[c p h ts ct] jf cf sf sw te]. reflexivity.
  - unfold update_pending_parameters. cbn [for_each].
    unfold bind at 1. unfold bind at 1. unfold get_self at 1.
    cbv beta iota.
    destruct (dict_mem param (pending_parameters (mdl w))) eqn:Hmem.
    + unfold modify_self at 1. cbv beta iota.
      destruct (IH (with_model w
                      (set_pending (dict_set (pending_parameters (mdl w))
                                             param value) (mdl w))))
        as (pend & Hrun & Hk & Hv).
      exists pend. split; [|split].
      * unfold update_pending_parameters in Hrun. exact Hrun.
      * rewrite Hk. cbn [mdl with_model set_pending pending_parameters].
        now apply dict_keys_set_mem.
      * intros Hp Hnew. cbn [forallb snd] in Hnew.
        apply andb_prop in Hnew as [Hval Hrest].
        apply Hv; [|exact Hrest].
        cbn [mdl with_model set_pending pending_parameters].
        now apply in_range_set.
    + unfold ret at 1. cbv beta iota.
      destruct (IH w) as (pend & Hrun & Hk & Hv).
      exists pend. split; [exact Hrun|]. split; [exact Hk|].
      intros Hp Hnew. cbn [forallb snd] in Hnew.
      apply andb_prop in Hnew as [_ Hrest]. now apply Hv.
Qed.

Lemma calculate_performance_frame float_sum (w : world) :
  exists w' r,
    calculate_performance float_sum w = (w', r)
    /\ confirmed_parameters (mdl w') = confirmed_parameters (mdl w)
    /\ pending_parameters (mdl w') = pending_parameters (mdl w)
    /\ json_files w' = json_files w.
Proof.
  destruct (performance float_sum (confirmed_parameters (mdl w)))
    as [score|e] eqn:Hp.
  - rewrite (calculate_performance_run float_sum w score Hp).
    do 2 eexists. split; [reflexivity|]. repeat split.
  - rewrite (calculate_performance_raise float_sum w e Hp).
    do 2 eexists. split; [reflexivity|]. repeat split.
Qed.

Lemma confirm_parameters_frame float_repr float_sum (w : world) :
  keys_ok w ->
  exists w' r,
    confirm_parameters float_repr float_sum w = (w', r)
    /\ confirmed_parameters (mdl w')
       = merged (confirmed_parameters (mdl w)) (pending_parameters (mdl w))
    /\ pending_parameters (mdl w') = pending_parameters (mdl w)
    /\ (forall p, json_files w' p = json_files w p
                  \/ (exists d, json_files w' p = FileJson (DObject d))
                  \/ exists e, json_files w' p = FileBad e).
Proof.
  intros [Hc Hp].
  rewrite (confirm_parameters_run float_repr float_sum w Hc Hp).
  destruct (differs _ _) eqn:D.
  - destruct (save_parameters_total
                (with_model w
                   (set_confirmed
                      (merged (confirmed_parameters (mdl w))
                              (pending_parameters (mdl w))) (mdl w))))
      as (w2 & Hsave & Hm & _ & _ & Hfiles).
    destruct (calculate_performance_frame float_sum w2)
      as (w3 & r & Hcalc & Hc3 & Hp3 & Hj3).
    unfold bind at 1. rewrite Hsave. unfold bind at 1. rewrite Hcalc.
    destruct r as [score|e]; do 2 eexists; (split; [reflexivity|]);
      rewrite Hc3, Hp3, Hj3, Hm; repeat split; exact Hfiles.
  - do 2 eexists. split; [reflexivity|].
    rewrite (merged_same _ _ D). repeat split. now left.
Qed.

Lemma last_in {X} (xs : list X) (d : X) :
  xs = [] \/ In (last xs d) xs.
Proof.
  revert d. induction xs as [|x xs IH]; intros d; [now left|right].
  rewrite last_cons_default.
  destruct (IH x) as [->|H]; [now left|now right].
Qed.

Lemma import_frame float_sum (P : dict -> Prop) (path : string) (w : world) :
  (forall data entries e,
     json_files w path = FileJson data -> doc_iter data = Ok entries ->
     In e entries -> numeric_entry e = true -> P (entry_dict e)) ->
  (forall df row,
     csv_files w path = Ok df ->
     In row (iterrows (numeric_columns
                        (dict_keys (confirmed_parameters (mdl w))) df)) ->
     P row) ->
  exists w' r,
    import_bulk_data float_sum path w = (w', r)
    /\ pending_parameters (mdl w') = pending_parameters (mdl w)
    /\ (confirmed_parameters (mdl w') = confirmed_parameters (mdl w)
        \/ exists row, confirmed_parameters (mdl w') = row_values row
                       /\ numeric_row row = true /\ P row)
    /\ (forall p, json_files w' p = json_files w p
                  \/ (exists d, json_files w' p = FileJson (DObject d))
                  \/ exists e, json_files w' p = FileBad e).
Proof.
  intros HPjson HPcsv.
  destruct (import_total_rows float_sum P path w HPjson HPcsv)
    as (w' & ok & msg & done & Hrun & Hm & Hdone & Hrows & Hfiles & _).
  destruct (replay_reset float_sum done (mdl w) Hdone) as (scores & _ & Hrep).
  rewrite Hrep in Hm.
  exists w'. eexists. split; [exact Hrun|]. rewrite Hm. cbn.
  split; [reflexivity|]. split; [|exact Hfiles].
  destruct (last_in done (confirmed_parameters (mdl w))) as [->|Hin];
    [now left|right].
  destruct (Hrows _ Hin) as (row & Hv & Hn & HP). now exists row.
Qed.

Lemma nan_free_files_frame (w w' : world) :
  (forall p, json_files w' p = json_files w p
             \/ (exists d, json_files w' p = FileJson (DObject d))
             \/ exists e, json_files w' p = FileBad e) ->
  nan_free_files w -> nan_free_files w'.
Proof.
  intros Hfiles Hw path entries Hj.
  destruct (Hfiles path) as [E|[[d E]|[e E]]]; rewrite E in Hj.
  - now apply (Hw path).
  - discriminate.
  - discriminate.
Qed.

Lemma run_op_keys float_repr float_sum (o : op) (w : world) :
  keys_ok w -> keys_ok (run_op float_repr float_sum o w).
Proof.
  intros [Hc Hp]. destruct o as [new_params| | |path]; cbn [run_op].
  - destruct (update_pending_run new_params w) as (pend & -> & Hk & _).
    split; cbn [fst mdl with_model set_pending confirmed_parameters
                pending_parameters]; [exact Hc|now rewrite Hk].
  - destruct (confirm_parameters_frame float_repr float_sum w (conj Hc Hp))
      as (w' & r & -> & Hc' & Hp' & _).
    split; cbn [fst]; [now rewrite Hc', merged_keys|now rewrite Hp'].
  - destruct (calculate_performance_frame float_sum w)
      as (w' & r & -> & Hc' & Hp' & _).
    split; cbn [fst]; [now rewrite Hc'|now rewrite Hp'].
  - destruct (import_frame float_sum (fun _ => True) path w)
      as (w' & r & -> & Hp' & Hc' & _); [auto|auto|].
    split; cbn [fst]; [|now rewrite Hp'].
    destruct Hc' as [->|(row & -> & _)]; [exact Hc|reflexivity].
Qed.

Lemma run_op_values float_repr float_sum (o : op) (w : world) :
  keys_ok w -> nan_free_files w -> values_ok w = true ->
  op_in_range o = true ->
  values_ok (run_op float_repr float_sum o w) = true
  /\ nan_free_files (run_op float_repr float_sum o w).
Proof.
  intros [Hc Hp] Hfiles Hv Ho. unfold values_ok in *.
  apply andb_prop in Hv as [Hvc Hvp].
  destruct o as [new_params| | |path]; cbn [run_op].
  - destruct (update_pending_run new_params w) as (pend & -> & _ & Hr).
    split; [|exact Hfiles].
    cbn [fst mdl with_model set_pending confirmed_parameters
         pending_parameters].
    rewrite Hvc. cbn [andb]. now apply Hr.
  - destruct (confirm_parameters_frame float_repr float_sum w (conj Hc Hp))
      as (w' & r & -> & Hc' & Hp' & Hf').
    split; [|now apply (nan_free_files_frame w)]. cbn [fst].
    rewrite Hc', Hp', Hvp, andb_true_r. now apply merged_in_range.
  - destruct (calculate_performance_frame float_sum w)
      as (w' & r & -> & Hc' & Hp' & Hf').
    split; cbn [fst].
    + now rewrite Hc', Hp', Hvc, Hvp.
    + intros p es. rewrite Hf'. apply Hfiles.
  - destruct (import_frame float_sum (fun row => nan_free_row row = true)
                path w) as (w' & r & -> & Hp' & Hc' & Hf').
    + intros data entries e Hj Hit He _.
      destruct data as [es|d|v].
      * cbn in Hit. injection Hit as <-.
        pose proof (Hfiles path es Hj) as Hall.
        rewrite forallb_forall in Hall. now apply Hall.
      * cbn in Hit. injection Hit as <-.
        apply in_map_iff in He. destruct He as (k & <- & _). reflexivity.
      * destruct v; try discriminate Hit. cbn in Hit. injection Hit as <-.
        apply in_map_iff in He. destruct He as (k & <- & _). reflexivity.
    + intros df row _ Hrow. rewrite Hc in Hrow.
      destruct (csv_rows_in df row Hrow) as (i & _ & ->).
      apply frame_row_numeric.
    + split; [|now apply (nan_free_files_frame w)]. cbn [fst].
      rewrite Hp', Hvp, andb_true_r.
      destruct Hc' as [->|(row & -> & Hn & Hnan)]; [exact Hvc|].
      now apply row_values_in_range.
Qed.

(** C5, as the code has it: after every sequence of
    [update_pending_parameters], [confirm_parameters],
    [calculate_performance] and [import_bulk_data] calls, both parameter
    sets hold exactly the five recognized keys; and every value of both
    sets lies in [0, 100] as long as it did at the start, every update
    passed values in [0, 100] only, and no JSON array on the disk holds
    NaN under a recognized name.  [update_pending_parameters] itself stores
    what it is given. *)
Theorem parameter_sets_invariant float_repr float_sum (ops : list op)
    (w : world) :
  keys_ok w ->
  keys_ok (run_ops float_repr float_sum ops w)
  /\ (values_ok w = true -> nan_free_files w ->
      forallb op_in_range ops = true ->
      values_ok (run_ops float_repr float_sum ops w) = true).
Proof.
  revert w. induction ops as [|o ops IH]; intros w Hk.
  - split; [exact Hk|]. intros Hv _ _. exact Hv.
  - pose proof (run_op_keys float_repr float_sum o w Hk) as Hk1.
    destruct (IH _ Hk1) as [IHk IHv].
    split; [exact IHk|].
    intros Hv Hfiles Hops. cbn [forallb] in Hops.
    apply andb_prop in Hops as [Ho Hrest].
    destruct (run_op_values float_repr float_sum o w Hk Hfiles Hv Ho)
      as [Hv1 Hf1].
    now apply IHv.
Qed.

Lemma parameter_sets_invariant_witness :
  keys_ok (run_ops (fun _ => "50.0") sum_left
             [OpUpdate [("teaching", PInt 80); ("mood", PInt 7)];
              OpConfirm; OpCalculate; OpImport "history.json"]
             (with_json blank_world "history.json" (DArray three_rows)))
  /\ values_ok (run_ops (fun _ => "50.0") sum_left
                  [OpUpdate [("teaching", PInt 80); ("mood", PInt 7)];
                   OpConfirm; OpCalculate; OpImport "history.json"]
                  (with_json blank_world "history.json" (DArray three_rows)))
     = true.
Proof.
  destruct (parameter_sets_invariant (fun _ => "50.0") sum_left
              [OpUpdate [("teaching", PInt 80); ("mood", PInt 7)];
               OpConfirm; OpCalculate; OpImport "history.json"]
              (with_json blank_world "history.json" (DArray three_rows)))
    as [Hk Hv].
  - split; reflexivity.
  - split; [exact Hk|]. apply Hv; [reflexivity| |reflexivity].
    intros path entries H. cbn in H.
    destruct (String.eqb path "history.json");
      [injection H as <-; reflexivity|discriminate H].
Defined.

(** [update_pending_parameters] does not clamp: one update with 500 leaves
    500 in the pending set of a model that started within range. *)
Lemma update_out_of_range :
  keys_ok blank_world
  /\ values_ok blank_world = true
  /\ pending_parameters
       (mdl (run_ops (fun _ => "50.0") sum_left
               [OpUpdate [("preparedness", PInt 500)]] blank_world))
     = params (PInt 500) (PInt 50) (PInt 50) (PInt 50) (PInt 50)
  /\ values_ok (run_ops (fun _ => "50.0") sum_left
                  [OpUpdate [("preparedness", PInt 500)]] blank_world)
     = false.
Proof. repeat split. Qed.

(** ** The series across operations *)

Lemma performance_in_range float_sum (c : dict) (s : pyval) :
  performance float_sum c = Ok s -> in_range s = true.
Proof.
  unfold performance. destruct (weighted_terms c) as [terms|e]; cbn [rbind];
    [|discriminate].
  destruct (clamp_score_sum float_sum terms) as (r & H1 & H2).
  rewrite H1. now intros [= <-].
Qed.

Lemma push_score_series (m : model) (s : pyval) :
  series_ok m -> in_range s = true -> series_ok (push_score s m).
Proof.
  intros (Ht & Hc & Hr) Hs. unfold series_ok, push_score.
  cbn [performance_history time_steps current_time].
  rewrite length_app. cbn [List.length].
  rewrite Nat.add_1_r, seq_S, map_app, <- Ht, Hc. cbn [map Nat.add].
  split; [reflexivity|]. split; [lia|].
  rewrite forallb_app, Hr. cbn [forallb]. now rewrite Hs.
Qed.

Lemma calculate_performance_series float_sum (w : world) :
  exists w' r,
    calculate_performance float_sum w = (w', r)
    /\ (w' = w
        \/ exists s, in_range s = true
                     /\ w' = with_model w (push_score s (mdl w))).
Proof.
  destruct (performance float_sum (confirmed_parameters (mdl w)))
    as [score|e] eqn:Hp.
  - rewrite (calculate_performance_run float_sum w score Hp).
    do 2 eexists. split; [reflexivity|]. right. exists score.
    split; [now apply (performance_in_range float_sum _ _ Hp)|reflexivity].
  - rewrite (calculate_performance_raise float_sum w e Hp).
    do 2 eexists. split; [reflexivity|]. now left.
Qed.

Lemma series_ok_fields (m m' : model) :
  performance_history m' = performance_history m ->
  time_steps m' = time_steps m -> current_time m' = current_time m ->
  series_ok m -> series_ok m'.
Proof. unfold series_ok. now intros -> -> ->. Qed.

Lemma replay_series float_sum (done : list dict) (m : model) :
  Forall (fun v => exists s, performance float_sum v = Ok s
                             /\ in_range s = true) done ->
  series_ok (replay float_sum done (reset_series m)).
Proof.
  intros H. destruct (replay_reset float_sum done m H) as (scores & HF & ->).
  unfold series_ok.
  cbn [performance_history time_steps current_time].
  rewrite <- (Forall2_length HF). split; [reflexivity|]. split; [reflexivity|].
  clear -HF. induction HF as [|v s vs ss [_ Hs] _ IH]; [reflexivity|].
  cbn [forallb]. now rewrite Hs, IH.
Qed.

Lemma run_op_series float_repr float_sum (o : op) (w : world) :
  keys_ok w -> series_ok (mdl w) ->
  series_ok (mdl (run_op float_repr float_sum o w)).
Proof.
  intros Hk Hs. destruct o as [new_params| | |path]; cbn [run_op].
  - destruct (update_pending_run new_params w) as (pend & -> & _).
    now apply (series_ok_fields (mdl w)).
  - destruct Hk as [Hc Hp].
    rewrite (confirm_parameters_run float_repr float_sum w Hc Hp).
    destruct (differs _ _); [|exact Hs].
    destruct (save_parameters_total
                (with_model w
                   (set_confirmed
                      (merged (confirmed_parameters (mdl w))
                              (pending_parameters (mdl w))) (mdl w))))
      as (w2 & Hsave & Hm & _).
    destruct (calculate_performance_series float_sum w2)
      as (w3 & r & Hcalc & Hw3).
    unfold bind at 1. rewrite Hsave. unfold bind at 1. rewrite Hcalc.
    assert (Hs2 : series_ok (mdl w2))
      by (rewrite Hm; now apply (series_ok_fields (mdl w))).
    assert (Hs3 : series_ok (mdl w3)).
    { destruct Hw3 as [->|(s & Hr & ->)]; [exact Hs2|].
      now apply push_score_series. }
    destruct r; exact Hs3.
  - destruct (calculate_performance_series float_sum w)
      as (w' & r & -> & [->|(s & Hr & ->)]); cbn [fst]; [exact Hs|].
    now apply push_score_series.
  - destruct (import_total float_sum path w)
      as (w' & ok & msg & done & -> & Hm & Hdone & _).
    cbn [fst]. rewrite Hm. now apply replay_series.
Qed.

Lemma run_ops_series float_repr float_sum (ops : list op) (w : world) :
  keys_ok w -> series_ok (mdl w) ->
  series_ok (mdl (run_ops float_repr float_sum ops w)).
Proof.
  revert w. induction ops as [|o ops IH]; intros w Hk Hs; [exact Hs|].
  apply (IH (run_op float_repr float_sum o w)).
  - now apply run_op_keys.
  - now apply run_op_series.
Qed.

(** X1: the two sequences of the series stay in step.  From a model whose
    time steps are 0, 1, ..., n-1 beside n scores in [0, 100] and whose
    counter is n, every sequence of updates, confirmations, scorings and
    imports leads to a model of that shape again. *)
Theorem series_invariant float_repr float_sum (ops : list op) (w : world) :
  keys_ok w -> series_ok (mdl w) ->
  series_ok (mdl (run_ops float_repr float_sum ops w)).
Proof.
  revert w. induction ops as [|o ops IH]; intros w Hk Hs; [exact Hs|].
  cbn [run_ops fold_left]. apply IH.
  - now apply run_op_keys.
  - now apply run_op_series.
Qed.

Lemma series_invariant_witness :
  series_ok (mdl (run_ops (fun _ => "50.0") sum_left
                    [OpCalculate; OpUpdate [("teaching", PInt 80)];
                     OpConfirm; OpImport "history.json"; OpCalculate]
                    (with_json blank_world "history.json"
                               (DArray three_rows)))).
Proof.
  apply series_invariant; repeat split; reflexivity.
Defined.

(** ** Classification on the states the operations reach *)

Lemma in_range_number (v : pyval) : in_range v = true -> is_number v = true.
Proof. destruct v; try discriminate; reflexivity. Qed.

Lemma predict_pass_fail_number (self : model) (hist : list pyval)
    (score : pyval) :
  performance_history self = (hist ++ [score])%list ->
  is_number score = true ->
  exists label fg bg,
    predict_pass_fail self = Ok (label, fg, bg)
    /\ In label ["High pass chance"; "Likely to pass"; "Borderline";
                 "Risk of failing"; "High fail chance"].
Proof.
  intros Hh Hn. rewrite (predict_pass_fail_last _ _ _ Hh).
  unfold is_number in Hn.
  destruct (as_number score) as [x|] eqn:Hx; [clear Hn|discriminate].
  unfold predict_pass_fail; cbn [performance_history rev app].
  rewrite !(py_ge_number _ _ _ Hx).
  destruct (is_ge (num_compare x (NumInt 70)));
    [|destruct (is_ge (num_compare x (NumInt 60)));
      [|destruct (is_ge (num_compare x (NumInt 50)));
        [|destruct (is_ge (num_compare x (NumInt 40)))]]];
    cbn [rbind]; do 3 eexists; (split; [reflexivity|]); cbn; tauto.
Qed.

(** X2: after any sequence of operations on a model whose series is in
    step, [predict_pass_fail] does not raise: it answers "No data" on an
    empty history and one of the five band labels otherwise. *)
Theorem predict_pass_fail_after_ops float_repr float_sum (ops : list op)
    (w : world) :
  keys_ok w -> series_ok (mdl w) ->
  exists label fg bg,
    predict_pass_fail (mdl (run_ops float_repr float_sum ops w))
    = Ok (label, fg, bg)
    /\ (performance_history (mdl (run_ops float_repr float_sum ops w)) = []
        -> label = "No data")
    /\ (performance_history (mdl (run_ops float_repr float_sum ops w)) <> []
        -> In label ["High pass chance"; "Likely to pass"; "Borderline";
                     "Risk of failing"; "High fail chance"]).
Proof.
  intros Hk Hs.
  pose proof (run_ops_series float_repr float_sum ops w Hk Hs)
    as (_ & _ & Hr).
  set (m := mdl (run_ops float_repr float_sum ops w)) in *.
  destruct (performance_history m) as [|s0 h0] eqn:Hh.
  - exists "No data", "black", "gray".
    unfold predict_pass_fail. rewrite Hh.
    split; [reflexivity|]. split; [reflexivity|]. now intros [].
  - destruct (@exists_last _ (s0 :: h0)) as (hist & score & E);
      [discriminate|].
    rewrite E in Hr, Hh.
    rewrite forallb_app in Hr. apply andb_prop in Hr as [_ Hx].
    cbn [forallb] in Hx. rewrite andb_true_r in Hx.
    destruct (predict_pass_fail_number m _ _ Hh (in_range_number _ Hx))
      as (label & fg & bg & Hrun & Hin).
    exists label, fg, bg. split; [exact Hrun|]. split; [|now intros _].
    intros E'. now destruct hist.
Qed.

Lemma predict_pass_fail_after_ops_witness :
  exists label fg bg,
    predict_pass_fail
      (mdl (run_ops (fun _ => "50.0") sum_left
              [OpUpdate [("teaching", PInt 80)]; OpConfirm] blank_world))
    = Ok (label, fg, bg)
    /\ (performance_history
          (mdl (run_ops (fun _ => "50.0") sum_left
                  [OpUpdate [("teaching", PInt 80)]; OpConfirm] blank_world))
        = [] -> label = "No data")
    /\ (performance_history
          (mdl (run_ops (fun _ => "50.0") sum_left
                  [OpUpdate [("teaching", PInt 80)]; OpConfirm] blank_world))
        <> [] ->
        In label ["High pass chance"; "Likely to pass"; "Borderline";
                  "Risk of failing"; "High fail chance"]).
Proof.
  apply predict_pass_fail_after_ops; repeat split; reflexivity.
Defined.

(** ** Updates of the pending set *)

Lemma dict_get_notin (d : dict) (k : string) :
  ~ In k (dict_keys d) -> dict_get d k = None.
Proof.
  unfold dict_keys. induction d as [|[k' v] d IH]; cbn [map fst dict_get In];
    [reflexivity|].
  intros H. destruct (String.eqb_spec k k') as [->|Hne].
  - exfalso. apply H. now left.
  - apply IH. intros Hin. apply H. now right.
Qed.

Lemma update_pending_lookup_run (new_params : dict) (w : world) :
  NoDup (dict_keys new_params) ->
  exists pend,
    update_pending_parameters new_params w
    = (with_model w (set_pending pend (mdl w)), Ok tt)
    /\ forall k,
         dict_get pend k
         = match dict_get (pending_parameters (mdl w)) k with
           | Some old => Some (dict_get_default new_params k old)
           | None => None
           end.
Proof.
  revert w. induction new_params as [|[param value] rest IH]; intros w Hnd.
  - exists (pending_parameters (mdl w)). split.
    + destruct w as [[c p h ts ct] jf cf sf sw te]. reflexivity.
    + intros k. now destruct (dict_get _ k).
  - cbn [dict_keys map fst] in Hnd. inversion Hnd as [|? ? Hnotin Hnd']; subst.
    unfold update_pending_parameters. cbn [for_each].
    unfold bind at 1. unfold bind at 1. unfold get_self at 1.
    cbv beta iota.
    destruct (dict_mem param (pending_parameters (mdl w))) eqn:Hmem.
    + unfold modify_self at 1. cbv beta iota.
      destruct (IH (with_model w
                      (set_pending (dict_set (pending_parameters (mdl w))
                                             param value) (mdl w))) Hnd')
        as (pend & Hrun & Hget).
      exists pend. split; [exact Hrun|].
      intros k. rewrite Hget.
      cbn [mdl with_model set_pending pending_parameters].
      unfold dict_get_default. cbn [dict_get].
      destruct (String.eqb_spec k param) as [->|Hne].
      * rewrite dict_get_set_same.
        rewrite (dict_get_notin rest param Hnotin).
        unfold dict_mem in Hmem.
        now destruct (dict_get (pending_parameters (mdl w)) param).
      * now rewrite (dict_get_set_other _ _ _ _ Hne).
    + unfold ret at 1. cbv beta iota.
      destruct (IH w Hnd') as (pend & Hrun & Hget).
      exists pend. split; [exact Hrun|].
      intros k. rewrite Hget. unfold dict_get_default. cbn [dict_get].
      destruct (String.eqb_spec k param) as [->|Hne]; [|reflexivity].
      unfold dict_mem in Hmem.
      now destruct (dict_get (pending_parameters (mdl w)) param).
Qed.

(** X3: [update_pending_parameters] never raises and rewrites values of the
    pending set only.  Afterwards a key the pending set had holds the
    value given for it, or its old value when none was given; a key the
    pending set did not have is still absent; the confirmed set, the
    series and the files are as before. *)
Theorem update_pending_lookup (new_params : dict) (w : world) :
  NoDup (dict_keys new_params) ->
  exists w',
    update_pending_parameters new_params w = (w', Ok tt)
    /\ (forall k,
          dict_get (pending_parameters (mdl w')) k
          = match dict_get (pending_parameters (mdl w)) k with
            | Some old => Some (dict_get_default new_params k old)
            | None => None
            end)
    /\ confirmed_parameters (mdl w') = confirmed_parameters (mdl w)
    /\ performance_history (mdl w') = performance_history (mdl w)
    /\ time_steps (mdl w') = time_steps (mdl w)
    /\ current_time (mdl w') = current_time (mdl w)
    /\ json_files w' = json_files w
    /\ store_writes w' = store_writes w.
Proof.
  intros Hnd.
  destruct (update_pending_lookup_run new_params w Hnd) as (pend & Hrun & Hget).
  eexists. split; [exact Hrun|]. split; [exact Hget|]. repeat split.
Qed.

Lemma update_pending_lookup_witness :
  exists w',
    update_pending_parameters
      [("teaching", PInt 80); ("mood", PInt 7)] blank_world = (w', Ok tt)
    /\ dict_get (pending_parameters (mdl w')) "teaching" = Some (PInt 80)
    /\ dict_get (pending_parameters (mdl w')) "materials" = Some (PInt 50)
    /\ dict_get (pending_parameters (mdl w')) "mood" = None.
Proof.
  destruct (update_pending_lookup [("teaching", PInt 80); ("mood", PInt 7)]
              blank_world) as (w' & Hrun & Hget & _).
  - repeat constructor; cbn; intuition discriminate.
  - exists w'. split; [exact Hrun|].
    rewrite !Hget. repeat split.
Defined.

(** ** Confirming twice, and confirming after start-up *)

Lemma py_ne_refl (v : pyval) : not_nan v = true -> py_ne v v = false.
Proof.
  unfold py_ne, py_eq. destruct v as [|b|z|f|s|z|b]; cbn; intros Hn.
  - reflexivity.
  - now destruct b.
  - now rewrite Z.compare_refl.
  - apply negb_true_iff in Hn. apply not_nan_Prim2SF in Hn.
    rewrite compare_spec, (SFcompare_refl _ Hn). reflexivity.
  - now rewrite String.eqb_refl.
  - now rewrite Z.compare_refl.
  - now destruct b.
Qed.

Lemma not_nan_get (d : dict) (k : string) (v : pyval) :
  forallb not_nan (map snd d) = true -> dict_get d k = Some v ->
  not_nan v = true.
Proof.
  induction d as [|[k' v'] d IH]; cbn [dict_get map snd forallb];
    [discriminate|].
  intros Hd. apply andb_prop in Hd as [H1 H2].
  destruct (String.eqb k k'); [now intros [= <-]|now apply IH].
Qed.

Lemma differs_after_merge (c p : dict) :
  forallb not_nan (map snd p) = true -> differs (merged c p) p = false.
Proof.
  intros Hp. unfold differs, merged.
  induction c as [|[k cv] c IH]; cbn [map existsb]; [reflexivity|].
  rewrite IH, orb_false_r.
  destruct (differs_at p k cv) eqn:D; [|exact D].
  unfold differs_at, dict_get_default in *.
  destruct (dict_get p k) as [pv|] eqn:E; [|discriminate].
  exact (py_ne_refl pv (not_nan_get p k pv Hp E)).
Qed.

(** X4: once [confirm_parameters] has run, no key differs any more: a
    second call right after it returns [None] and changes nothing.  This
    needs pending values other than NaN, which differs from itself. *)
Theorem confirm_parameters_settles float_repr float_sum (w : world) :
  keys_ok w ->
  forallb not_nan (map snd (pending_parameters (mdl w))) = true ->
  exists w1 r,
    confirm_parameters float_repr float_sum w = (w1, r)
    /\ differs (confirmed_parameters (mdl w1)) (pending_parameters (mdl w1))
       = false
    /\ confirm_parameters float_repr float_sum w1 = (w1, Ok None).
Proof.
  intros Hk Hn.
  destruct (confirm_parameters_frame float_repr float_sum w Hk)
    as (w1 & r & Hrun & Hc1 & Hp1 & _).
  exists w1, r. split; [exact Hrun|].
  assert (D : differs (confirmed_parameters (mdl w1))
                      (pending_parameters (mdl w1)) = false)
    by (rewrite Hc1, Hp1; now apply differs_after_merge).
  split; [exact D|].
  destruct Hk as [Hkc Hkp].
  rewrite (confirm_parameters_run float_repr float_sum w1).
  - now rewrite D.
  - now rewrite Hc1, merged_keys.
  - now rewrite Hp1.
Qed.

Lemma confirm_parameters_settles_witness :
  exists w1 r,
    confirm_parameters (fun _ => "50.0") sum_left edited_world = (w1, r)
    /\ differs (confirmed_parameters (mdl w1)) (pending_parameters (mdl w1))
       = false
    /\ confirm_parameters (fun _ => "50.0") sum_left w1 = (w1, Ok None).
Proof.
  apply confirm_parameters_settles; [split|]; reflexivity.
Defined.

Lemma init_total (w : world) :
  exists c,
    init w = (with_model w (Model c c [] [] 0), Ok tt)
    /\ dict_keys c = param_names.
Proof.
  rewrite init_run.
  destruct (json_files w store_path) as [|e|j] eqn:Hj.
  - rewrite load_absent by exact Hj. now exists fresh_parameters.
  - rewrite (load_bad _ e) by exact Hj. now exists fresh_parameters.
  - destruct (is_object j) eqn:Ho.
    + destruct j as [es|d|v]; try discriminate.
      erewrite load_object; [|exact Hj|reflexivity|reflexivity].
      now exists (loaded d).
    + rewrite (load_not_object _ j) by (trivial; reflexivity).
      now exists fresh_parameters.
Qed.

(** X5: [__init__] never raises, whatever the parameter file holds.  The
    new model has the five keys in both sets, a pending set equal to the
    confirmed one, an empty series and counter 0, and it wrote nothing;
    unless it read NaN, [confirm_parameters] right after start-up returns
    [None] and adds no point. *)
Theorem init_has_nothing_to_confirm float_repr float_sum (w : world) :
  exists w1,
    init w = (w1, Ok tt)
    /\ keys_ok w1
    /\ pending_parameters (mdl w1) = confirmed_parameters (mdl w1)
    /\ performance_history (mdl w1) = []
    /\ time_steps (mdl w1) = []
    /\ current_time (mdl w1) = 0%Z
    /\ json_files w1 = json_files w
    /\ store_writes w1 = store_writes w
    /\ (forallb not_nan (map snd (confirmed_parameters (mdl w1))) = true ->
        confirm_parameters float_repr float_sum w1 = (w1, Ok None)).
Proof.
  destruct (init_total w) as (c & Hrun & Hk).
  eexists. split; [exact Hrun|]. cbn [mdl with_model confirmed_parameters
    pending_parameters performance_history time_steps current_time
    json_files store_writes].
  split; [split; exact Hk|].
  repeat (split; [reflexivity|]).
  intros Hn.
  rewrite confirm_parameters_run by exact Hk.
  cbn [mdl with_model confirmed_parameters pending_parameters].
  replace (differs c c) with false; [reflexivity|].
  destruct (keys_params _ Hk) as (p & t & m & a & d & ->).
  cbn [params map snd forallb] in Hn.
  repeat (apply andb_prop in Hn as [? Hn]).
  unfold differs, differs_at, params; cbn -[py_ne].
  now rewrite !py_ne_refl by assumption.
Qed.

Lemma init_has_nothing_to_confirm_witness :
  exists w1,
    init (stored rising_world
            (params (PInt 10) (PFloat 20.5) (PInt 30) (PInt 40) (PInt 50)))
    = (w1, Ok tt)
    /\ confirmed_parameters (mdl w1)
       = params (PInt 10) (PFloat 20.5) (PInt 30) (PInt 40) (PInt 50)
    /\ performance_history (mdl w1) = []
    /\ confirm_parameters (fun _ => "20.5") sum_left w1 = (w1, Ok None).
Proof.
  destruct (init_has_nothing_to_confirm (fun _ => "20.5") sum_left
              (stored rising_world
                 (params (PInt 10) (PFloat 20.5) (PInt 30) (PInt 40)
                         (PInt 50))))
    as (w1 & Hrun & _ & _ & Hh & _ & _ & _ & _ & Hconf).
  exists w1. split; [exact Hrun|].
  assert (E : w1 = fst (init (stored rising_world
                 (params (PInt 10) (PFloat 20.5) (PInt 30) (PInt 40)
                         (PInt 50))))) by (now rewrite Hrun).
  split; [rewrite E; reflexivity|]. split; [exact Hh|].
  apply Hconf. rewrite E. reflexivity.
Defined.

(** X13: [confirm_parameters] is not all-or-nothing.  When a key differs
    and the new confirmed set cannot be scored (a value that is no
    number), the call raises only after it has overwritten the confirmed
    values and the parameter file; no score point is added.  The file
    then holds the new set, or, when the set has a value [json.dump] does
    not write, the text that was written up to that value. *)
Theorem confirm_parameters_raises_late float_repr float_sum (w : world)
    (e : exn) :
  keys_ok w -> store_fault w = None ->
  differs (confirmed_parameters (mdl w)) (pending_parameters (mdl w)) = true ->
  performance float_sum
    (merged (confirmed_parameters (mdl w)) (pending_parameters (mdl w)))
  = Raise e ->
  let confirmed' := merged (confirmed_parameters (mdl w))
                           (pending_parameters (mdl w)) in
  exists w',
    confirm_parameters float_repr float_sum w = (w', Raise e)
    /\ confirmed_parameters (mdl w') = confirmed'
    /\ json_files w' store_path
       = (if dumpable confirmed' then FileJson (DObject confirmed')
          else FileBad (torn_error w confirmed'))
    /\ store_writes w'
       = (if dumpable confirmed' then S (store_writes w) else store_writes w)
    /\ performance_history (mdl w') = performance_history (mdl w)
    /\ time_steps (mdl w') = time_steps (mdl w)
    /\ current_time (mdl w') = current_time (mdl w).
Proof.
  intros [Hc Hp] Hf D Hperf confirmed'.
  rewrite (confirm_parameters_run float_repr float_sum w Hc Hp), D.
  fold confirmed'. unfold bind at 1.
  destruct (dumpable confirmed') eqn:Hd.
  - rewrite save_parameters_run by first [exact Hf|exact Hd].
    unfold bind at 1.
    rewrite (calculate_performance_raise float_sum _ e) by exact Hperf.
    eexists. split; [reflexivity|]. repeat split.
  - rewrite save_parameters_torn by first [exact Hf|exact Hd].
    unfold bind at 1.
    rewrite (calculate_performance_raise float_sum _ e) by exact Hperf.
    eexists. split; [reflexivity|]. repeat split.
Qed.

Lemma confirm_parameters_raises_late_witness :
  exists w',
    confirm_parameters (fun _ => "50.0") sum_left
      (with_model blank_world
         (Model fresh_parameters
                (params (PInt 50) (PStr "high") (PInt 50) (PInt 50) (PInt 50))
                [] [] 0))
    = (w', Raise (Exn TypeError
                      "can't multiply sequence by non-int of type 'float'"))
    /\ confirmed_parameters (mdl w')
       = params (PInt 50) (PStr "high") (PInt 50) (PInt 50) (PInt 50)
    /\ json_files w' store_path
       = FileJson (DObject (params (PInt 50) (PStr "high") (PInt 50)
                                   (PInt 50) (PInt 50)))
    /\ store_writes w' = 1%nat
    /\ performance_history (mdl w') = []
    /\ time_steps (mdl w') = []
    /\ current_time (mdl w') = 0%Z.
Proof.
  apply (confirm_parameters_raises_late (fun _ => "50.0") sum_left
           (with_model blank_world
              (Model fresh_parameters
                     (params (PInt 50) (PStr "high") (PInt 50) (PInt 50)
                             (PInt 50)) [] [] 0)));
    [split| | |]; reflexivity.
Defined.

(** ** Clamping twice *)

Lemma is_nan_Prim2SF (f : float) : is_nan f = true -> Prim2SF f = S754_nan.
Proof.
  unfold is_nan. rewrite eqb_spec. unfold SFeqb. intros H.
  destruct (Prim2SF f) as [s|s| |s m e] eqn:E; [| |reflexivity|];
    rewrite SFcompare_refl in H by discriminate; discriminate.
Qed.

Lemma clamp_0_100_in_range (v : pyval) :
  in_range v = true -> clamp_0_100 v = v.
Proof.
  destruct v as [|b|z|f|s|z|b]; try discriminate.
  - now destruct b.
  - intros H. apply in_range_int in H.
    unfold clamp_0_100, py_lt, py_gt, py_order; cbn -[Z.compare].
    destruct (Z.compare_spec z 0); cbn -[Z.compare];
      destruct (Z.compare_spec z 100); cbn; try reflexivity;
      try (f_equal; lia); exfalso; lia.
  - unfold in_range, clamp_0_100, py_le, py_lt, py_gt, py_order; cbn.
    destruct (int_float_compare 0 f); cbn; try discriminate;
      destruct (int_float_compare 100 f); cbn; try discriminate; reflexivity.
  - intros H. change (in_range (PNpInt z)) with (in_range (PInt z)) in H.
    apply in_range_int in H.
    unfold clamp_0_100, py_lt, py_gt, py_order; cbn -[Z.compare].
    destruct (Z.compare_spec z 0); cbn -[Z.compare];
      destruct (Z.compare_spec z 100); cbn; try reflexivity; exfalso; lia.
  - now destruct b.
Qed.

Lemma clamp_0_100_nan (f : float) :
  is_nan f = true -> clamp_0_100 (PFloat f) = PFloat f.
Proof.
  intros H. apply is_nan_Prim2SF in H.
  unfold clamp_0_100, py_lt, py_gt, py_order; cbn.
  unfold int_float_compare. rewrite H. reflexivity.
Qed.

(** X6: the clamp [min(max(v, 0), 100)] of the import leaves every value
    in [0, 100] as it is, and clamping a number a second time changes
    nothing; so rows that were clamped once are read back unchanged. *)
Theorem clamp_param_idempotent (v : pyval) :
  (in_range v = true -> clamp_param v = Ok v)
  /\ (is_number v = true ->
      exists x, clamp_param v = Ok x /\ clamp_param x = Ok x).
Proof.
  split.
  - intros H. rewrite clamp_param_number by now apply in_range_number.
    now rewrite clamp_0_100_in_range.
  - intros Hn. exists (clamp_0_100 v).
    split; [now apply clamp_param_number|].
    destruct (not_nan v) eqn:Hnan.
    + pose proof (clamp_0_100_range v Hn Hnan) as Hr.
      rewrite clamp_param_number by now apply in_range_number.
      now rewrite clamp_0_100_in_range.
    + destruct v as [|b|z|f|s|z|b]; try discriminate.
      cbn in Hnan. apply negb_false_iff in Hnan.
      rewrite (clamp_0_100_nan f Hnan).
      rewrite clamp_param_number by reflexivity.
      now rewrite (clamp_0_100_nan f Hnan).
Qed.

Lemma clamp_param_idempotent_witness :
  clamp_param (PFloat 37.5) = Ok (PFloat 37.5)
  /\ exists x, clamp_param (PInt 250) = Ok x /\ clamp_param x = Ok x.
Proof.
  split.
  - apply (proj1 (clamp_param_idempotent (PFloat 37.5))). reflexivity.
  - apply (proj2 (clamp_param_idempotent (PInt 250))). reflexivity.
Defined.

(** ** What no operation touches *)

Lemma files_kept_refl (w : world) : files_kept w w.
Proof. repeat split. Qed.

Lemma files_kept_trans (w1 w2 w3 : world) :
  files_kept w1 w2 -> files_kept w2 w3 -> files_kept w1 w3.
Proof.
  intros (A1 & A2 & A3) (B1 & B2 & B3). repeat split.
  - now rewrite B1.
  - now rewrite B2.
  - intros p Hp. now rewrite B3, A3.
Qed.

Lemma keeps_ret {A} (a : A) : keeps_files (ret a).
Proof. intros w. apply files_kept_refl. Qed.

Lemma keeps_lift {A} (r : res A) : keeps_files (lift r).
Proof. intros w. apply files_kept_refl. Qed.

Lemma keeps_get_self : keeps_files get_self.
Proof. intros w. apply files_kept_refl. Qed.

Lemma keeps_modify_self (f : model -> model) : keeps_files (modify_self f).
Proof. intros w. repeat split. Qed.

Lemma keeps_json_load (path : string) : keeps_files (json_load path).
Proof. intros w. apply files_kept_refl. Qed.

Lemma keeps_read_csv (path : string) : keeps_files (read_csv path).
Proof. intros w. apply files_kept_refl. Qed.

Lemma keeps_path_exists (path : string) : keeps_files (path_exists path).
Proof. intros w. apply files_kept_refl. Qed.

Lemma keeps_json_dump_store (d : dict) : keeps_files (json_dump_store d).
Proof.
  intros w. unfold json_dump_store.
  destruct (store_fault w) eqn:E; cbn [fst]; [apply files_kept_refl|].
  destruct (unwritable d); cbn [fst];
    (split; [reflexivity|]; split; [cbn; now rewrite ?E|]);
    intros q Hq; cbn;
    (destruct (String.eqb_spec q store_path); [contradiction|reflexivity]).
Qed.

Lemma keeps_bind {A B} (c : M A) (k : A -> M B) :
  keeps_files c -> (forall a, keeps_files (k a)) -> keeps_files (bind c k).
Proof.
  intros Hc Hk w. unfold bind. specialize (Hc w).
  destruct (c w) as [w1 [a|e]]; cbn [fst] in *; [|exact Hc].
  exact (files_kept_trans _ _ _ Hc (Hk a w1)).
Qed.

Lemma keeps_try_except {A} (c : M A) (h : exn -> M A) :
  keeps_files c -> (forall e, keeps_files (h e)) ->
  keeps_files (try_except c h).
Proof.
  intros Hc Hh w. unfold try_except. specialize (Hc w).
  destruct (c w) as [w1 [a|e]]; cbn [fst] in *; [exact Hc|].
  exact (files_kept_trans _ _ _ Hc (Hh e w1)).
Qed.

Lemma keeps_for_each {X} (xs : list X) (body : X -> M unit) :
  (forall x, keeps_files (body x)) -> keeps_files (for_each xs body).
Proof.
  intros Hb. induction xs as [|x xs IH]; cbn [for_each];
    [apply keeps_ret|].
  apply keeps_bind; [apply Hb|intros _; exact IH].
Qed.

Lemma keeps_for_fold {X S} (xs : list X) (acc : S) (body : S -> X -> M S) :
  (forall a x, keeps_files (body a x)) -> keeps_files (for_fold xs acc body).
Proof.
  intros Hb. revert acc. induction xs as [|x xs IH]; intros acc;
    cbn [for_fold]; [apply keeps_ret|].
  apply keeps_bind; [apply Hb|intros a; apply IH].
Qed.

Ltac keeps :=
  repeat first
    [ apply keeps_ret | apply keeps_lift | apply keeps_get_self
    | apply keeps_modify_self | apply keeps_json_load | apply keeps_read_csv
    | apply keeps_path_exists | apply keeps_json_dump_store
    | apply keeps_bind | apply keeps_try_except | apply keeps_for_each
    | apply keeps_for_fold
    | match goal with
      | |- forall _, keeps_files _ => intro
      | |- forall _ _, keeps_files _ => intro
      | |- keeps_files (if ?b then _ else _) => destruct b
      | |- keeps_files (match ?x with (_, _) => _ end) => destruct x
      | |- keeps_files ((match ?x with (_, _) => _ end) _) =>
          destruct x; cbv beta
      end ].

Lemma keeps_save_parameters : keeps_files save_parameters.
Proof. unfold save_parameters. keeps. Qed.

Lemma keeps_calculate_performance float_sum :
  keeps_files (calculate_performance float_sum).
Proof. unfold calculate_performance. keeps. Qed.

Lemma keeps_import_bulk_data float_sum (path : string) :
  keeps_files (import_bulk_data float_sum path).
Proof.
  unfold import_bulk_data, import_bulk_data_body, import_row.
  keeps.
Qed.

Lemma keeps_confirm_parameters float_repr float_sum :
  keeps_files (confirm_parameters float_repr float_sum).
Proof.
  unfold confirm_parameters.
  keeps.
Qed.

Lemma keeps_update_pending_parameters (new_params : dict) :
  keeps_files (update_pending_parameters new_params).
Proof. unfold update_pending_parameters. keeps. Qed.

(** X7: whatever the path and the files, and whether it succeeds or
    fails, [import_bulk_data] leaves the pending parameters as they were
    and changes no file other than the parameter file. *)
Theorem import_bulk_data_keeps_pending float_sum (path : string) (w : world) :
  exists w' ok msg,
    import_bulk_data float_sum path w = (w', Ok (ok, msg))
    /\ pending_parameters (mdl w') = pending_parameters (mdl w)
    /\ files_kept w w'.
Proof.
  destruct (import_total float_sum path w)
    as (w' & ok & msg & done & Hrun & Hm & Hdone & _).
  exists w', ok, msg. split; [exact Hrun|]. split.
  - destruct (replay_reset float_sum done (mdl w) Hdone)
      as (scores & _ & Hrep).
    now rewrite Hm, Hrep.
  - pose proof (keeps_import_bulk_data float_sum path w) as H.
    now rewrite Hrun in H.
Qed.

Lemma run_op_keeps_files float_repr float_sum (o : op) (w : world) :
  files_kept w (run_op float_repr float_sum o w).
Proof.
  destruct o as [new_params| | |path]; cbn [run_op].
  - apply keeps_update_pending_parameters.
  - apply keeps_confirm_parameters.
  - apply keeps_calculate_performance.
  - apply keeps_import_bulk_data.
Qed.

(** X8: no sequence of updates, confirmations, scorings and imports ever
    changes a CSV file or a JSON file other than the parameter file: the
    model only reads its import files. *)
Theorem operations_keep_files float_repr float_sum (ops : list op)
    (w : world) :
  files_kept w (run_ops float_repr float_sum ops w).
Proof.
  revert w. induction ops as [|o ops IH]; intros w;
    [apply files_kept_refl|].
  apply (files_kept_trans _ (run_op float_repr float_sum o w)).
  - apply run_op_keeps_files.
  - apply IH.
Qed.

(** ** A JSON file that is not an array *)

(** X9: a JSON import file whose top level is an object, not an array of
    objects, is not read as one row.  A non-empty object makes the import
    fail on its first key, a string without a [get] method, after the
    series was emptied; the confirmed set and the parameter file stay as
    they were. *)
Theorem import_top_level_object float_sum (w : world) (path : string)
    (d : dict) :
  endswith path ".csv" = false -> endswith path ".json" = true ->
  json_files w path = FileJson (DObject d) -> d <> [] ->
  import_bulk_data float_sum path w
  = (with_model w (reset_series (mdl w)),
     Ok (false, "Import failed: 'str' object has no attribute 'get'")).
Proof.
  intros Hcsv Hjson Hj Hd.
  destruct d as [|[k v] d]; [contradiction|].
  unfold import_bulk_data, try_except.
  rewrite <- (import_body_json float_sum path w Hcsv Hjson).
  unfold bind at 1. unfold modify_self at 1. cbv beta iota.
  unfold bind at 1. unfold bind at 1. unfold json_load.
  cbn [json_files]. rewrite Hj. reflexivity.
Qed.

Lemma import_top_level_object_witness :
  import_bulk_data sum_left "row.json"
    (with_json rising_world "row.json"
               (DObject [("teaching", PInt 90)]))
  = (with_model (with_json rising_world "row.json"
                           (DObject [("teaching", PInt 90)]))
                (reset_series rising_model),
     Ok (false, "Import failed: 'str' object has no attribute 'get'")).
Proof.
  apply (import_top_level_object sum_left
           (with_json rising_world "row.json"
                      (DObject [("teaching", PInt 90)])) "row.json"
           [("teaching", PInt 90)]); try reflexivity.
  discriminate.
Defined.

(** ** The slider callback *)

Lemma pending_changes_label_run (w : world) :
  keys_ok w ->
  App.pending_changes_label w
  = (w, Ok (changes_label
              (changed_names (confirmed_parameters (mdl w))
                             (pending_parameters (mdl w))))).
Proof.
  intros [Hc Hp].
  destruct (keys_params _ Hc) as (c1 & c2 & c3 & c4 & c5 & Ec).
  destruct (keys_params _ Hp) as (p1 & p2 & p3 & p4 & p5 & Ep).
  destruct w as [[conf pend hist ts ct] jf cf sf sw te];
    cbn [mdl confirmed_parameters pending_parameters] in *. subst conf pend.
  unfold App.pending_changes_label, changed_names, differs_at.
  unfold bind at 1. unfold get_self at 1. cbv beta iota.
  cbn [mdl confirmed_parameters dict_keys params map fst for_fold].
  unfold bind, get_self, lift, ret.
  cbn -[py_ne changes_label replace_char String.concat].
  destruct (py_ne c1 p1); cbn -[py_ne changes_label replace_char String.concat];
    destruct (py_ne c2 p2);
    cbn -[py_ne changes_label replace_char String.concat];
    destruct (py_ne c3 p3);
    cbn -[py_ne changes_label replace_char String.concat];
    destruct (py_ne c4 p4);
    cbn -[py_ne changes_label replace_char String.concat];
    destruct (py_ne c5 p5); reflexivity.
Qed.

Lemma int_of_float_in_range (f : float) :
  in_range (PFloat f) = true ->
  exists n, App.int_of_float f = Ok n /\ (0 <= n <= 100)%Z.
Proof.
  unfold in_range, py_le, py_order; cbn [as_number num_compare].
  rewrite is_le_flip.
  unfold int_float_compare, App.int_of_float.
  destruct (Prim2SF f) as [s|s| |s m e].
  - intros _. exists 0%Z. split; [reflexivity|lia].
  - destruct s; discriminate.
  - discriminate.
  - destruct (0 <=? e)%Z eqn:He.
    + apply Z.leb_le in He.
      destruct (is_le (of_comparison (0 ?= _)%Z)) eqn:H0; [|discriminate].
      destruct (is_ge (of_comparison (100 ?= _)%Z)) eqn:H100; [|discriminate].
      intros _. apply of_comparison_le in H0. apply of_comparison_ge in H100.
      assert (0 < 2 ^ e)%Z by (apply Z.pow_pos_nonneg; lia).
      destruct s; [exfalso; nia|].
      eexists. split; [reflexivity|]. lia.
    + apply Z.leb_gt in He.
      destruct (is_le (of_comparison (0 * _ ?= _)%Z)) eqn:H0; [|discriminate].
      destruct (is_ge (of_comparison (100 * _ ?= _)%Z)) eqn:H100;
        [|discriminate].
      intros _. apply of_comparison_le in H0. apply of_comparison_ge in H100.
      assert (Hpow : (0 < 2 ^ (- e))%Z) by (apply Z.pow_pos_nonneg; lia).
      destruct s; [exfalso; lia|].
      eexists. split; [reflexivity|]. split.
      * apply Z.div_pos; lia.
      * apply Z.div_le_upper_bound; lia.
Qed.

Lemma in_param_names (param : string) :
  In param param_names -> existsb (String.eqb param) param_names = true.
Proof.
  unfold param_names. cbn [In].
  intros [<-|[<-|[<-|[<-|[<-|[]]]]]]; reflexivity.
Qed.

(** X10: moving a slider keeps the parameters valid.  For a recognized name
    and a slider position in [0, 100], [slider_changed] stores the integer
    part of the position, an integer in [0, 100], under that name of the
    pending set and touches nothing else there; the confirmed set is as
    before, both sets keep their five keys, values in [0, 100] stay in
    [0, 100], and the label it returns names the keys that now differ. *)
Theorem slider_changed_in_range (w : world) (param : string) (value : float) :
  keys_ok w -> In param param_names -> in_range (PFloat value) = true ->
  exists n w',
    App.slider_changed param value w
    = (w', Ok (changes_label
                 (changed_names (confirmed_parameters (mdl w'))
                                (pending_parameters (mdl w')))))
    /\ (0 <= n <= 100)%Z
    /\ App.int_of_float value = Ok n
    /\ dict_get (pending_parameters (mdl w')) param = Some (PInt n)
    /\ (forall k, k <> param ->
        dict_get (pending_parameters (mdl w')) k
        = dict_get (pending_parameters (mdl w)) k)
    /\ confirmed_parameters (mdl w') = confirmed_parameters (mdl w)
    /\ keys_ok w'
    /\ (values_ok w = true -> values_ok w' = true).
Proof.
  intros Hk Hin Hr.
  destruct (int_of_float_in_range value Hr) as (n & Hn & Hrange).
  destruct (update_pending_run [(param, PInt n)] w) as (pend & Hrun & Hkeys & Hv).
  destruct (update_pending_lookup_run [(param, PInt n)] w)
    as (pend' & Hrun' & Hget).
  { repeat constructor. intros []. }
  rewrite Hrun in Hrun'. unfold with_model, set_pending in Hrun'.
  injection Hrun' as Epend. subst pend'.
  assert (Hk' : keys_ok (with_model w (set_pending pend (mdl w)))).
  { destruct Hk as [Hc Hp]. split; cbn; [exact Hc|].
    fold (dict_keys pend). now rewrite Hkeys. }
  exists n, (with_model w (set_pending pend (mdl w))).
  split; [|split; [exact Hrange|split; [exact Hn|]]].
  - unfold App.slider_changed. unfold bind at 1. unfold lift at 1. rewrite Hn.
    unfold bind at 1. unfold lift at 1. rewrite (in_param_names _ Hin).
    unfold bind at 1. rewrite Hrun.
    now apply pending_changes_label_run.
  - cbn [mdl with_model set_pending pending_parameters confirmed_parameters].
    assert (Hold : exists old,
               dict_get (pending_parameters (mdl w)) param = Some old).
    { destruct Hk as [_ Hp].
      destruct (dict_get (pending_parameters (mdl w)) param) eqn:E;
        [now eexists|].
      exfalso. destruct (keys_params _ Hp) as (p1 & p2 & p3 & p4 & p5 & Ep).
      rewrite Ep in E. unfold param_names in Hin. cbn [In] in Hin.
      destruct Hin as [<-|[<-|[<-|[<-|[<-|[]]]]]]; discriminate E. }
    destruct Hold as [old Hold].
    split; [|split; [|split; [reflexivity|split; [exact Hk'|]]]].
    + rewrite Hget, Hold. unfold dict_get_default. cbn [dict_get].
      now rewrite String.eqb_refl.
    + intros k Hne. rewrite Hget. unfold dict_get_default. cbn [dict_get].
      destruct (String.eqb_spec k param); [contradiction|].
      now destruct (dict_get (pending_parameters (mdl w)) k).
    + unfold values_ok.
      cbn [mdl with_model set_pending pending_parameters confirmed_parameters].
      intros Hval. apply andb_prop in Hval as [Hvc Hvp].
      rewrite Hvc. cbn [andb]. apply Hv; [exact Hvp|].
      cbn [forallb snd]. rewrite andb_true_r. now apply in_range_int.
Qed.

Lemma slider_changed_in_range_witness :
  exists n w',
    App.slider_changed "teaching" 80.7 blank_world
    = (w', Ok (changes_label
                 (changed_names (confirmed_parameters (mdl w'))
                                (pending_parameters (mdl w')))))
    /\ (0 <= n <= 100)%Z
    /\ App.int_of_float 80.7 = Ok n
    /\ dict_get (pending_parameters (mdl w')) "teaching" = Some (PInt n).
Proof.
  destruct (slider_changed_in_range blank_world "teaching" 80.7)
    as (n & w' & H1 & H2 & H3 & H4 & _).
  - split; reflexivity.
  - cbn. tauto.
  - reflexivity.
  - exists n, w'. repeat split; assumption || apply H2.
Defined.

Lemma changed_names_differs (c p : dict) :
  changed_names c p = [] <-> differs c p = false.
Proof.
  unfold changed_names, differs.
  induction c as [|[k cv] c IH]; cbn [flat_map existsb]; [tauto|].
  destruct (differs_at p k cv); cbn [app orb].
  - split; discriminate.
  - exact IH.
Qed.

Lemma changes_label_none (names : list string) :
  changes_label names = ("No pending changes", "gray") <-> names = [].
Proof.
  destruct names; cbn; split; intros H; try reflexivity; discriminate.
Qed.

(** X11: the pending-changes label tells the truth about the next
    confirmation.  On a model with the five keys in both sets, the label
    reads "No pending changes" exactly when [confirm_parameters] would
    return [None]. *)
Theorem pending_label_matches_confirm float_repr float_sum (w : world) :
  keys_ok w ->
  (snd (App.pending_changes_label w) = Ok ("No pending changes", "gray")
   <-> snd (confirm_parameters float_repr float_sum w) = Ok None).
Proof.
  intros Hk. rewrite (pending_changes_label_run w Hk). cbn [snd].
  destruct Hk as [Hc Hp].
  rewrite (confirm_parameters_run float_repr float_sum w Hc Hp).
  destruct (differs _ _) eqn:D.
  - split.
    + intros [= H]. apply changes_label_none, changed_names_differs in H.
      congruence.
    + intros H. exfalso.
      destruct (save_parameters_total
                  (with_model w
                     (set_confirmed
                        (merged (confirmed_parameters (mdl w))
                                (pending_parameters (mdl w))) (mdl w))))
        as (w2 & Hsave & _).
      unfold bind at 1 in H. rewrite Hsave in H. unfold bind at 1 in H.
      destruct (calculate_performance float_sum w2) as [w3 [s|e]];
        cbn in H; discriminate H.
  - split; [reflexivity|]. intros _. f_equal.
    now apply changes_label_none, changed_names_differs.
Qed.

Lemma pending_label_matches_confirm_witness :
  (snd (App.pending_changes_label edited_world)
   = Ok ("No pending changes", "gray")
   <-> snd (confirm_parameters (fun _ => "50.0") sum_left edited_world)
       = Ok None)
  /\ snd (App.pending_changes_label edited_world)
     = Ok ("Pending changes: teaching, difficulty", "blue").
Proof.
  split.
  - apply pending_label_matches_confirm. split; reflexivity.
  - reflexivity.
Defined.

(** ** The import callback *)

(** X12: [process_import] never raises and guards the model.  For a file
    that does not exist, and for a file name ending in neither ".csv" nor
    ".json", it does not call the model at all, so the series is kept, and
    shows the reason in red; otherwise it shows the message of
    [import_bulk_data], in green when the import succeeded and in red
    when it failed. *)
Theorem process_import_outcome float_sum (present : bool)
    (filename : string) (w : world) :
  (present = false ->
   App.process_import float_sum present filename w
   = (w, Ok ("File not found: " ++ filename, "red")))
  /\ (present = true ->
      endswith filename ".csv" = false -> endswith filename ".json" = false ->
      App.process_import float_sum present filename w
      = (w, Ok ("Invalid file type. Please use .csv or .json", "red")))
  /\ (present = true ->
      endswith filename ".csv" || endswith filename ".json" = true ->
      exists w' ok msg,
        import_bulk_data float_sum filename w = (w', Ok (ok, msg))
        /\ App.process_import float_sum present filename w
           = (w', Ok (msg, if ok then "green" else "red"))).
Proof.
  split; [|split].
  - intros ->. reflexivity.
  - intros -> Hcsv Hjson. unfold App.process_import.
    rewrite Hcsv, Hjson. reflexivity.
  - intros -> Hsuffix.
    destruct (import_total float_sum filename w)
      as (w' & ok & msg & done & Hrun & _).
    exists w', ok, msg. split; [exact Hrun|].
    unfold App.process_import, try_except. rewrite Hsuffix.
    cbn [negb]. unfold bind. rewrite Hrun.
    destruct ok; reflexivity.
Qed.

Lemma process_import_outcome_witness :
  App.process_import sum_left false "history.json" rising_world
  = (rising_world, Ok ("File not found: history.json", "red"))
  /\ App.process_import sum_left true "notes.txt" rising_world
     = (rising_world,
        Ok ("Invalid file type. Please use .csv or .json", "red"))
  /\ exists w' ok msg,
       import_bulk_data sum_left "history.json"
         (with_json rising_world "history.json" (DArray three_rows))
       = (w', Ok (ok, msg))
       /\ App.process_import sum_left true "history.json"
            (with_json rising_world "history.json" (DArray three_rows))
          = (w', Ok (msg, if ok then "green" else "red")).
Proof.
  split; [|split].
  - apply (proj1 (process_import_outcome sum_left false "history.json"
                    rising_world)). reflexivity.
  - apply (proj1 (proj2 (process_import_outcome sum_left true "notes.txt"
                           rising_world))); reflexivity.
  - apply (proj2 (proj2 (process_import_outcome sum_left true "history.json"
                           (with_json rising_world "history.json"
                                      (DArray three_rows)))));
      reflexivity.
Defined.

(** ** One scoring step *)

(** X14: [calculate_performance] is all or nothing.  Either it returns a
    score in [0, 100] and has appended that score and the current time
    and added one to the counter, or it raises and has changed nothing:
    the history and the time steps are never left apart. *)
Theorem calculate_performance_all_or_nothing float_sum (w : world) :
  (exists score,
     calculate_performance float_sum w
     = (with_model w
          (Model (confirmed_parameters (mdl w)) (pending_parameters (mdl w))
                 (performance_history (mdl w) ++ [score])
                 (time_steps (mdl w) ++ [current_time (mdl w)])
                 (current_time (mdl w) + 1)),
        Ok score)
     /\ in_range score = true)
  \/ (exists e, calculate_performance float_sum w = (w, Raise e)).
Proof.
  destruct (performance float_sum (confirmed_parameters (mdl w)))
    as [score|e] eqn:Hp.
  - left. exists score. split.
    + now rewrite (calculate_performance_run float_sum w score Hp).
    + exact (performance_in_range float_sum _ _ Hp).
  - right. exists e. exact (calculate_performance_raise float_sum w e Hp).
Qed.

(** ** A CSV file of integers *)

Lemma columns_get_in (cols : list (string * column)) (k : string)
    (c : column) :
  columns_get cols k = Some c -> In (k, c) cols.
Proof.
  induction cols as [|[label c'] cols IH]; cbn [columns_get In];
    [discriminate|].
  destruct (String.eqb_spec k label) as [->|Hne].
  - intros [= ->]. now left.
  - intros H. right. now apply IH.
Qed.

Lemma columns_set_forall (P : column -> Prop) (cols : list (string * column))
    (col : string) (c : column) :
  Forall (fun lc => P (snd lc)) cols -> P c ->
  Forall (fun lc => P (snd lc)) (columns_set cols col c).
Proof.
  intros Hcols Hc.
  induction Hcols as [|[label c'] cols H Hcols IH]; cbn [columns_set].
  - now repeat constructor.
  - destruct (String.eqb col label); constructor; trivial.
Qed.

(** The loop over the recognized columns keeps a frame of integer columns
    one. *)
Lemma numeric_step_integers (df : dataframe) (col : string) :
  Forall (fun lc => column_dtype (snd lc) = DtInt64) (df_columns df) ->
  Forall (fun lc => column_dtype (snd lc) = DtInt64)
         (df_columns (numeric_step df col)).
Proof.
  intros H. unfold numeric_step.
  destruct (frame_get df col) as [c|] eqn:E; cbn [frame_set df_columns];
    apply (columns_set_forall (fun c => column_dtype c = DtInt64)); trivial.
  apply columns_get_in in E. rewrite Forall_forall in H.
  specialize (H _ E). cbn [snd] in H.
  destruct c as [[cells|cells|cells]|cells n]; try discriminate H.
  reflexivity.
Qed.

Lemma numeric_columns_integers (df : dataframe) :
  Forall (fun lc => column_dtype (snd lc) = DtInt64) (df_columns df) ->
  Forall (fun lc => column_dtype (snd lc) = DtInt64)
         (df_columns (numeric_columns param_names df)).
Proof.
  intros H. unfold numeric_columns, param_names; cbn [fold_left].
  now repeat apply numeric_step_integers.
Qed.

Lemma row_dtype_integers (df : dataframe) :
  df_columns df <> [] ->
  Forall (fun lc => column_dtype (snd lc) = DtInt64) (df_columns df) ->
  row_dtype df = DtInt64.
Proof.
  unfold row_dtype. destruct (df_columns df) as [|[label c] cols];
    [contradiction|].
  intros _ H. inversion H as [|? ? Hc Hcols]; subst. cbn [map snd] in *.
  rewrite Hc. clear -Hcols.
  induction Hcols as [|[l c'] cols Hc' _ IH]; cbn [map fold_left snd];
    [reflexivity|].
  cbn [snd] in Hc'. now rewrite Hc'.
Qed.

(** In the rows of a frame of integer columns every recognized value is a
    NumPy integer. *)
Lemma integer_rows_get (df : dataframe) (i : nat) (k : string) :
  Forall (fun lc => column_dtype (snd lc) = DtInt64) (df_columns df) ->
  In k param_names ->
  exists z,
    dict_get_default (frame_row (numeric_columns param_names df) i) k
                     (PInt 50)
    = PNpInt z.
Proof.
  intros Hint Hk.
  pose proof (numeric_columns_integers df Hint) as Hall.
  pose proof (numeric_columns_get df k Hk) as Hget.
  assert (Hne : df_columns (numeric_columns param_names df) <> []).
  { intros E. unfold frame_get in Hget. rewrite E in Hget. discriminate. }
  rewrite (csv_row_get df i k Hk), (row_dtype_integers _ Hne Hall).
  apply columns_get_in in Hget. rewrite Forall_forall in Hall.
  specialize (Hall _ Hget). cbn [snd] in Hall.
  destruct (csv_column df k) as [cells|cells|cells]; try discriminate Hall.
  now exists (cells i).
Qed.

(** A NumPy integer within [0, 100] passes the clamp as it is, and
    [json.dump] does not write it. *)
Lemma row_values_not_dumpable (row : dict) (k : string) (z : Z) :
  In k param_names ->
  dict_get_default row k (PInt 50) = PNpInt z ->
  in_range (PNpInt z) = true ->
  dumpable (row_values row) = false.
Proof.
  unfold param_names; cbn [In].
  intros Hk Hget Hr. pose proof (clamp_0_100_in_range _ Hr) as Hc.
  unfold dumpable, row_values, params; cbn [map snd forallb].
  destruct Hk as [<-|[<-|[<-|[<-|[<-|[]]]]]]; rewrite Hget, Hc;
    cbn [json_ok andb]; rewrite ?andb_false_r; reflexivity.
Qed.

(** X15: a CSV file whose columns all hold integers is imported with
    success, and its last row is not saved.  The rows of such a frame
    hand out [numpy.int64] values; one of them within [0, 100] passes the
    clamp as it is, [json.dump] raises on it inside [save_parameters],
    which swallows the exception, and the parameter file, emptied when it
    was opened, is left with a text that cannot be read back: the import
    still returns [True], and the next start-up falls back to 50 for all
    five parameters. *)
Theorem import_integer_csv_unsaved float_sum (w : world) (path : string)
    (df : dataframe) (rows : list dict) (row : dict) (k : string) :
  store_fault w = None ->
  endswith path ".csv" = true ->
  csv_files w path = Ok df ->
  dict_keys (confirmed_parameters (mdl w)) = param_names ->
  Forall (fun lc => column_dtype (snd lc) = DtInt64) (df_columns df) ->
  csv_rows df = (rows ++ [row])%list ->
  In k param_names ->
  in_range (dict_get_default row k (PInt 50)) = true ->
  exists w' w2,
    import_bulk_data float_sum path w
    = (w', Ok (true, imported_message (List.length (csv_rows df))))
    /\ confirmed_parameters (mdl w') = row_values row
    /\ dumpable (row_values row) = false
    /\ json_files w' store_path = FileBad (torn_error w (row_values row))
    /\ store_writes w' = store_writes w
    /\ init w' = (w2, Ok tt)
    /\ confirmed_parameters (mdl w2) = fresh_parameters.
Proof.
  intros Hf Hcsv Hdf Hk Hint Hrows Hin Hr.
  assert (Hrow : In row (csv_rows df))
    by (rewrite Hrows; apply in_or_app; right; now left).
  destruct (csv_rows_in df row Hrow) as (i & _ & Ei).
  destruct (integer_rows_get df i k Hint Hin) as [z Hz].
  rewrite <- Ei in Hz. rewrite Hz in Hr.
  pose proof (row_values_not_dumpable row k z Hin Hz Hr) as Hd.
  destruct (import_finish_run float_sum w path (map row_values (csv_rows df))
              (df <- read_csv path ;;
               self <- get_self ;;
               let df := numeric_columns
                           (dict_keys (confirmed_parameters self)) df in
               for_each (iterrows df) (fun row =>
                 import_row float_sum
                   (fun k default => Ok (dict_get_default row k default))))%M)
    as (scores & HF & Hrun).
  { unfold import_bulk_data_body. rewrite Hcsv. reflexivity. }
  { now apply import_csv_loop. }
  { apply numeric_rows_perform, csv_rows_numeric. }
  { exact Hf. }
  assert (Hlast : last (map row_values (csv_rows df))
                       (confirmed_parameters (mdl w)) = row_values row)
    by (rewrite Hrows, map_app; apply last_last).
  rewrite Hlast, Hd, length_map in Hrun.
  eexists. eexists. split; [exact Hrun|].
  split; [reflexivity|]. split; [exact Hd|].
  split; [cbn [json_files torn]; now rewrite String.eqb_refl|].
  split; [reflexivity|].
  rewrite init_run.
  rewrite (load_bad _ (torn_error w (row_values row)))
    by (cbn [json_files torn with_model]; now rewrite String.eqb_refl).
  split; reflexivity.
Qed.

Lemma import_integer_csv_unsaved_witness :
  exists w' w2,
    import_bulk_data sum_left "marks.csv"
      (with_csv blank_world "marks.csv" integer_frame)
    = (w', Ok (true, "Successfully imported 2 records"))
    /\ confirmed_parameters (mdl w')
       = params (PNpInt 70) (PNpInt 65) (PNpInt 60) (PNpInt 45) (PNpInt 35)
    /\ dumpable
         (params (PNpInt 70) (PNpInt 65) (PNpInt 60) (PNpInt 45) (PNpInt 35))
       = false
    /\ json_files w' store_path = FileBad stops_at_first_value
    /\ store_writes w' = 0%nat
    /\ init w' = (w2, Ok tt)
    /\ confirmed_parameters (mdl w2) = fresh_parameters.
Proof.
  exact (import_integer_csv_unsaved sum_left
           (with_csv blank_world "marks.csv" integer_frame) "marks.csv"
           integer_frame
           [frame_row (numeric_columns param_names integer_frame) 0]
           (frame_row (numeric_columns param_names integer_frame) 1)
           "preparedness" eq_refl eq_refl eq_refl eq_refl
           ltac:(repeat constructor) eq_refl (or_introl eq_refl) eq_refl).
Defined.
